(** * sentry-api-cli: configuration loader, client pool and command dispatch

    A shallow embedding of
      - src/utils/config-loader.ts   (loadConfig, getSentryClientOptions),
      - src/cli/wrapper.ts           (wrapper.runCommand, the REPL dispatcher;
                                      connect, handleCommand, printHelp and
                                      disconnect),
      - src/commands/helpers.ts      (printAvailableCommands,
                                      printCommandDetail, getCurrentVersion),
      - src/utils/arg-parser.ts      (parseArguments, printGeneralHelp),
    together with the client pool of src/utils/sentry-utils.ts, whose source
    is not part of the checkout and is therefore modelled from the
    specification (module SentryUtil).

    JavaScript values are untyped at run time: the loader casts the parsed
    YAML header to Partial<Config> without checking it, so the model works
    on a small universe of JavaScript values rather than on the TypeScript
    interfaces. *)

From Stdlib Require Import String Ascii ZArith Bool.
From stdpp Require Import gmap strings list pretty.

Set Warnings "-register-all".

(* ===================================================================== *)
(** * Part I: the model                                                   *)
(* ===================================================================== *)

(** ** JavaScript values, truthiness, property reads, exceptions *)

Module Js.

(** Line feed and double quote, the two characters of the source's string
    literals that cannot be typed inside a literal here. *)
Definition LF : string := String "010"%char EmptyString.
Definition DQ : string := String "034"%char EmptyString.

(** [quoted s] is the text of s between double quotes. *)
Definition quoted (s : string) : string := DQ +:+ s +:+ DQ.

(** The values JSON.parse and yaml.parse can produce, plus undefined, plus
    what a property read can reach through the prototype chain: the
    built-in functions, each kept as its name.  Numbers are restricted to
    integers; an object is the list of its own properties in the order
    Object.keys enumerates them (integer-like keys first, ascending, then
    the other keys as they were inserted). *)
Inductive value : Type :=
| VUndefined
| VNull
| VBool (b : bool)
| VNum (n : Z)
| VStr (s : string)
| VArr (elems : list value)
| VObj (props : list (string * value))
| VFunction (name : string).

(** ToBoolean: undefined, null, false, 0 and the empty string are falsy. *)
Definition truthy (v : value) : bool :=
  match v with
  | VUndefined | VNull => false
  | VBool b => b
  | VNum n => negb (n =? 0)%Z
  | VStr EmptyString => false
  | VStr (String _ _) => true
  | VArr _ | VObj _ | VFunction _ => true
  end.

(** [a || b] *)
Definition js_or (a b : value) : value := if truthy a then a else b.

(** [typeof v === 'object'] (true of null as well). *)
Definition typeof_object (v : value) : bool :=
  match v with
  | VNull | VArr _ | VObj _ => true
  | _ => false
  end.

(** What is thrown: an Error object (its constructor name and message) or
    any other value, kept as its String(...) conversion. *)
Inductive exn : Type :=
| ErrorObject (name message : string)
| ThrownValue (text : string).

Definition Error (message : string) : exn := ErrorObject "Error" message.
Definition TypeError (message : string) : exn := ErrorObject "TypeError" message.

(** [error instanceof Error ? error.message : String(error)] *)
Definition errorMessage (e : exn) : string :=
  match e with
  | ErrorObject _ message => message
  | ThrownValue text => text
  end.

(** The outcome of evaluating an expression or a call. *)
Inductive completion (A : Type) : Type :=
| Return (a : A)
| Throw (e : exn).
Arguments Return {A} a.
Arguments Throw {A} e.

(** Sequencing of computations that may throw. *)
Definition andThen {A B : Type} (m : completion A) (f : A -> completion B)
    : completion B :=
  match m with
  | Return a => f a
  | Throw e => Throw e
  end.

Notation "'let!' x := m 'in' k" := (andThen m (fun x => k))
  (at level 10, x name, m at level 100, k at level 200, only parsing).

(** First binding of key k in a property list. *)
Fixpoint assoc (k : string) (props : list (string * value)) : option value :=
  match props with
  | [] => None
  | (k', v) :: rest => if String.eqb k k' then Some v else assoc k rest
  end.

(** Object.entries: own enumerable properties; an array's are its indices. *)
Definition entries (v : value) : list (string * value) :=
  match v with
  | VObj props => props
  | VArr elems => imap (fun i e => (pretty i, e)) elems
  | _ => []
  end.

(** Object.keys *)
Definition keys (v : value) : list string := (entries v).*1.

(** The string-keyed members of the built-in prototypes, as of ECMAScript
    2023.  length is left out where every instance has a length of its
    own. *)
Definition Object_prototype : list string :=
  [ "constructor"; "__defineGetter__"; "__defineSetter__"; "hasOwnProperty";
    "__lookupGetter__"; "__lookupSetter__"; "isPrototypeOf"; "propertyIsEnumerable";
    "toString"; "valueOf"; "__proto__"; "toLocaleString" ].

Definition Function_prototype : list string :=
  [ "constructor"; "apply"; "bind"; "call"; "toString" ].

Definition Array_prototype : list string :=
  [ "constructor"; "at"; "concat"; "copyWithin"; "fill"; "find"; "findIndex";
    "findLast"; "findLastIndex"; "lastIndexOf"; "pop"; "push"; "reverse"; "shift";
    "unshift"; "slice"; "sort"; "splice"; "includes"; "indexOf"; "join"; "keys";
    "entries"; "values"; "forEach"; "filter"; "flat"; "flatMap"; "map"; "every";
    "some"; "reduce"; "reduceRight"; "toReversed"; "toSorted"; "toSpliced"; "with";
    "toLocaleString"; "toString" ].

Definition String_prototype : list string :=
  [ "constructor"; "anchor"; "at"; "big"; "blink"; "bold"; "charAt"; "charCodeAt";
    "codePointAt"; "concat"; "endsWith"; "fontcolor"; "fontsize"; "fixed";
    "includes"; "indexOf"; "italics"; "lastIndexOf"; "link"; "localeCompare";
    "match"; "matchAll"; "normalize"; "padEnd"; "padStart"; "repeat"; "replace";
    "replaceAll"; "search"; "slice"; "small"; "split"; "strike"; "sub"; "substr";
    "substring"; "sup"; "startsWith"; "toString"; "trim"; "trimStart"; "trimLeft";
    "trimEnd"; "trimRight"; "toLocaleLowerCase"; "toLocaleUpperCase"; "toLowerCase";
    "toUpperCase"; "valueOf" ].

Definition Number_prototype : list string :=
  [ "constructor"; "toExponential"; "toFixed"; "toPrecision"; "toString";
    "valueOf"; "toLocaleString" ].

Definition Boolean_prototype : list string := [ "constructor"; "toString"; "valueOf" ].

(** The member k found along a chain of prototypes, each given by the name
    of its constructor and the names it defines.  Every member is a
    function but __proto__, which reads the first prototype of the chain,
    [proto]: a prototype has no enumerable property of its own and is
    represented by the empty object, Array.prototype by the empty array and
    Function.prototype, which is callable, by a function. *)
Fixpoint along (proto : value) (chain : list (string * list string)) (k : string)
    : value :=
  match chain with
  | [] => VUndefined
  | (owner, names) :: rest =>
      if existsb (String.eqb k) names then
        if String.eqb k "__proto__" then proto
        else if String.eqb k "constructor" then VFunction owner
        else VFunction (owner +:+ ".prototype." +:+ k)
      else along proto rest k
  end.

(** What a value whose prototype is [kind].prototype inherits under the
    name k: undefined when neither that prototype nor Object.prototype has
    the name. *)
Definition inherited (kind : string) (proto : value) (names : list string) (k : string)
    : value :=
  along proto [(kind, names); ("Object", Object_prototype)] k.

(** What a plain object inherits under the name k. *)
Definition from_Object (k : string) : value :=
  along (VObj []) [("Object", Object_prototype)] k.

Arguments inherited : simpl never.
Arguments from_Object : simpl never.

(** The index a key denotes, if any: a decimal numeral with no
    superfluous leading zero. *)
Definition digit (c : ascii) : option nat :=
  let n := nat_of_ascii c in
  if (48 <=? n) && (n <=? 57) then Some (n - 48) else None.

Fixpoint numeral (s : string) (acc : nat) : option nat :=
  match s with
  | EmptyString => Some acc
  | String c s' =>
      match digit c with
      | Some d => numeral s' (10 * acc + d)
      | None => None
      end
  end.

Definition index_of (k : string) : option nat :=
  match k with
  | EmptyString => None
  | String c EmptyString => digit c
  | String c _ => if Ascii.eqb c "0"%char then None else numeral k 0
  end.

(** The character of a text at an index, as the text of that one character
    (for ASCII text). *)
Definition character (s : string) (k : string) : option value :=
  i ← index_of k;
  c ← list_ascii_of_string s !! i;
  Some (VStr (String c EmptyString)).

(** [v[k]] and [v.k]: reading a property of undefined or null throws a
    TypeError; otherwise the value's own property is read, then the
    prototype chain, and a name found nowhere reads as undefined.  A
    built-in function is represented as far as the program can observe
    it: it is truthy, its methods are those of Function.prototype and
    Object.prototype, and the names the program reads from one
    (authToken, organization, baseUrl) are defined by no built-in; the
    data properties length, name and prototype and the statics of the
    individual built-ins are not represented. *)
Definition get_prop (v : value) (k : string) : completion value :=
  match v with
  | VUndefined =>
      Throw (TypeError ("Cannot read properties of undefined (reading '" +:+ k +:+ "')"))
  | VNull =>
      Throw (TypeError ("Cannot read properties of null (reading '" +:+ k +:+ "')"))
  | VObj props => Return (default (from_Object k) (assoc k props))
  | VArr elems =>
      if String.eqb k "length" then Return (VNum (Z.of_nat (length elems)))
      else Return (default (inherited "Array" (VArr []) Array_prototype k)
                     (assoc k (entries v)))
  | VStr s =>
      if String.eqb k "length" then Return (VNum (Z.of_nat (String.length s)))
      else Return (default (inherited "String" (VObj []) String_prototype k)
                     (character s k))
  | VNum _ => Return (inherited "Number" (VObj []) Number_prototype k)
  | VBool _ => Return (inherited "Boolean" (VObj []) Boolean_prototype k)
  | VFunction _ =>
      Return (inherited "Function" (VFunction "Function.prototype") Function_prototype k)
  end.

(** [recv.startsWith(prefix)] as the loader calls it on profile.baseUrl:
    only strings have the method; calling the undefined member of another
    value throws. *)
Definition startsWith (recv : value) (prefix : string) : completion bool :=
  match recv with
  | VStr s => Return (String.prefix prefix s)
  | _ => Throw (TypeError "profile.baseUrl.startsWith is not a function")
  end.

(** Array.prototype.join on strings. *)
Fixpoint join (sep : string) (l : list string) : string :=
  match l with
  | [] => EmptyString
  | [x] => x
  | x :: rest => x +:+ sep +:+ join sep rest
  end.

(** String.prototype.includes, as a proposition. *)
Definition includes (s sub : string) : Prop :=
  exists pre post, s = pre +:+ sub +:+ post.

End Js.

(** ** src/utils/config-loader.ts *)

Module ConfigLoader.
Import Js.

(** The part of the file system the loader looks at. *)
Inductive node : Type :=
| File (content : string)
| Directory.

Abbreviation filesystem := (gmap string node).

(** fs.existsSync *)
Definition existsSync (fs : filesystem) (p : string) : bool :=
  match fs !! p with
  | Some _ => true
  | None => false
  end.

(** fs.readFileSync(p, 'utf-8') *)
Definition readFileSync (fs : filesystem) (p : string) : completion string :=
  match fs !! p with
  | Some (File content) => Return content
  | Some Directory =>
      Throw (ErrorObject "Error" "EISDIR: illegal operation on a directory, read")
  | None =>
      Throw (ErrorObject "Error" ("ENOENT: no such file or directory, open '" +:+ p +:+ "'"))
  end.

(** interface Config, as loadConfig builds it at run time. *)
Record Config : Type := {
  profiles : value;
  defaultProfile : value;
  defaultFormat : value
}.

(** interface SentryClientOptions *)
Record SentryClientOptions : Type := {
  authToken : value;
  organization : value;
  baseUrl : value
}.

(** The lazy group of /^---\n([\s\S]*?)\n---/: the shortest text before the
    first occurrence of the closing marker. *)
Fixpoint until_marker (marker s : string) : option string :=
  if String.prefix marker s then Some EmptyString
  else match s with
       | EmptyString => None
       | String c s' => String c <$> until_marker marker s'
       end.

Fixpoint drop_chars (n : nat) (s : string) : string :=
  match n, s with
  | S n', String _ s' => drop_chars n' s'
  | _, _ => s
  end.

(** content.match(/^---\n([\s\S]*?)\n---/), group 1 *)
Definition match_frontmatter (content : string) : option string :=
  if String.prefix ("---" +:+ LF) content
  then until_marker (LF +:+ "---") (drop_chars 4 content)
  else None.

Definition required : list string := ["authToken"; "organization"].

Definition DEFAULT_BASE_URL : string := "https://sentry.io/api/0".

(** The inner loop over the required fields of one profile. *)
Fixpoint check_required (profileName : string) (profile : value)
    (fields : list string) : completion unit :=
  match fields with
  | [] => Return tt
  | field :: rest =>
      let! v := get_prop profile field in
      if truthy v then check_required profileName profile rest
      else Throw (Error ("Profile " +:+ quoted profileName +:+
                         " missing required field: " +:+ field))
  end.

(** [profile.baseUrl && !profile.baseUrl.startsWith('http://') &&
     !profile.baseUrl.startsWith('https://')], then the throw. *)
Definition check_baseUrl (profileName : string) (profile : value) : completion unit :=
  let! b := get_prop profile "baseUrl" in
  if truthy b then
    let! http := startsWith b "http://" in
    if http then Return tt
    else
      let! https := startsWith b "https://" in
      if https then Return tt
      else Throw (Error ("Profile " +:+ quoted profileName +:+
                         " baseUrl must start with http:// or https://"))
  else Return tt.

(** One iteration of the loop over Object.entries(config.profiles). *)
Definition validate_profile (entry : string * value) : completion unit :=
  let '(profileName, profile) := entry in
  let! _ := check_required profileName profile required in
  check_baseUrl profileName profile.

(** The whole loop: the first failing profile throws. *)
Fixpoint validate_profiles (l : list (string * value)) : completion unit :=
  match l with
  | [] => Return tt
  | entry :: rest => let! _ := validate_profile entry in validate_profiles rest
  end.

(** [Object.keys(o)[0]] *)
Definition first_key (o : value) : value :=
  match keys o with
  | [] => VUndefined
  | k :: _ => VStr k
  end.

Section Load.

(** Node's path.join and the yaml package's parse are taken as given. *)
Variable path_join : list string -> string.
Variable yaml_parse : string -> completion value.

Definition configPath (projectRoot : string) : string :=
  path_join [projectRoot; ".claude"; "sentry-config.local.md"].

(** Lines 60-84 of config-loader.ts: validation and defaulting of the
    parsed header. *)
Definition validate (config : value) : completion Config :=
  let! ps := get_prop config "profiles" in
  if negb (truthy ps) || negb (typeof_object ps) then
    Throw (Error ("Configuration must include " +:+ quoted "profiles" +:+ " object"))
  else
    let! _ := validate_profiles (entries ps) in
    let! dp := get_prop config "defaultProfile" in
    let! df := get_prop config "defaultFormat" in
    Return {| profiles := ps;
              defaultProfile := js_or dp (first_key ps);
              defaultFormat := js_or df (VStr "json") |}.

Definition loadConfig (fs : filesystem) (projectRoot : string) : completion Config :=
  let configPath := configPath projectRoot in
  if negb (existsSync fs configPath) then
    Throw (Error ("Configuration file not found at " +:+ configPath +:+ LF +:+
                  "Please create .claude/sentry-config.local.md with your Sentry profiles."))
  else
    let! content := readFileSync fs configPath in
    match match_frontmatter content with
    | None =>
        Throw (Error "Invalid configuration file format. Expected YAML frontmatter (---...---) at the beginning.")
    | Some frontmatter =>
        let! config := yaml_parse frontmatter in
        validate config
    end.

End Load.

Definition getSentryClientOptions (config : Config) (profileName : string)
    : completion SentryClientOptions :=
  let! profile := get_prop (profiles config) profileName in
  if negb (truthy profile) then
    let availableProfiles := join ", " (keys (profiles config)) in
    Throw (Error ("Profile " +:+ quoted profileName +:+
                  " not found. Available profiles: " +:+ availableProfiles))
  else
    let! a := get_prop profile "authToken" in
    let! o := get_prop profile "organization" in
    let! b := get_prop profile "baseUrl" in
    Return {| authToken := a;
              organization := o;
              baseUrl := js_or b (VStr DEFAULT_BASE_URL) |}.

End ConfigLoader.

(** ** config/constants.ts *)

Module Constants.

(** Modelled from the spec: config/constants.ts is not in src.  COMMANDS is
    the catalog of thirteen command names, in the order the specification
    and tests/unit/utils/arg-parser.test.ts (validCommands) list them. *)
Definition COMMANDS : list string :=
  [ "list-project-events"; "list-project-issues"; "list-org-issues";
    "get-issue"; "update-issue"; "list-issue-events"; "get-event";
    "get-issue-event"; "get-tag-details"; "list-tag-values";
    "list-issue-hashes"; "debug-source-maps"; "test-connection" ].

End Constants.

(** ** utils/sentry-utils.ts and utils/sentry-client.ts: the client pool *)

Module SentryUtil.
Import Js ConfigLoader.

(** Modelled from the spec: the declaration of ApiResult is not in src.
    It is the tagged union returned by every operation, either
    {success: true, result} or {success: false, error}. *)
Inductive ApiResult : Type :=
| Success (result : string)
| Failure (error : string).

(** Modelled from the spec: the client class is not in src.  A client
    handle is an object bound to one resolved options triple; object
    identity is represented by the serial number of its construction. *)
Record Client : Type := {
  client_id : nat;
  client_options : SentryClientOptions
}.

(** Modelled from the spec: the registry state is not in src.  It is the
    process-wide mapping from profile name to client handle; [constructed]
    counts the clients built so far in the process and is what makes a
    freshly built handle distinct from every earlier one. *)
Record Registry : Type := {
  clients : gmap string Client;
  constructed : nat
}.

(** The registry at process start. *)
Definition initial : Registry := {| clients := ∅; constructed := 0 |}.

Section Pool.

Variable path_join : list string -> string.
Variable yaml_parse : string -> completion value.

(** Modelled from the spec: on a miss getClient loads the configuration
    and resolves the options of the profile through the loader. *)
Definition resolve (fs : filesystem) (projectRoot profileName : string)
    : completion SentryClientOptions :=
  let! config := loadConfig path_join yaml_parse fs projectRoot in
  getSentryClientOptions config profileName.

(** Modelled from the spec: getClient is not in src.  First call for a
    profile name: resolve, construct, store, return; later calls: return
    the stored handle without reconstruction; an error of loading or
    resolution is propagated and nothing is stored. *)
Definition getClient (fs : filesystem) (projectRoot profileName : string)
    (r : Registry) : completion Client * Registry :=
  match clients r !! profileName with
  | Some c => (Return c, r)
  | None =>
      match resolve fs projectRoot profileName with
      | Throw e => (Throw e, r)
      | Return options =>
          let c := {| client_id := constructed r; client_options := options |} in
          (Return c, {| clients := <[profileName := c]> (clients r);
                        constructed := S (constructed r) |})
      end
  end.

(** Modelled from the spec: clearClients (clearAll) is not in src.  It
    unconditionally empties the registry. *)
Definition clearClients (r : Registry) : Registry :=
  {| clients := ∅; constructed := constructed r |}.

(** A run of getClient calls, each for some profile name and with the
    files that are on disk at its time; exceptions of the calls are
    dropped, the registry is threaded through. *)
Fixpoint getClients (calls : list (filesystem * string * string)) (r : Registry)
    : Registry :=
  match calls with
  | [] => r
  | (fs, projectRoot, profileName) :: rest =>
      getClients rest (getClient fs projectRoot profileName r).2
  end.

(** The registries a process can be in: the initial one, and those that
    getClient and clearClients lead to, whatever the files on disk are at
    the time of each call and whether the call succeeds or throws. *)
Inductive reachable : Registry -> Prop :=
| reachable_initial : reachable initial
| reachable_getClient fs root name r :
    reachable r -> reachable (getClient fs root name r).2
| reachable_clearClients r :
    reachable r -> reachable (clearClients r).

End Pool.

(** Every stored handle was constructed before the counter's value. *)
Definition well_formed (r : Registry) : Prop :=
  forall p c, clients r !! p = Some c -> client_id c < constructed r.

End SentryUtil.

(** ** src/cli/wrapper.ts: the interactive dispatcher *)

Module Wrapper.
Import Js ConfigLoader SentryUtil.

(** The calls runCommand makes into utils/sentry-client.ts, with their
    arguments in source order. *)
Inductive api_call : Type :=
| listProjectEvents (profile projectSlug args format : value)
| listProjectIssues (profile projectSlug args format : value)
| listOrgIssues (profile args format : value)
| getIssue (profile issueId format : value)
| updateIssue (profile issueId args : value)
| listIssueEvents (profile issueId args format : value)
| getEvent (profile projectSlug eventId format : value)
| getIssueEvent (profile issueId eventId format : value)
| getTagDetails (profile issueId tagKey args format : value)
| listTagValues (profile issueId tagKey args format : value)
| listIssueHashes (profile issueId format : value)
| debugSourceMaps (profile projectSlug eventId args format : value)
| testConnection (profile : value).

(** What runCommand does to the outside world, in order. *)
Inductive event : Type :=
| ConsoleLog (args : list string)
| ConsoleError (args : list string)
| Prompt
| Remote (call : api_call).

(** A computation of the wrapper: the events it emitted and how it ended. *)
Definition M (A : Type) : Type := list event * completion A.

Definition ret {A : Type} (a : A) : M A := ([], Return a).

Definition seq {A B : Type} (m : M A) (f : A -> M B) : M B :=
  match m with
  | (t, Return a) => let '(t', r) := f a in (t ++ t', r)
  | (t, Throw e) => (t, Throw e)
  end.

Notation "'run!' x := m 'in' k" := (seq m (fun x => k))
  (at level 10, x name, m at level 100, k at level 200, only parsing).

(** try { body } catch (error) { handler } *)
Definition try_catch {A : Type} (body : M A) (handler : exn -> M A) : M A :=
  match body with
  | (t, Return a) => (t, Return a)
  | (t, Throw e) => let '(t', r) := handler e in (t ++ t', r)
  end.

Definition lift {A : Type} (c : completion A) : M A := ([], c).
Definition emit (e : event) : M unit := ([e], Return tt).

(** The fields of the wrapper object that runCommand reads. *)
Record wrapper : Type := {
  config : option Config;
  currentProfile : value;
  currentFormat : value
}.

Section RunCommand.

(** JSON.parse and String.prototype.trim are taken as given, and so are
    the thirteen functions of utils/sentry-client.ts, which either return
    an ApiResult or throw. *)
Variable JSON_parse : string -> completion value.
Variable trim : string -> string.
Variable api : api_call -> completion ApiResult.

Definition call (c : api_call) : M ApiResult := ([Remote c], api c).

(** [arg && arg.trim() !== '' ? JSON.parse(arg) : {}] *)
Definition parse_args (arg : string) : completion value :=
  match arg with
  | EmptyString => Return (VObj [])
  | _ => if String.eqb (trim arg) EmptyString then Return (VObj [])
         else JSON_parse arg
  end.

(** console.error(message); this.rl.prompt(); return; *)
Definition reject (message : string) : M (option ApiResult) :=
  run! _ := emit (ConsoleError [message]) in
  run! _ := emit Prompt in
  ret None.

(** A case of the switch guarded by [if (!args.a)], with the message it
    reports. *)
Definition with_one (args : value) (a : string) (message : string)
    (k : value -> api_call) : M (option ApiResult) :=
  run! x := lift (get_prop args a) in
  if negb (truthy x) then reject message
  else run! result := call (k x) in ret (Some result).

(** A case of the switch guarded by [if (!args.a || !args.b)], with the
    message it reports. *)
Definition with_two (args : value) (a b : string) (message : string)
    (k : value -> value -> api_call) : M (option ApiResult) :=
  run! x := lift (get_prop args a) in
  if negb (truthy x) then reject message
  else
    run! y := lift (get_prop args b) in
    if negb (truthy y) then reject message
    else run! result := call (k x y) in ret (Some result).

(** The switch over the command name; None stands for a case that
    returned from runCommand. *)
Definition dispatch (command : string) (args profile format : value)
    : M (option ApiResult) :=
  if String.eqb command "list-project-events" then
    with_one args "projectSlug"
      ("ERROR: " +:+ quoted "projectSlug" +:+ " parameter is required")
      (fun projectSlug => listProjectEvents profile projectSlug args format)
  else if String.eqb command "list-project-issues" then
    with_one args "projectSlug"
      ("ERROR: " +:+ quoted "projectSlug" +:+ " parameter is required")
      (fun projectSlug => listProjectIssues profile projectSlug args format)
  else if String.eqb command "list-org-issues" then
    run! result := call (listOrgIssues profile args format) in ret (Some result)
  else if String.eqb command "get-issue" then
    with_one args "issueId"
      ("ERROR: " +:+ quoted "issueId" +:+ " parameter is required")
      (fun issueId => getIssue profile issueId format)
  else if String.eqb command "update-issue" then
    with_one args "issueId"
      ("ERROR: " +:+ quoted "issueId" +:+ " parameter is required")
      (fun issueId => updateIssue profile issueId args)
  else if String.eqb command "list-issue-events" then
    with_one args "issueId"
      ("ERROR: " +:+ quoted "issueId" +:+ " parameter is required")
      (fun issueId => listIssueEvents profile issueId args format)
  else if String.eqb command "get-event" then
    with_two args "projectSlug" "eventId"
      ("ERROR: " +:+ quoted "projectSlug" +:+ " and " +:+ quoted "eventId" +:+
       " parameters are required")
      (fun projectSlug eventId => getEvent profile projectSlug eventId format)
  else if String.eqb command "get-issue-event" then
    with_two args "issueId" "eventId"
      ("ERROR: " +:+ quoted "issueId" +:+ " and " +:+ quoted "eventId" +:+
       " parameters are required")
      (fun issueId eventId => getIssueEvent profile issueId eventId format)
  else if String.eqb command "get-tag-details" then
    with_two args "issueId" "tagKey"
      ("ERROR: " +:+ quoted "issueId" +:+ " and " +:+ quoted "tagKey" +:+
       " parameters are required")
      (fun issueId tagKey => getTagDetails profile issueId tagKey args format)
  else if String.eqb command "list-tag-values" then
    with_two args "issueId" "tagKey"
      ("ERROR: " +:+ quoted "issueId" +:+ " and " +:+ quoted "tagKey" +:+
       " parameters are required")
      (fun issueId tagKey => listTagValues profile issueId tagKey args format)
  else if String.eqb command "list-issue-hashes" then
    with_one args "issueId"
      ("ERROR: " +:+ quoted "issueId" +:+ " parameter is required")
      (fun issueId => listIssueHashes profile issueId format)
  else if String.eqb command "debug-source-maps" then
    with_two args "projectSlug" "eventId"
      ("ERROR: " +:+ quoted "projectSlug" +:+ " and " +:+ quoted "eventId" +:+
       " parameters are required")
      (fun projectSlug eventId =>
         debugSourceMaps profile projectSlug eventId args format)
  else if String.eqb command "test-connection" then
    run! result := call (testConnection profile) in ret (Some result)
  else
    reject ("Unknown command: " +:+ command +:+ ". Type " +:+ quoted "commands" +:+
            " to see available commands.").

(** [if (result.success) console.log('\n' + result.result)
     else console.error('\n' + result.error)] *)
Definition display (result : ApiResult) : M unit :=
  match result with
  | Success text => emit (ConsoleLog [LF +:+ text])
  | Failure error => emit (ConsoleError [LF +:+ error])
  end.

Definition loaded (w : wrapper) : bool :=
  match config w with
  | Some _ => truthy (currentProfile w)
  | None => false
  end.

Definition runCommand (w : wrapper) (command arg : string) : M unit :=
  if negb (loaded w) then
    run! _ := emit (ConsoleLog ["Configuration not loaded!"]) in
    emit Prompt
  else
    run! returned :=
      try_catch
        (run! args := lift (parse_args arg) in
         run! p := lift (get_prop args "profile") in
         let profile := js_or p (currentProfile w) in
         run! f := lift (get_prop args "format") in
         let format := js_or f (currentFormat w) in
         run! outcome := dispatch command args profile format in
         match outcome with
         | None => ret true
         | Some result => run! _ := display result in ret false
         end)
        (fun error =>
           run! _ := emit (ConsoleError ["Error running command:"; errorMessage error]) in
           ret false) in
    if returned : bool then ret tt else emit Prompt.

(** The ways the switch can end: a rejection that has returned from
    runCommand, the result of the one call it made, the exception of that
    call, or an exception before any call. *)
Inductive dispatched : M (option ApiResult) -> Prop :=
| dispatched_rejected message :
    dispatched ([ConsoleError [message]; Prompt], Return None)
| dispatched_returned c result :
    api c = Return result -> dispatched ([Remote c], Return (Some result))
| dispatched_threw c e :
    api c = Throw e -> dispatched ([Remote c], Throw e)
| dispatched_failed e : dispatched ([], Throw e).

End RunCommand.

(** The trace of a rejected command. *)
Definition rejected (message : string) : list event :=
  [ConsoleError [message]; Prompt].

(** The text of the default case of the switch. *)
Definition unknown_message (command : string) : string :=
  "Unknown command: " +:+ command +:+ ". Type " +:+ quoted "commands" +:+
  " to see available commands.".

(** How runCommand reports the outcome of the call it dispatched. *)
Definition report (outcome : completion ApiResult) : event :=
  match outcome with
  | Return (Success text) => ConsoleLog [LF +:+ text]
  | Return (Failure error) => ConsoleError [LF +:+ error]
  | Throw e => ConsoleError ["Error running command:"; errorMessage e]
  end.

(** The remote calls among the events of a trace. *)
Definition remote_calls (t : list event) : list api_call :=
  omap (fun e => match e with Remote c => Some c | _ => None end) t.

End Wrapper.

(** ** src/commands/helpers.ts *)

Module Helpers.
Import Js Wrapper.

(** getCurrentVersion *)
Definition getCurrentVersion : string := "1.2.0".

(** Array.prototype.indexOf on strings; None stands for -1. *)
Fixpoint indexOf (name : string) (l : list string) : option nat :=
  match l with
  | [] => None
  | x :: rest => if String.eqb x name then Some 0 else S <$> indexOf name rest
  end.

Section Tables.

(** The three tables of config/constants.ts, which is not in src, and
    String.prototype.trim are taken as given. *)
Variable COMMANDS : list string.
Variable COMMANDS_INFO : list string.
Variable COMMANDS_DETAIL : list string.
Variable trim : string -> string.

(** [COMMANDS_INFO[i]] inside a template literal: a missing element
    prints as undefined. *)
Definition info_text (i : nat) : string :=
  match COMMANDS_INFO !! i with
  | Some info => info
  | None => "undefined"
  end.

Definition printAvailableCommands : list event :=
  ConsoleLog [LF +:+ "Available Sentry commands:"] ::
  imap (fun i name =>
          ConsoleLog [pretty (i + 1) +:+ ". " +:+ name +:+ ": " +:+ info_text i])
       COMMANDS.

(** [x || fallback] on an array element that may be missing. *)
Definition or_else (x : option string) (fallback : string) : string :=
  match x with
  | Some (String c s) => String c s
  | _ => fallback
  end.

Definition printCommandDetail (command : string) : list event :=
  let name := trim command in
  match name with
  | EmptyString =>
      ConsoleLog ["Please provide a command name."] :: printAvailableCommands
  | _ =>
      match indexOf name COMMANDS with
      | None => ConsoleLog ["Unknown command: " +:+ name] :: printAvailableCommands
      | Some idx =>
          let info := or_else (COMMANDS_INFO !! idx) "No additional information available." in
          let detail := trim (or_else (COMMANDS_DETAIL !! idx) EmptyString) in
          [ConsoleLog [name +:+ LF +:+ info +:+
                       match detail with
                       | EmptyString => EmptyString
                       | _ => LF +:+ detail
                       end]]
      end
  end.

End Tables.
End Helpers.

(** ** src/cli/wrapper.ts: the rest of the class *)

Module Repl.
Import Js ConfigLoader SentryUtil Wrapper Helpers.

(** What the REPL does to the outside world: the events of runCommand,
    console.clear(), clearClients() and this.rl.close(). *)
Inductive action : Type :=
| Out (e : event)
| ConsoleClear
| ClearClients
| Close.

(** How a method of the REPL ends: it returns with the fields of the
    wrapper as they are now, or the process exits. *)
Inductive ending : Type :=
| Continues (w : wrapper)
| Exits (code : nat).

(** [s.substring(n)] for a text whose first n characters are ASCII. *)
Fixpoint substring_from (n : nat) (s : string) : string :=
  match n, s with
  | S n', String _ s' => substring_from n' s'
  | _, _ => s
  end.

(** The text before the first space and, when there is one, the text
    after it: [s.substring(0, i)] and [s.substring(i + 1)] for
    [i = s.indexOf(' ')]. *)
Fixpoint split_space (s : string) : string * option string :=
  match s with
  | EmptyString => (EmptyString, None)
  | String c s' =>
      if Ascii.eqb c " "%char then (EmptyString, Some s')
      else let '(before, after) := split_space s' in (String c before, after)
  end.

Section Session.

Variable path_join : list string -> string.
Variable yaml_parse : string -> completion value.
Variable JSON_parse : string -> completion value.
Variable trim : string -> string.
Variable api : api_call -> completion ApiResult.
(** The conversion of a value inside a template literal, which throws a
    TypeError for an object that has no usable toString or valueOf. *)
Variable ToString : value -> completion string.
Variable COMMANDS : list string.
Variable COMMANDS_INFO : list string.
Variable COMMANDS_DETAIL : list string.

(** printHelp(): the text is built first, and nothing is printed when a
    conversion throws. *)
Definition printHelp (w : wrapper) : completion (list action) :=
  let version := getCurrentVersion in
  let currentProfile := js_or (currentProfile w) (VStr "none") in
  let currentFormat := currentFormat w in
  let commandList := join ", " COMMANDS in
  let! profile := ToString currentProfile in
  let! format := ToString currentFormat in
  Return [Out (ConsoleLog [join LF
    [ EmptyString;
      "Sentry API CLI v" +:+ version;
      EmptyString;
      "Current Settings:";
      "  Profile: " +:+ profile;
      "  Format:  " +:+ format;
      EmptyString;
      "Usage:";
      EmptyString;
      "commands              list all available Sentry API commands";
      "<command> -h          quick help on <command>";
      "<command> <arg>       run <command> with JSON argument";
      "profile <name>        switch to a different Sentry profile";
      "profiles              list all available profiles";
      "format <type>         set output format (json, toon)";
      "clear                 clear the screen";
      "exit, quit, q         exit the CLI";
      EmptyString;
      "All commands:";
      EmptyString;
      commandList;
      EmptyString;
      "Examples:";
      "  list-org-issues";
      "  list-project-issues {" +:+ quoted "projectSlug" +:+ ":" +:+ quoted "my-project" +:+ "}";
      "  get-issue {" +:+ quoted "issueId" +:+ ":" +:+ quoted "123456789" +:+ "}";
      "  test-connection";
      EmptyString;
      EmptyString ]])].

(** connect(): the project root is CLAUDE_PROJECT_ROOT when set and not
    empty, the working directory otherwise. *)
Definition projectRoot (env : option string) (cwd : string) : string :=
  match env with
  | Some (String c s) => String c s
  | _ => cwd
  end.

(** The catch block of connect(). *)
Definition connect_catch (error : exn) : list action * ending :=
  ([ Out (ConsoleError ["Failed to load configuration:"; errorMessage error]);
     Out (ConsoleError [LF +:+ "Make sure:"]);
     Out (ConsoleError ["1. .claude/sentry-config.local.md exists"]);
     Out (ConsoleError ["2. The file contains valid Sentry profiles in YAML frontmatter"]) ],
   Exits 1).

(** The session connect() sets up from a loaded configuration. *)
Definition opened (cfg : Config) : wrapper :=
  {| config := Some cfg;
     currentProfile := defaultProfile cfg;
     currentFormat := defaultFormat cfg |}.

(** The help text is printed inside the try block, so a conversion that
    throws while it is built ends connect as a failure of the loader
    does. *)
Definition connect (env : option string) (cwd : string) (fs : filesystem)
    : list action * ending :=
  match loadConfig path_join yaml_parse fs (projectRoot env cwd) with
  | Return cfg =>
      match printHelp (opened cfg) with
      | Return t => (t, Continues (opened cfg))
      | Throw error => connect_catch error
      end
  | Throw error => connect_catch error
  end.

Definition disconnect : list action :=
  [ Out (ConsoleLog [LF +:+ "Closing Sentry connections..."]); ClearClients; Close ].

(** The branch of handleCommand for [profile <name>]. *)
Definition switch_profile (w : wrapper) (trimmed : string)
    : list action * completion wrapper :=
  let newProfile := trim (substring_from 8 trimmed) in
  let not_found (available : string) :=
    ([ Out (ConsoleError ["ERROR: Profile " +:+ quoted newProfile +:+
                          " not found. Available: " +:+ available]);
       Out Prompt ], Return w) in
  match config w with
  | Some cfg =>
      match get_prop (profiles cfg) newProfile with
      | Throw e => ([], Throw e)
      | Return profile =>
          if truthy profile then
            ([ Out (ConsoleLog ["✓ Switched to profile: " +:+ newProfile]);
               Out Prompt ],
             Return {| config := config w;
                       currentProfile := VStr newProfile;
                       currentFormat := currentFormat w |})
          else not_found (join ", " (keys (profiles cfg)))
      end
  | None => not_found "none"
  end.

(** The branch of handleCommand for [format <type>]. *)
Definition switch_format (w : wrapper) (trimmed : string)
    : list action * completion wrapper :=
  let newFormat := trim (substring_from 7 trimmed) in
  if String.eqb newFormat "json" || String.eqb newFormat "toon" then
    ([ Out (ConsoleLog ["✓ Output format set to: " +:+ newFormat]); Out Prompt ],
     Return {| config := config w;
               currentProfile := currentProfile w;
               currentFormat := VStr newFormat |})
  else
    ([ Out (ConsoleError ["ERROR: Invalid format. Choose: json or toon"]); Out Prompt ],
     Return w).

(** The branch of handleCommand for [profiles]. *)
Definition list_profiles (w : wrapper) : list action :=
  match config w with
  | Some cfg =>
      Out (ConsoleLog [LF +:+ "Available profiles:"]) ::
      imap (fun i name =>
              let current :=
                match currentProfile w with
                | VStr s => if String.eqb name s then " (current)" else EmptyString
                | _ => EmptyString
                end in
              Out (ConsoleLog [pretty (i + 1) +:+ ". " +:+ name +:+ current]))
           (keys (profiles cfg))
  | None => []
  end.

Definition handleCommand (w : wrapper) (input : string)
    : list action * completion wrapper :=
  let trimmed := trim input in
  match trimmed with
  | EmptyString => ([Out Prompt], Return w)
  | _ =>
  if String.eqb trimmed "exit" || String.eqb trimmed "quit" || String.eqb trimmed "q" then
    (disconnect, Return w)
  else if String.eqb trimmed "help" || String.eqb trimmed "?" then
    match printHelp w with
    | Return t => (t ++ [Out Prompt], Return w)
    | Throw e => ([], Throw e)
    end
  else if String.eqb trimmed "commands" then
    (map Out (printAvailableCommands COMMANDS COMMANDS_INFO) ++ [Out Prompt], Return w)
  else if String.eqb trimmed "clear" then
    ([ConsoleClear; Out Prompt], Return w)
  else if String.prefix "profile " trimmed then switch_profile w trimmed
  else if String.prefix "format " trimmed then switch_format w trimmed
  else if String.eqb trimmed "profiles" then
    (list_profiles w ++ [Out Prompt], Return w)
  else
    let '(command, after) := split_space trimmed in
    let arg := match after with
               | None => EmptyString
               | Some text => trim text
               end in
    if String.eqb arg "-h" then
      (map Out (printCommandDetail COMMANDS COMMANDS_INFO COMMANDS_DETAIL trim command)
         ++ [Out Prompt], Return w)
    else
      let '(t, r) := runCommand JSON_parse trim api w command arg in
      (map Out t, andThen r (fun _ => Return w))
  end.

End Session.

End Repl.

(** ** src/utils/arg-parser.ts *)

Module ArgParser.
Import Js Wrapper Helpers.

(** How parseArguments ends: the process exits, or the promise resolves
    to a boolean, or it is rejected. *)
Inductive outcome : Type :=
| Exited (code : nat)
| Resolved (b : bool)
| Rejected (e : exn).

(** What parseArguments does before it ends: console output, and the
    headless run of a command with its two arguments. *)
Inductive step : Type :=
| Printed (e : event)
| Headless (command : string) (params flag : option string).

Section Parse.

Variable COMMANDS : list string.
Variable COMMANDS_INFO : list string.
Variable COMMANDS_DETAIL : list string.
Variable trim : string -> string.
(** runCommand of commands/runner.ts, which is not in src: it resolves,
    exits the process with a status of its own, or is rejected. *)
Variable runner : string -> option string -> option string -> completion (option nat).

Definition printGeneralHelp : list event :=
  [ConsoleLog [join LF
    [ EmptyString;
      "Sentry CLI";
      EmptyString;
      "Usage:";
      EmptyString;
      "npx sentry-api-cli                   start interactive CLI";
      "npx sentry-api-cli --commands        list all available commands";
      "npx sentry-api-cli <command> -h      quick help on <command>";
      "npx sentry-api-cli <command> <arg>   run command in headless mode";
      EmptyString;
      "All commands:";
      EmptyString;
      join ", " COMMANDS;
      EmptyString;
      "Examples:";
      "  npx sentry-api-cli list-org-issues";
      "  npx sentry-api-cli list-project-issues '{" +:+ quoted "projectSlug" +:+ ":" +:+
        quoted "my-project" +:+ "}'";
      "  npx sentry-api-cli get-issue '{" +:+ quoted "issueId" +:+ ":" +:+
        quoted "123456789" +:+ "}'";
      "  npx sentry-api-cli test-connection";
      EmptyString;
      EmptyString ]]].

(** [COMMANDS.includes(name)] *)
Definition includes_command (name : string) : bool :=
  existsb (String.eqb name) COMMANDS.

(** [rest.find(a => a.startsWith('-')) ?? null] and its negation. *)
Definition find_flag (rest : list string) : option string :=
  head (filter (fun a => String.prefix "-" a = true) rest).
Definition find_params (rest : list string) : option string :=
  head (filter (fun a => String.prefix "-" a = false) rest).

(** The body of the loop at index i, where [rest] is args from index i. *)
Fixpoint loop (args : list string) (i : nat) (rest : list string)
    : list step * outcome :=
  match rest with
  | [] => ([], Resolved false)
  | a :: rest' =>
      if String.eqb a "--version" || String.eqb a "-v" then
        ([Printed (ConsoleLog [getCurrentVersion])], Exited 0)
      else if String.eqb a "--commands" then
        (map Printed (printAvailableCommands COMMANDS COMMANDS_INFO), Exited 0)
      else if Nat.eqb i 0 && Nat.leb 2 (length args) &&
              bool_decide (args !! 1 = Some "-h") then
        (map Printed (printCommandDetail COMMANDS COMMANDS_INFO COMMANDS_DETAIL trim
                        (default EmptyString (args !! 0))), Exited 0)
      else if String.eqb a "--help" || String.eqb a "-h" then
        (map Printed printGeneralHelp, Exited 0)
      else if Nat.eqb i 0 && Nat.leb 1 (length args) &&
              negb (bool_decide (args !! 1 = Some "-h")) &&
              includes_command (default EmptyString (args !! 0)) then
        let rest := drop 1 args in
        let params := find_params rest in
        let flag := find_flag rest in
        let command := default EmptyString (args !! 0) in
        match runner command params flag with
        | Throw e => ([Headless command params flag], Rejected e)
        | Return (Some code) => ([Headless command params flag], Exited code)
        | Return None => ([Headless command params flag], Exited 0)
        end
      else loop args (S i) rest'
  end.

Definition parseArguments (args : list string) : list step * outcome :=
  loop args 0 args.

End Parse.
End ArgParser.

(* ===================================================================== *)
(** * Part II: the vocabulary of the specification, and sample inputs     *)
(* ===================================================================== *)

Module Spec.
Import Js ConfigLoader.

(** Following the specification (data model, Profile): authToken and
    organization are mandatory, and baseUrl, when present, begins with
    http:// or https://. *)
Definition valid_profile (profile : value) : Prop :=
  exists fields a o,
    profile = VObj fields /\
    assoc "authToken" fields = Some (VStr a) /\ a <> EmptyString /\
    assoc "organization" fields = Some (VStr o) /\ o <> EmptyString /\
    forall u, assoc "baseUrl" fields = Some u ->
      exists s, u = VStr s /\
        (String.prefix "http://" s = true \/ String.prefix "https://" s = true).

(** Following the specification: a valid configuration is a mapping from
    names to valid profiles. *)
Definition valid_config (config : Config) : Prop :=
  exists props,
    profiles config = VObj props /\
    forall name profile, assoc name props = Some profile -> valid_profile profile.

(** Following the specification (dispatcher): the thirteen supported
    commands and their required-parameter sets. *)
Definition catalog : list (string * list string) :=
  [ ("list-project-events", ["projectSlug"]);
    ("list-project-issues", ["projectSlug"]);
    ("list-org-issues", []);
    ("get-issue", ["issueId"]);
    ("update-issue", ["issueId"]);
    ("list-issue-events", ["issueId"]);
    ("get-event", ["projectSlug"; "eventId"]);
    ("get-issue-event", ["issueId"; "eventId"]);
    ("get-tag-details", ["issueId"; "tagKey"]);
    ("list-tag-values", ["issueId"; "tagKey"]);
    ("list-issue-hashes", ["issueId"]);
    ("debug-source-maps", ["projectSlug"; "eventId"]);
    ("test-connection", []) ].

(** Following the specification: the message for a missing required
    parameter names the parameter, or both joined with the word and. *)
Definition required_message (names : list string) : string :=
  match names with
  | [a] => "ERROR: " +:+ quoted a +:+ " parameter is required"
  | [a; b] => "ERROR: " +:+ quoted a +:+ " and " +:+ quoted b +:+
              " parameters are required"
  | _ => EmptyString
  end.

(** The parameter object without one of its parameters. *)
Fixpoint omit (name : string) (params : list (string * value))
    : list (string * value) :=
  match params with
  | [] => []
  | (k, v) :: rest =>
      if String.eqb name k then omit name rest else (k, v) :: omit name rest
  end.

End Spec.

Module Samples.
Import Js ConfigLoader SentryUtil Wrapper.

(** path.join on segments that need no normalisation. *)
Definition posix_join (segments : list string) : string := join "/" segments.

(** A YAML parser that knows one header. *)
Definition parse_only (header : string) (doc : value) (text : string)
    : completion value :=
  if String.eqb text header then Return doc
  else Throw (ErrorObject "YAMLParseError" "unexpected input").

Definition root : string := "/srv/app".

(** The file system with one configuration document under [root]. *)
Definition disk (header : string) : filesystem :=
  {[ "/srv/app/.claude/sentry-config.local.md" :=
       File ("---" +:+ LF +:+ header +:+ LF +:+ "---" +:+ LF) ]}.

Definition profile_of (token org : string) : value :=
  VObj [("authToken", VStr token); ("organization", VStr org)].

(** Two profiles and no defaults (the first-profile-default test). *)
Definition header_two : string :=
  "profiles: {first: {authToken: FIRST_TOKEN, organization: first-org}, second: {authToken: SECOND_TOKEN, organization: second-org}}".
Definition doc_two : value :=
  VObj [("profiles",
         VObj [("first", profile_of "FIRST_TOKEN" "first-org");
               ("second", profile_of "SECOND_TOKEN" "second-org")])].

(** production and staging, the latter with a baseUrl. *)
Definition header_staging : string :=
  "profiles: {production: {authToken: PROD_TOKEN, organization: prod-org}, staging: {authToken: STAGING_TOKEN, organization: staging-org, baseUrl: https://staging.sentry.io/api/0}}".
Definition profiles_staging : value :=
  VObj [("production", profile_of "PROD_TOKEN" "prod-org");
        ("staging",
         VObj [("authToken", VStr "STAGING_TOKEN");
               ("organization", VStr "staging-org");
               ("baseUrl", VStr "https://staging.sentry.io/api/0")])].
Definition doc_staging : value := VObj [("profiles", profiles_staging)].
Definition config_staging : Config :=
  {| profiles := profiles_staging;
     defaultProfile := VStr "production";
     defaultFormat := VStr "json" |}.

(** An empty profiles mapping (the empty-profiles test). *)
Definition header_empty : string := "profiles: {}".
Definition doc_empty : value := VObj [("profiles", VObj [])].

(** defaultProfile set to the empty string. *)
Definition header_blank_default : string :=
  "profiles: {first: {authToken: FIRST_TOKEN, organization: first-org}}" +:+ LF +:+
  "defaultProfile: ''".
Definition doc_blank_default : value :=
  VObj [("profiles", VObj [("first", profile_of "FIRST_TOKEN" "first-org")]);
        ("defaultProfile", VStr EmptyString)].

(** A profile whose organization is present and empty. *)
Definition header_blank_org : string :=
  "profiles: {broken: {authToken: TOKEN_HERE, organization: ''}}".
Definition doc_blank_org : value :=
  VObj [("profiles",
         VObj [("broken", VObj [("authToken", VStr "TOKEN_HERE");
                                ("organization", VStr EmptyString)])])].

(** A JSON parser that knows the texts of a table. *)
Definition json_lookup (table : list (string * value)) (text : string)
    : completion value :=
  match assoc text table with
  | Some v => Return v
  | None => Throw (ErrorObject "SyntaxError" "Unexpected token")
  end.

(** The argument {"issueId":""} and its parameter object. *)
Definition arg_blank_issue : string :=
  "{" +:+ quoted "issueId" +:+ ":" +:+ quoted EmptyString +:+ "}".
Definition json_texts : list (string * value) :=
  [ ("{}", VObj []);
    (arg_blank_issue, VObj [("issueId", VStr EmptyString)]) ].

(** A session of the REPL after connect() on the staging configuration. *)
Definition session : wrapper :=
  {| config := Some config_staging;
     currentProfile := VStr "production";
     currentFormat := VStr "json" |}.

(** The client built first in a fresh process for production. *)
Definition first_client : Client :=
  {| client_id := 0;
     client_options := {| authToken := VStr "PROD_TOKEN";
                          organization := VStr "prod-org";
                          baseUrl := VStr "https://sentry.io/api/0" |} |}.

(** A client layer whose every call throws. *)
Definition offline (c : api_call) : completion ApiResult :=
  Throw (Error "connect ECONNREFUSED").

End Samples.

(** The parts of a call of the client layer. *)

Module Calls.
Import Js SentryUtil Wrapper.

(** The command whose case of the switch makes a call. *)
Definition call_command (c : api_call) : string :=
  match c with
  | listProjectEvents _ _ _ _ => "list-project-events"
  | listProjectIssues _ _ _ _ => "list-project-issues"
  | listOrgIssues _ _ _ => "list-org-issues"
  | getIssue _ _ _ => "get-issue"
  | updateIssue _ _ _ => "update-issue"
  | listIssueEvents _ _ _ _ => "list-issue-events"
  | getEvent _ _ _ _ => "get-event"
  | getIssueEvent _ _ _ _ => "get-issue-event"
  | getTagDetails _ _ _ _ _ => "get-tag-details"
  | listTagValues _ _ _ _ _ => "list-tag-values"
  | listIssueHashes _ _ _ => "list-issue-hashes"
  | debugSourceMaps _ _ _ _ _ => "debug-source-maps"
  | testConnection _ => "test-connection"
  end.

(** The first argument of every call. *)
Definition call_profile (c : api_call) : value :=
  match c with
  | listProjectEvents p _ _ _ | listProjectIssues p _ _ _ | listOrgIssues p _ _
  | getIssue p _ _ | updateIssue p _ _ | listIssueEvents p _ _ _
  | getEvent p _ _ _ | getIssueEvent p _ _ _ | getTagDetails p _ _ _ _
  | listTagValues p _ _ _ _ | listIssueHashes p _ _ | debugSourceMaps p _ _ _ _
  | testConnection p => p
  end.

(** The identifying arguments of a call, in the order they are passed. *)
Definition call_required (c : api_call) : list value :=
  match c with
  | listProjectEvents _ s _ _ | listProjectIssues _ s _ _ => [s]
  | listOrgIssues _ _ _ | testConnection _ => []
  | getIssue _ i _ | updateIssue _ i _ | listIssueEvents _ i _ _
  | listIssueHashes _ i _ => [i]
  | getEvent _ s e _ | debugSourceMaps _ s e _ _ => [s; e]
  | getIssueEvent _ i e _ => [i; e]
  | getTagDetails _ i t _ _ | listTagValues _ i t _ _ => [i; t]
  end.

(** The format argument of the calls that take one. *)
Definition call_format (c : api_call) : option value :=
  match c with
  | listProjectEvents _ _ _ f | listProjectIssues _ _ _ f | listOrgIssues _ _ f
  | getIssue _ _ f | listIssueEvents _ _ _ f | getEvent _ _ _ f
  | getIssueEvent _ _ _ f | getTagDetails _ _ _ _ f | listTagValues _ _ _ _ f
  | listIssueHashes _ _ f | debugSourceMaps _ _ _ _ f => Some f
  | updateIssue _ _ _ | testConnection _ => None
  end.

(** The whole parameter object, for the calls that are passed it. *)
Definition call_args (c : api_call) : option value :=
  match c with
  | listProjectEvents _ _ a _ | listProjectIssues _ _ a _ | listOrgIssues _ a _
  | updateIssue _ _ a | listIssueEvents _ _ a _ | getTagDetails _ _ _ a _
  | listTagValues _ _ _ a _ | debugSourceMaps _ _ _ a _ => Some a
  | getIssue _ _ _ | getEvent _ _ _ _ | getIssueEvent _ _ _ _
  | listIssueHashes _ _ _ | testConnection _ => None
  end.

End Calls.

(** Shapes of documents, profiles, traces and sessions that the
    properties of Part III speak of. *)

Module Shapes.
Import Js ConfigLoader SentryUtil Wrapper Repl.

(** The opening line and the closing marker of the header block. *)
Definition opening : string := "---" +:+ LF.
Definition closing : string := LF +:+ "---".

(** What the loop has checked of a profile that passed. *)
Definition checked (profile : value) : Prop :=
  exists a o b,
    get_prop profile "authToken" = Return a /\ truthy a = true /\
    get_prop profile "organization" = Return o /\ truthy o = true /\
    get_prop profile "baseUrl" = Return b /\
    (truthy b = false \/
     exists s, b = VStr s /\
       (String.prefix "http://" s = true \/ String.prefix "https://" s = true)).

(** The switch followed by the call it selected. *)
Definition calling (api : api_call -> completion ApiResult) (c : api_call)
    : M (option ApiResult) :=
  seq (call api c) (fun result => ret (Some result)).

(** What a line may change of the session: never the configuration; the
    format only to json or toon; the profile only to a name under which
    the configuration holds a truthy entry. *)
Definition kept (w w' : wrapper) : Prop :=
  config w' = config w /\
  (currentFormat w' = currentFormat w \/
   currentFormat w' = VStr "json" \/ currentFormat w' = VStr "toon") /\
  (currentProfile w' = currentProfile w \/
   exists cfg name profile,
     config w = Some cfg /\
     get_prop (profiles cfg) name = Return profile /\
     truthy profile = true /\
     currentProfile w' = VStr name).

(** The actions that neither prompt nor shut the session down. *)
Definition quiet (a : action) : Prop :=
  match a with
  | Out Prompt | ClearClients | Close => False
  | _ => True
  end.

(** The actions that are console output. *)
Definition printed (a : action) : Prop :=
  match a with
  | Out (ConsoleLog _) | Out (ConsoleError _) => True
  | _ => False
  end.

End Shapes.

(** Further sample inputs. *)

Module MoreSamples.
Import Js ConfigLoader SentryUtil Wrapper Helpers Repl ArgParser Samples.

(** String.prototype.trim on ASCII text: blanks, tabs, line feeds and
    carriage returns are removed at both ends. *)
Definition blank (c : ascii) : bool :=
  Ascii.eqb c " "%char || Ascii.eqb c "009"%char ||
  Ascii.eqb c "010"%char || Ascii.eqb c "013"%char.

Fixpoint trim_start (s : string) : string :=
  match s with
  | String c s' => if blank c then trim_start s' else s
  | EmptyString => EmptyString
  end.

Fixpoint trim_end (s : string) : string :=
  match s with
  | String c s' =>
      match trim_end s' with
      | EmptyString => if blank c then EmptyString else String c EmptyString
      | rest => String c rest
      end
  | EmptyString => EmptyString
  end.

Definition ascii_trim (s : string) : string := trim_end (trim_start s).

(** The conversion of a value inside a template literal.  A mapping with
    a toString entry of its own has no usable conversion (the entry is data,
    and the inherited valueOf returns the mapping itself), so it throws; the
    elements of a list are converted in turn, undefined and null to the
    empty text; a built-in function is shown by its name. *)
Fixpoint to_text (v : value) : completion string :=
  match v with
  | VUndefined => Return "undefined"
  | VNull => Return "null"
  | VBool true => Return "true"
  | VBool false => Return "false"
  | VNum n => Return (pretty n)
  | VStr s => Return s
  | VArr elems =>
      let! parts :=
        (fix each (l : list value) : completion (list string) :=
           match l with
           | [] => Return []
           | x :: rest =>
               let! text := match x with
                            | VUndefined | VNull => Return EmptyString
                            | _ => to_text x
                            end in
               let! texts := each rest in
               Return (text :: texts)
           end) elems in
      Return (join "," parts)
  | VObj props =>
      match assoc "toString" props with
      | Some _ => Throw (TypeError "Cannot convert object to primitive value")
      | None => Return "[object Object]"
      end
  | VFunction name => Return ("function " +:+ name +:+ "() { [native code] }")
  end.

(** The file system with one document of any content under [root]. *)
Definition disk_of (content : string) : filesystem :=
  {[ "/srv/app/.claude/sentry-config.local.md" := File content ]}.

(** A document without a header block. *)
Definition text_plain : string := "profiles: {}" +:+ LF.

(** The staging document with notes after its header. *)
Definition notes : string :=
  LF +:+ LF +:+ "# Notes" +:+ LF +:+ "Tokens are rotated monthly." +:+ LF.
Definition text_staging_notes : string :=
  "---" +:+ LF +:+ header_staging +:+ LF +:+ "---" +:+ notes.

(** profiles set to a text. *)
Definition header_text_profiles : string := "profiles: none".
Definition doc_text_profiles : value := VObj [("profiles", VStr "none")].

(** A profile whose baseUrl has another scheme. *)
Definition header_ftp : string :=
  "profiles: {mirror: {authToken: TOKEN_HERE, organization: my-org, baseUrl: ftp://sentry.example}}".
Definition fields_ftp : list (string * value) :=
  [("authToken", VStr "TOKEN_HERE"); ("organization", VStr "my-org");
   ("baseUrl", VStr "ftp://sentry.example")].
Definition doc_ftp : value := VObj [("profiles", VObj [("mirror", VObj fields_ftp)])].

(** A profile whose baseUrl is a number. *)
Definition header_port : string :=
  "profiles: {local: {authToken: TOKEN_HERE, organization: my-org, baseUrl: 8080}}".
Definition fields_port : list (string * value) :=
  [("authToken", VStr "TOKEN_HERE"); ("organization", VStr "my-org");
   ("baseUrl", VNum 8080)].
Definition doc_port : value := VObj [("profiles", VObj [("local", VObj fields_port)])].

(** A defaultProfile that names no profile. *)
Definition header_ghost : string :=
  "profiles: {first: {authToken: FIRST_TOKEN, organization: first-org}}" +:+ LF +:+
  "defaultProfile: ghost".
Definition doc_ghost : value :=
  VObj [("profiles", VObj [("first", profile_of "FIRST_TOKEN" "first-org")]);
        ("defaultProfile", VStr "ghost")].

(** A defaultProfile that is a mapping with a toString entry. *)
Definition header_unprintable : string :=
  "profiles: {first: {authToken: FIRST_TOKEN, organization: first-org}}" +:+ LF +:+
  "defaultProfile: {toString: 1}".
Definition doc_unprintable : value :=
  VObj [("profiles", VObj [("first", profile_of "FIRST_TOKEN" "first-org")]);
        ("defaultProfile", VObj [("toString", VNum 1)])].
Definition config_unprintable : Config :=
  {| profiles := VObj [("first", profile_of "FIRST_TOKEN" "first-org")];
     defaultProfile := VObj [("toString", VNum 1)];
     defaultFormat := VStr "json" |}.

(** What the two-profile document loads as. *)
Definition config_two : Config :=
  {| profiles := VObj [("first", profile_of "FIRST_TOKEN" "first-org");
                       ("second", profile_of "SECOND_TOKEN" "second-org")];
     defaultProfile := VStr "first";
     defaultFormat := VStr "json" |}.

(** What the empty-profiles document loads as, and the session connect
    leaves for it. *)
Definition config_empty : Config :=
  {| profiles := VObj []; defaultProfile := VUndefined; defaultFormat := VStr "json" |}.
Definition session_empty : wrapper :=
  {| config := Some config_empty;
     currentProfile := VUndefined;
     currentFormat := VStr "json" |}.

(** The session connect leaves for the two-profile document. *)
Definition session_two : wrapper :=
  {| config := Some config_two;
     currentProfile := VStr "first";
     currentFormat := VStr "json" |}.

(** The session after [profile staging] and after [format toon]. *)
Definition session_on_staging : wrapper :=
  {| config := Some config_staging;
     currentProfile := VStr "staging";
     currentFormat := VStr "json" |}.
Definition session_toon : wrapper :=
  {| config := Some config_staging;
     currentProfile := VStr "production";
     currentFormat := VStr "toon" |}.

(** The arguments {"projectSlug":"web","eventId":"e1"} and 42. *)
Definition arg_event : string :=
  "{" +:+ quoted "projectSlug" +:+ ":" +:+ quoted "web" +:+ "," +:+
  quoted "eventId" +:+ ":" +:+ quoted "e1" +:+ "}".
Definition params_event : list (string * value) :=
  [("projectSlug", VStr "web"); ("eventId", VStr "e1")].
Definition json_more : list (string * value) :=
  [ ("{}", VObj []);
    (arg_event, VObj params_event);
    ("42", VNum 42);
    ("null", VNull) ].

(** A client layer that answers every call with the name of its
    command. *)
Definition echo (c : api_call) : completion ApiResult :=
  Return (Success (Calls.call_command c)).

(** Descriptions for the thirteen commands, and no details. *)
Definition infos : list string :=
  map (fun name => "Calls " +:+ name) Constants.COMMANDS.
Definition details : list string := [].

(** A headless runner that resolves. *)
Definition runner_ok (command : string) (params flag : option string)
    : completion (option nat) :=
  Return None.

End MoreSamples.

(* ===================================================================== *)
(** * Part III: properties                                                *)
(* ===================================================================== *)

(** ** Strings and property lists *)

Module JsFacts.
Import Js.

Lemma append_cons (ch : ascii) (a b : string) :
  String ch a +:+ b = String ch (a +:+ b).
Proof. reflexivity. Qed.

Lemma append_assoc (a b c : string) : (a +:+ b) +:+ c = a +:+ (b +:+ c).
Proof.
  induction a as [|ch a IH]; [reflexivity |].
  now rewrite !append_cons, IH.
Qed.




Lemma assoc_elem_of (k : string) (props : list (string * value)) (v : value) :
  assoc k props = Some v -> (k, v) ∈ props.
Proof.
  induction props as [|[k' v'] props IH]; simpl; [discriminate |].
  destruct (String.eqb_spec k k') as [-> | Hne].
  - intros [= ->]. left.
  - intros H. right. now apply IH.
Qed.

Lemma assoc_omit (k : string) (props : list (string * value)) :
  assoc k (Spec.omit k props) = None.
Proof.
  induction props as [|[k' v'] props IH]; [reflexivity |]. simpl.
  destruct (String.eqb_spec k k') as [-> | Hne]; [exact IH |].
  simpl. destruct (String.eqb_spec k k'); [contradiction | exact IH].
Qed.

(** *** Property reads on plain objects *)

(** A name written out is none of the names of a list written out. *)
Ltac absent_name H :=
  repeat (apply elem_of_cons in H as [H | H]; [discriminate |]);
  now apply elem_of_nil in H.
Ltac not_listed := let H := fresh in intros H; absent_name H.

Lemma from_Object_absent (k : string) :
  k ∉ Object_prototype -> from_Object k = VUndefined.
Proof.
  intros Hk. unfold from_Object. cbn [along].
  destruct (existsb (String.eqb k) Object_prototype) eqn:E; [| reflexivity].
  exfalso. apply existsb_exists in E as (x & Hx & Heq).
  apply String.eqb_eq in Heq as ->. apply Hk. now apply list_elem_of_In.
Qed.

Lemma from_Object_inherited (k : string) :
  k ∈ Object_prototype ->
  from_Object k = VObj [] \/ exists name, from_Object k = VFunction name.
Proof.
  intros Hk. unfold from_Object. cbn [along].
  assert (existsb (String.eqb k) Object_prototype = true) as ->.
  { apply existsb_exists. exists k. split; [now apply list_elem_of_In |].
    apply String.eqb_refl. }
  destruct (String.eqb k "__proto__"); [now left |].
  destruct (String.eqb k "constructor"); eauto.
Qed.

(** An own property shadows what is inherited. *)
Lemma get_prop_own (props : list (string * value)) (k : string) (v : value) :
  assoc k props = Some v -> get_prop (VObj props) k = Return v.
Proof. intros H. simpl. now rewrite H. Qed.

(** For a name that Object.prototype does not define, a plain object is
    read through its own properties alone. *)
Lemma get_prop_plain (props : list (string * value)) (k : string) :
  k ∉ Object_prototype ->
  get_prop (VObj props) k = Return (default VUndefined (assoc k props)).
Proof. intros Hk. simpl. now rewrite (from_Object_absent k Hk). Qed.

(** A name that is not an own key and that Object.prototype defines reads
    as what is inherited: a value that is truthy and has none of the
    fields of a profile. *)
Lemma get_prop_inherited (props : list (string * value)) (k : string) :
  assoc k props = None -> k ∈ Object_prototype ->
  exists v,
    get_prop (VObj props) k = Return v /\
    truthy v = true /\
    forall field, field ∈ ["authToken"; "organization"; "baseUrl"] ->
      get_prop v field = Return VUndefined.
Proof.
  intros Hk Hin. simpl. rewrite Hk. simpl. eexists. split; [reflexivity |].
  destruct (from_Object_inherited k Hin) as [-> | (name & ->)];
    (split; [reflexivity |]); intros field H; apply list_elem_of_In in H; simpl in H;
    destruct H as [<- | [<- | [<- | []]]]; reflexivity.
Qed.

(** Only undefined and null have no properties to read. *)
Lemma get_prop_defined (v : value) (k : string) :
  v <> VUndefined -> v <> VNull -> exists x, get_prop v k = Return x.
Proof.
  intros Hu Hn. destruct v; try contradiction; simpl; eauto;
    destruct (String.eqb k "length"); eauto.
Qed.

(** A boolean, a number and a text have none of the parameters of a
    command, nor a profile or a format. *)
Lemma get_prop_scalar (v : value) (k : string) :
  match v with VBool _ | VNum _ | VStr _ => True | _ => False end ->
  k ∈ ["profile"; "format"; "projectSlug"; "issueId"; "eventId"; "tagKey"] ->
  get_prop v k = Return VUndefined.
Proof.
  intros Hv Hk. apply list_elem_of_In in Hk. simpl in Hk.
  destruct v; try contradiction;
    repeat (destruct Hk as [<- | Hk]; [reflexivity |]); contradiction.
Qed.

End JsFacts.

(** ** The configuration loader *)

Module ConfigLoaderFacts.
Import Js ConfigLoader JsFacts.

Lemma andThen_Return_inv {A B : Type} (m : completion A) (f : A -> completion B) (b : B) :
  andThen m f = Return b -> exists a, m = Return a /\ f a = Return b.
Proof. destruct m as [a | e]; simpl; [eauto | discriminate]. Qed.

Section Loader.

Variable path_join : list string -> string.
Variable yaml_parse : string -> completion value.

Local Abbreviation configPath := (ConfigLoader.configPath path_join).
Local Abbreviation validate := (ConfigLoader.validate).
Local Abbreviation loadConfig := (ConfigLoader.loadConfig path_join yaml_parse).

(** When the document is there, has a header and the header parses, the
    loader's result is the validation of the parsed header. *)
Lemma loadConfig_reads (fs : filesystem) (root content header : string) (doc : value) :
  fs !! configPath root = Some (File content) ->
  match_frontmatter content = Some header ->
  yaml_parse header = Return doc ->
  loadConfig fs root = validate doc.
Proof.
  intros Hfile Hheader Hparse. unfold ConfigLoader.loadConfig, existsSync, readFileSync.
  rewrite Hfile. simpl. rewrite Hheader, Hparse. reflexivity.
Qed.

(** Conversely a successful load went through all of these steps. *)
Lemma loadConfig_Return_inv (fs : filesystem) (root : string) (cfg : Config) :
  loadConfig fs root = Return cfg ->
  exists content header doc,
    fs !! configPath root = Some (File content) /\
    match_frontmatter content = Some header /\
    yaml_parse header = Return doc /\
    validate doc = Return cfg.
Proof.
  unfold ConfigLoader.loadConfig, existsSync, readFileSync.
  destruct (fs !! configPath root) as [[content |] |] eqn:Hfile; simpl; try discriminate.
  destruct (match_frontmatter content) as [header |] eqn:Hheader; try discriminate.
  intros H. apply andThen_Return_inv in H as (doc & Hparse & Hvalid).
  now exists content, header, doc.
Qed.

Lemma validate_Return_inv (doc : value) (cfg : Config) :
  validate doc = Return cfg ->
  exists ps dp df,
    get_prop doc "profiles" = Return ps /\
    truthy ps = true /\ typeof_object ps = true /\
    validate_profiles (entries ps) = Return tt /\
    get_prop doc "defaultProfile" = Return dp /\
    get_prop doc "defaultFormat" = Return df /\
    cfg = {| profiles := ps;
             defaultProfile := js_or dp (first_key ps);
             defaultFormat := js_or df (VStr "json") |}.
Proof.
  unfold ConfigLoader.validate. intros H.
  apply andThen_Return_inv in H as (ps & Hps & H).
  destruct (truthy ps) eqn:Ht; simpl in H; [| discriminate].
  destruct (typeof_object ps) eqn:Ho; simpl in H; [| discriminate].
  apply andThen_Return_inv in H as ([] & Hval & H).
  apply andThen_Return_inv in H as (dp & Hdp & H).
  apply andThen_Return_inv in H as (df & Hdf & H).
  injection H as <-. now exists ps, dp, df.
Qed.

(** The loader looks at one path only. *)
Lemma loadConfig_one_path (fs fs' : filesystem) (root : string) :
  fs !! configPath root = fs' !! configPath root ->
  loadConfig fs root = loadConfig fs' root.
Proof.
  intros H. unfold ConfigLoader.loadConfig, existsSync, readFileSync. now rewrite H.
Qed.

(** C5. When nothing exists at <root>/.claude/sentry-config.local.md
    (the root joined with the two fixed segments), loadConfig throws an
    Error whose message includes that attempted path; and the result of
    loadConfig depends on the file system through that one path only. *)
Theorem loadConfig_missing_file (root : string) :
  configPath root = path_join [root; ".claude"; "sentry-config.local.md"] /\
  (forall fs : filesystem,
     fs !! configPath root = None ->
     exists message,
       loadConfig fs root = Throw (Error message) /\
       includes message (configPath root) /\
       includes message "Configuration file not found") /\
  (forall fs fs' : filesystem,
     fs !! configPath root = fs' !! configPath root ->
     loadConfig fs root = loadConfig fs' root).
Proof.
  split; [reflexivity |]. split.
  - intros fs Hnone. eexists. split; [| split].
    + unfold ConfigLoader.loadConfig, existsSync. rewrite Hnone. reflexivity.
    + exists "Configuration file not found at ".
      eexists. reflexivity.
    + exists EmptyString. eexists. reflexivity.
  - intros fs fs'. apply loadConfig_one_path.
Qed.

(** C8, as the code has it.  For every document that loads successfully,
    the result carries the document's profiles mapping; its defaultProfile
    is the document's when that value is truthy, and otherwise
    Object.keys(profiles)[0], the first key in the order Object.keys
    enumerates the keys of the parsed mapping, which need not be the order
    in which the document wrote them (undefined when the mapping has no
    key); its defaultFormat is the document's when truthy and json
    otherwise.  An unset key reads as undefined, so it takes the
    default. *)
Theorem loadConfig_defaults (fs : filesystem) (root : string) (cfg : Config) :
  loadConfig fs root = Return cfg ->
  exists content header doc dp df,
    fs !! configPath root = Some (File content) /\
    match_frontmatter content = Some header /\
    yaml_parse header = Return doc /\
    get_prop doc "profiles" = Return (profiles cfg) /\
    get_prop doc "defaultProfile" = Return dp /\
    get_prop doc "defaultFormat" = Return df /\
    defaultProfile cfg =
      (if truthy dp then dp
       else match keys (profiles cfg) with
            | first :: _ => VStr first
            | [] => VUndefined
            end) /\
    defaultFormat cfg = (if truthy df then df else VStr "json").
Proof.
  intros H.
  apply loadConfig_Return_inv in H as (content & header & doc & Hf & Hh & Hp & Hv).
  apply validate_Return_inv in Hv as (ps & dp & df & Hps & _ & _ & _ & Hdp & Hdf & ->).
  exists content, header, doc, dp, df. simpl. repeat split; assumption || reflexivity.
Qed.

(** C9. A document whose profiles mapping is empty loads without
    throwing: the result has the empty mapping as profiles, which has no
    key, so that every name reads as undefined from it but the names
    Object.prototype defines; and its defaultProfile is undefined unless
    the document sets a truthy one, which then names no existing
    profile. *)
Theorem loadConfig_empty_profiles
    (fs : filesystem) (root content header : string) (fields : list (string * value)) :
  fs !! configPath root = Some (File content) ->
  match_frontmatter content = Some header ->
  yaml_parse header = Return (VObj fields) ->
  assoc "profiles" fields = Some (VObj []) ->
  exists cfg,
    loadConfig fs root = Return cfg /\
    profiles cfg = VObj [] /\
    keys (profiles cfg) = [] /\
    (forall name,
       name ∉ Object_prototype -> get_prop (profiles cfg) name = Return VUndefined) /\
    (truthy (default VUndefined (assoc "defaultProfile" fields)) = false ->
     defaultProfile cfg = VUndefined) /\
    (assoc "defaultProfile" fields = None -> defaultProfile cfg = VUndefined).
Proof.
  intros Hf Hh Hp Hps.
  rewrite (loadConfig_reads fs root content header _ Hf Hh Hp).
  unfold ConfigLoader.validate.
  rewrite !get_prop_plain by not_listed.
  rewrite Hps. simpl.
  eexists. split; [reflexivity |]. simpl. split; [reflexivity |].
  split; [reflexivity |]. split; [| split].
  - intros name Hname. now rewrite (from_Object_absent name Hname).
  - intros Hfalsy. unfold js_or. now rewrite Hfalsy.
  - intros ->. reflexivity.
Qed.

(** One profile fails the loop over the required fields at its first
    falsy field, whether the key is absent or holds a falsy value. *)
Lemma validate_profile_missing (name field : string) (fields : list (string * value)) :
  field = "authToken" \/
  (field = "organization" /\
   truthy (default VUndefined (assoc "authToken" fields)) = true) ->
  truthy (default VUndefined (assoc field fields)) = false ->
  validate_profile (name, VObj fields) =
    Throw (Error ("Profile " +:+ quoted name +:+ " missing required field: " +:+ field)).
Proof.
  intros [-> | [-> Htoken]] Hfalsy; unfold validate_profile, required;
    cbn [check_required]; rewrite !get_prop_plain by not_listed;
    cbn [andThen].
  - now rewrite Hfalsy.
  - now rewrite Htoken, Hfalsy.
Qed.

(** The loop stops at the first profile that fails. *)
Lemma validate_profiles_first_failure
    (before after : list (string * value)) (entry : string * value) (e : exn) :
  validate_profiles before = Return tt ->
  validate_profile entry = Throw e ->
  validate_profiles (before ++ entry :: after) = Throw e.
Proof.
  intros Hbefore Hentry. induction before as [|x before IH]; simpl in *.
  - now rewrite Hentry.
  - destruct (validate_profile x) as [[] | e']; simpl in *; [auto | discriminate].
Qed.

Lemma loadConfig_falsy_field
    (fs : filesystem) (root content header name field : string) (doc : value)
    (before after fields : list (string * value)) :
  fs !! configPath root = Some (File content) ->
  match_frontmatter content = Some header ->
  yaml_parse header = Return doc ->
  get_prop doc "profiles" = Return (VObj (before ++ (name, VObj fields) :: after)) ->
  validate_profiles before = Return tt ->
  field = "authToken" \/
  (field = "organization" /\
   truthy (default VUndefined (assoc "authToken" fields)) = true) ->
  truthy (default VUndefined (assoc field fields)) = false ->
  loadConfig fs root =
    Throw (Error ("Profile " +:+ quoted name +:+ " missing required field: " +:+ field)).
Proof.
  intros Hf Hh Hp Hps Hbefore Hfield Hfalsy.
  rewrite (loadConfig_reads fs root content header doc Hf Hh Hp).
  unfold ConfigLoader.validate. rewrite Hps. simpl.
  rewrite (validate_profiles_first_failure before after _ _ Hbefore
             (validate_profile_missing name field fields Hfield Hfalsy)).
  reflexivity.
Qed.

End Loader.


Lemma prefix_nonempty (p s : string) :
  p <> EmptyString -> String.prefix p s = true -> truthy (VStr s) = true.
Proof.
  intros Hp. destruct s; [| reflexivity].
  destruct p; [contradiction | discriminate].
Qed.

(** C7. For a valid configuration and a profile name present in it,
    getSentryClientOptions returns the profile's authToken and
    organization unchanged, and as baseUrl the profile's own baseUrl when
    it has one and https://sentry.io/api/0 otherwise. *)
Theorem getSentryClientOptions_present
    (config : Config) (profileName : string)
    (props : list (string * value)) (profile : value) :
  Spec.valid_config config ->
  profiles config = VObj props ->
  assoc profileName props = Some profile ->
  exists fields a o,
    profile = VObj fields /\
    assoc "authToken" fields = Some a /\
    assoc "organization" fields = Some o /\
    getSentryClientOptions config profileName =
      Return {| authToken := a;
                organization := o;
                baseUrl := match assoc "baseUrl" fields with
                           | Some explicit => explicit
                           | None => VStr "https://sentry.io/api/0"
                           end |}.
Proof.
  intros (props' & Hprops' & Hvalid) Hprops Hpresent.
  rewrite Hprops in Hprops'. injection Hprops' as <-.
  destruct (Hvalid _ _ Hpresent) as (fields & a & o & -> & Ha & _ & Ho & _ & Hurl).
  exists fields, (VStr a), (VStr o). repeat split; try assumption.
  unfold getSentryClientOptions. rewrite Hprops.
  rewrite (get_prop_own props profileName _ Hpresent). cbn [andThen truthy negb].
  rewrite !get_prop_plain by not_listed.
  rewrite Ha, Ho. simpl.
  destruct (assoc "baseUrl" fields) as [u |] eqn:Hu; simpl; [| reflexivity].
  destruct (Hurl u eq_refl) as (s & -> & Hs).
  unfold js_or.
  assert (truthy (VStr s) = true) as ->; [| reflexivity].
  destruct Hs as [Hs | Hs]; eapply prefix_nonempty; try exact Hs; discriminate.
Qed.

End ConfigLoaderFacts.

(** ** The client pool *)

Module SentryUtilFacts.
Import Js ConfigLoader SentryUtil.

Section Pool.

Variable path_join : list string -> string.
Variable yaml_parse : string -> completion value.

Local Abbreviation resolve := (SentryUtil.resolve path_join yaml_parse).
Local Abbreviation getClient := (SentryUtil.getClient path_join yaml_parse).
Local Abbreviation reachable := (SentryUtil.reachable path_join yaml_parse).
Local Abbreviation getClients := (SentryUtil.getClients path_join yaml_parse).

Lemma getClient_well_formed fs root name r :
  well_formed r -> well_formed (getClient fs root name r).2.
Proof.
  intros Hwf. unfold SentryUtil.getClient.
  destruct (clients r !! name) as [c |] eqn:Hc; [exact Hwf |].
  destruct (resolve fs root name) as [options | e]; [| exact Hwf].
  intros p c'. simpl. rewrite lookup_insert.
  destruct (decide (name = p)) as [-> | Hne].
  - intros [= <-]. simpl. lia.
  - intros Hp. apply Hwf in Hp. lia.
Qed.

Lemma reachable_well_formed r : reachable r -> well_formed r.
Proof.
  induction 1 as [| fs root name r _ IH | r _ IH].
  - intros p c. simpl. now rewrite lookup_empty.
  - now apply getClient_well_formed.
  - intros p c. simpl. now rewrite lookup_empty.
Qed.

(** A hit returns the stored handle and leaves the registry as it is. *)
Lemma getClient_hit fs root name r c :
  clients r !! name = Some c -> getClient fs root name r = (Return c, r).
Proof. intros H. unfold SentryUtil.getClient. now rewrite H. Qed.

(** After a successful call the handle is the one stored under the name,
    and it was constructed before the counter's current value. *)
Lemma getClient_stored fs root name r c r1 :
  well_formed r ->
  getClient fs root name r = (Return c, r1) ->
  clients r1 !! name = Some c /\ client_id c < constructed r1.
Proof.
  intros Hwf. unfold SentryUtil.getClient.
  destruct (clients r !! name) as [c0 |] eqn:Hc.
  - intros [= <- <-]. split; [exact Hc | now apply Hwf in Hc].
  - destruct (resolve fs root name) as [options | e]; [| discriminate].
    intros [= <- <-]. simpl. split; [apply lookup_insert_eq | lia].
Qed.

(** A miss constructs the client numbered by the counter. *)
Lemma getClient_miss fs root name r options :
  clients r !! name = None ->
  resolve fs root name = Return options ->
  getClient fs root name r =
    (Return {| client_id := constructed r; client_options := options |},
     {| clients := <[name := {| client_id := constructed r;
                                client_options := options |}]> (clients r);
        constructed := S (constructed r) |}).
Proof. intros Hc Hr. unfold SentryUtil.getClient. now rewrite Hc, Hr. Qed.

(** A stored handle survives every later getClient, for any name. *)
Lemma getClient_keeps fs root other r name c :
  clients r !! name = Some c ->
  clients (getClient fs root other r).2 !! name = Some c.
Proof.
  intros Hc. unfold SentryUtil.getClient.
  destruct (clients r !! other) as [c0 |] eqn:Hother; [exact Hc |].
  destruct (resolve fs root other) as [options | e]; [| exact Hc].
  simpl. rewrite lookup_insert_ne; [exact Hc | congruence].
Qed.

Lemma getClients_keeps calls r name c :
  clients r !! name = Some c ->
  clients (getClients calls r) !! name = Some c.
Proof.
  revert r. induction calls as [|[[fs root] other] calls IH]; intros r Hc; simpl.
  - exact Hc.
  - apply IH. now apply getClient_keeps.
Qed.

(** C1. In any registry a process can reach, if getClient(p) returns a
    handle then the next getClient(p), with no clearClients in between,
    returns the identical handle and constructs nothing, whatever the
    configuration on disk has become, and so does a getClient(p) after any
    run of further getClient calls; the registry holds that one handle for
    p.  After clearClients the next getClient(p) that returns, returns a
    handle distinct from the earlier one, and it does return whenever the
    profile resolves.  clearClients leaves the empty registry empty, always
    empties the registry, and may be repeated. *)
Theorem getClient_pooling
    (fs1 fs2 fs3 : filesystem) (root1 root2 root3 name : string)
    (r r1 : Registry) (c : Client) :
  reachable r ->
  getClient fs1 root1 name r = (Return c, r1) ->
  getClient fs2 root2 name r1 = (Return c, r1) /\
  (forall calls,
     getClient fs2 root2 name (getClients calls r1) = (Return c, getClients calls r1)) /\
  (forall c', clients r1 !! name = Some c' -> c' = c) /\
  (forall c' r3,
     getClient fs3 root3 name (clearClients r1) = (Return c', r3) ->
     c' <> c /\ client_id c' <> client_id c) /\
  (forall options,
     resolve fs3 root3 name = Return options ->
     exists c' r3,
       getClient fs3 root3 name (clearClients r1) = (Return c', r3) /\
       c' <> c /\ clients r3 !! name = Some c') /\
  clearClients initial = initial /\
  clients (clearClients r1) = ∅ /\
  clearClients (clearClients r1) = clearClients r1.
Proof.
  intros Hreach Hfirst.
  apply reachable_well_formed in Hreach.
  destruct (getClient_stored _ _ _ _ _ _ Hreach Hfirst) as [Hstored Hid].
  assert (Hfresh : forall c' r3,
            getClient fs3 root3 name (clearClients r1) = (Return c', r3) ->
            c' <> c /\ client_id c' <> client_id c).
  { intros c' r3. unfold SentryUtil.getClient. simpl. rewrite lookup_empty.
    destruct (resolve fs3 root3 name) as [options | e]; [| discriminate].
    intros [= <- <-]. simpl.
    split; [intros <-; simpl in Hid |]; lia. }
  split; [now apply getClient_hit |].
  split; [intros calls; now apply getClient_hit, getClients_keeps |].
  split; [intros c' Hc'; congruence |].
  split; [exact Hfresh |].
  split; [| repeat split].
  intros options Hresolve.
  pose proof (getClient_miss fs3 root3 name (clearClients r1) options
                (lookup_empty _) Hresolve) as Hmiss.
  eexists _, _. split; [exact Hmiss |].
  split; [apply (Hfresh _ _ Hmiss) | simpl; apply lookup_insert_eq].
Qed.

End Pool.

End SentryUtilFacts.

(** ** The interactive dispatcher *)

Module WrapperFacts.
Import Js ConfigLoader SentryUtil Wrapper JsFacts.

Section RunCommand.

Variable JSON_parse : string -> completion value.
Variable trim : string -> string.
Variable api : api_call -> completion ApiResult.

Local Abbreviation parse_args := (Wrapper.parse_args JSON_parse trim).
Local Abbreviation dispatch := (Wrapper.dispatch api).
Local Abbreviation with_one := (Wrapper.with_one api).
Local Abbreviation with_two := (Wrapper.with_two api).
Local Abbreviation runCommand := (Wrapper.runCommand JSON_parse trim api).

(** The names of the parameters are not names of Object.prototype, so a
    parameter is read through the own properties of the parameter
    object. *)
Lemma with_one_rejects (params : list (string * value)) (a message : string) k :
  a ∉ Object_prototype ->
  truthy (default VUndefined (assoc a params)) = false ->
  with_one (VObj params) a message k = (rejected message, Return None).
Proof.
  intros Ha H. unfold Wrapper.with_one. rewrite (get_prop_plain params a Ha).
  simpl. now rewrite H.
Qed.

Lemma with_two_rejects (params : list (string * value)) (a b message : string) k :
  a ∉ Object_prototype ->
  b ∉ Object_prototype ->
  truthy (default VUndefined (assoc a params)) = false \/
  truthy (default VUndefined (assoc b params)) = false ->
  with_two (VObj params) a b message k = (rejected message, Return None).
Proof.
  intros Ha Hb H. unfold Wrapper.with_two.
  rewrite (get_prop_plain params a Ha), (get_prop_plain params b Hb). simpl.
  destruct (truthy (default VUndefined (assoc a params))); simpl; [| reflexivity].
  destruct H as [H | H]; [discriminate | now rewrite H].
Qed.

(** With the configuration loaded and a parameter object parsed,
    runCommand is the switch followed by the display of its outcome. *)
Lemma runCommand_rejected (w : wrapper) (command arg message : string)
    (params : list (string * value)) :
  loaded w = true ->
  parse_args arg = Return (VObj params) ->
  (forall profile format,
     dispatch command (VObj params) profile format = (rejected message, Return None)) ->
  runCommand w command arg = (rejected message, Return tt).
Proof.
  intros Hloaded Hparse Hdispatch. unfold Wrapper.runCommand.
  rewrite Hloaded. simpl. unfold lift. rewrite Hparse. simpl.
  rewrite Hdispatch. reflexivity.
Qed.

(** A falsy required parameter, absent or not, makes the switch reject the
    command with the message of the catalog. *)
Lemma dispatch_missing_parameter (command r : string) (names : list string)
    (params : list (string * value)) (profile format : value) :
  (command, names) ∈ Spec.catalog ->
  r ∈ names ->
  truthy (default VUndefined (assoc r params)) = false ->
  dispatch command (VObj params) profile format =
    (rejected (Spec.required_message names), Return None).
Proof.
  intros Hcommand Hr Hfalsy.
  apply list_elem_of_In in Hcommand. apply list_elem_of_In in Hr.
  simpl in Hcommand.
  repeat (destruct Hcommand as [Hcommand | Hcommand];
          [injection Hcommand as <- <-; simpl in Hr |]);
    try contradiction;
    repeat (destruct Hr as [<- | Hr]); try contradiction;
    first [ apply with_one_rejects; [not_listed | exact Hfalsy]
          | apply with_two_rejects;
            [not_listed | not_listed | left; exact Hfalsy]
          | apply with_two_rejects;
            [not_listed | not_listed | right; exact Hfalsy] ].
Qed.

Lemma runCommand_missing_parameter (w : wrapper) (command arg r : string)
    (names : list string) (params : list (string * value)) :
  loaded w = true ->
  parse_args arg = Return (VObj params) ->
  (command, names) ∈ Spec.catalog ->
  r ∈ names ->
  truthy (default VUndefined (assoc r params)) = false ->
  runCommand w command arg = (rejected (Spec.required_message names), Return tt).
Proof.
  intros Hloaded Hparse Hcommand Hr Hfalsy.
  apply (runCommand_rejected w command arg _ params Hloaded Hparse).
  intros profile format. now apply (dispatch_missing_parameter command r).
Qed.

(** The catalog of the specification names the commands of COMMANDS. *)
Lemma catalog_commands : Spec.catalog.*1 = Constants.COMMANDS.
Proof. reflexivity. Qed.

(** *** The shape of the switch *)

Lemma seq_lift_Return {A B : Type} (a : A) (f : A -> M B) :
  seq (lift (Return a)) f = f a.
Proof. unfold seq, lift. now destruct (f a). Qed.

Lemma call_dispatched (c : api_call) :
  dispatched api (seq (call api c) (fun result => ret (Some result))).
Proof.
  unfold call, seq. destruct (api c) as [result | e] eqn:H; simpl.
  - now apply dispatched_returned.
  - now apply dispatched_threw.
Qed.

Lemma with_one_dispatched (args : value) (a message : string) k :
  dispatched api (with_one args a message k).
Proof.
  unfold Wrapper.with_one. destruct (get_prop args a) as [x | e].
  - rewrite seq_lift_Return. destruct (truthy x); cbn [negb].
    + apply call_dispatched.
    + apply dispatched_rejected.
  - apply dispatched_failed.
Qed.

Lemma with_two_dispatched (args : value) (a b message : string) k :
  dispatched api (with_two args a b message k).
Proof.
  unfold Wrapper.with_two. destruct (get_prop args a) as [x | e].
  - rewrite seq_lift_Return.
    destruct (truthy x); cbn [negb]; [| apply dispatched_rejected].
    destruct (get_prop args b) as [y | e]; [| apply dispatched_failed].
    rewrite seq_lift_Return.
    destruct (truthy y); cbn [negb]; [apply call_dispatched | apply dispatched_rejected].
  - apply dispatched_failed.
Qed.

Lemma dispatch_dispatched (command : string) (args profile format : value) :
  dispatched api (dispatch command args profile format).
Proof.
  unfold Wrapper.dispatch.
  repeat case_match;
    first [ apply with_one_dispatched | apply with_two_dispatched
          | apply call_dispatched | apply dispatched_rejected ].
Qed.



(** *** Commands outside the catalog *)

Lemma dispatch_unknown (command : string) (args profile format : value) :
  command ∉ Constants.COMMANDS ->
  dispatch command args profile format = (rejected (unknown_message command), Return None).
Proof.
  intros Hunknown. unfold Wrapper.dispatch.
  repeat match goal with
         | |- context [String.eqb command ?s] =>
             destruct (String.eqb_spec command s) as [-> | _];
             [exfalso; apply Hunknown; apply list_elem_of_In; simpl; tauto |]
         end.
  reflexivity.
Qed.

(** What runCommand does before anything else. *)
Lemma runCommand_not_loaded (w : wrapper) (command arg : string) :
  loaded w = false ->
  runCommand w command arg =
    ([ConsoleLog ["Configuration not loaded!"]; Prompt], Return tt).
Proof. intros H. unfold Wrapper.runCommand. now rewrite H. Qed.

(** C2, as the code has it.  For every command of the catalog and every
    argument that parses to a parameter object omitting one of its
    required parameters, runCommand makes no remote call and returns
    normally, having printed one line and the prompt.  The line depends on
    the session.  With a configuration loaded and a current profile, it
    is, on the error stream, the message that names the one required
    parameter, or both required parameters joined by and.  Without them
    the parameters are not looked at: the line is Configuration not
    loaded!, on the standard stream. *)
Theorem runCommand_required_parameter
    (w : wrapper) (command arg r : string) (names : list string)
    (params : list (string * value)) :
  parse_args arg = Return (VObj params) ->
  (command, names) ∈ Spec.catalog ->
  r ∈ names ->
  assoc r params = None ->
  (loaded w = true ->
   runCommand w command arg =
     ([ConsoleError [Spec.required_message names]; Prompt], Return tt)) /\
  (loaded w = false ->
   runCommand w command arg =
     ([ConsoleLog ["Configuration not loaded!"]; Prompt], Return tt)) /\
  remote_calls (runCommand w command arg).1 = [].
Proof.
  intros Hparse Hcommand Hr Habsent.
  assert (truthy (default VUndefined (assoc r params)) = false) as Hfalsy
    by now rewrite Habsent.
  split; [| split].
  - intros Hloaded.
    apply (runCommand_missing_parameter w command arg r names params
             Hloaded Hparse Hcommand Hr Hfalsy).
  - apply runCommand_not_loaded.
  - destruct (loaded w) eqn:Hloaded.
    + now rewrite (runCommand_missing_parameter w command arg r names params
                     Hloaded Hparse Hcommand Hr Hfalsy).
    + now rewrite (runCommand_not_loaded w command arg Hloaded).
Qed.

(** C4, as the code has it.  For every command name outside the catalog
    of thirteen, runCommand makes no remote call, hence creates no
    client, and returns normally, having printed one line and the
    prompt.  In a session with a configuration and a current profile,
    when the argument is empty or parses to a value other than null, the
    line is, on the error stream, the text Unknown command: followed by
    the submitted name and then by a fixed hint (. Type commands to see
    available commands., the word commands in double quotes).  When the
    argument does not parse, or parses to null (or to undefined, which
    JSON.parse never gives), the line reports the exception, after the
    words Error running command:.  In a session without a configuration
    or a current profile it is Configuration not loaded!. *)
Theorem runCommand_unknown_command (w : wrapper) (command arg : string) :
  command ∉ Constants.COMMANDS ->
  remote_calls (runCommand w command arg).1 = [] /\
  (loaded w = true ->
   forall args,
     parse_args arg = Return args -> args <> VNull -> args <> VUndefined ->
     runCommand w command arg =
       ([ConsoleError ["Unknown command: " +:+ command +:+ ". Type " +:+
                       quoted "commands" +:+ " to see available commands."];
         Prompt], Return tt)) /\
  (loaded w = true ->
   forall e,
     parse_args arg = Throw e ->
     runCommand w command arg =
       ([ConsoleError ["Error running command:"; errorMessage e]; Prompt], Return tt)) /\
  (loaded w = true ->
   parse_args arg = Return VNull ->
   runCommand w command arg =
     ([ConsoleError ["Error running command:";
                     "Cannot read properties of null (reading 'profile')"];
       Prompt], Return tt)) /\
  (loaded w = false ->
   runCommand w command arg =
     ([ConsoleLog ["Configuration not loaded!"]; Prompt], Return tt)) /\
  (loaded w = true ->
   parse_args arg = Return VUndefined ->
   runCommand w command arg =
     ([ConsoleError ["Error running command:";
                     "Cannot read properties of undefined (reading 'profile')"];
       Prompt], Return tt)).
Proof.
  intros Hunknown.
  assert (forall args,
            loaded w = true -> parse_args arg = Return args ->
            args <> VNull -> args <> VUndefined ->
            runCommand w command arg =
              ([ConsoleError [unknown_message command]; Prompt], Return tt)) as Hrun.
  { intros args Hloaded Hparse Hnull Hundefined.
    destruct (get_prop_defined args "profile" Hundefined Hnull) as (p & Hp).
    destruct (get_prop_defined args "format" Hundefined Hnull) as (f & Hf).
    unfold Wrapper.runCommand. rewrite Hloaded. simpl. unfold lift.
    rewrite Hparse. simpl. rewrite Hp. simpl. rewrite Hf. simpl.
    now rewrite (dispatch_unknown command args _ _ Hunknown). }
  split; [| split; [| split; [| split; [| split]]]].
  - destruct (loaded w) eqn:Hloaded;
      [| now rewrite (runCommand_not_loaded w command arg Hloaded)].
    destruct (parse_args arg) as [args | e] eqn:Hparse.
    + destruct args;
        try (rewrite (Hrun _ eq_refl eq_refl) by discriminate; reflexivity);
        unfold Wrapper.runCommand; rewrite Hloaded; simpl; unfold lift;
        rewrite Hparse; reflexivity.
    + unfold Wrapper.runCommand. rewrite Hloaded. simpl. unfold lift.
      rewrite Hparse. reflexivity.
  - intros Hloaded args Hparse Hnull Hundefined. now apply (Hrun args).
  - intros Hloaded e Hparse. unfold Wrapper.runCommand. rewrite Hloaded. simpl.
    unfold lift. rewrite Hparse. reflexivity.
  - intros Hloaded Hparse. unfold Wrapper.runCommand. rewrite Hloaded. simpl.
    unfold lift. rewrite Hparse. reflexivity.
  - apply runCommand_not_loaded.
  - intros Hloaded Hparse. unfold Wrapper.runCommand. rewrite Hloaded. simpl.
    unfold lift. rewrite Hparse. reflexivity.
Qed.

End RunCommand.

(** C10. Presence of a required value is decided by truthiness.  In the
    dispatcher, a required parameter supplied with a falsy value gives the
    run of the same command on the parameter object without it: the same
    parameter-is-required report, no remote call.  In the loader, a profile
    whose authToken or organization is present with a falsy value is
    rejected, when it is the first profile to fail and that field its first
    falsy one, with the missing-required-field error of an absent key.
    The empty string, 0, false and null are such values. *)
Theorem falsy_value_is_missing
    (JSON_parse : string -> completion value) (trim : string -> string)
    (api : api_call -> completion ApiResult)
    (path_join : list string -> string) (yaml_parse : string -> completion value) :
  (forall (w : wrapper) (command arg arg' r : string) (names : list string)
          (params : list (string * value)) (v : value),
     loaded w = true ->
     Wrapper.parse_args JSON_parse trim arg = Return (VObj params) ->
     Wrapper.parse_args JSON_parse trim arg' = Return (VObj (Spec.omit r params)) ->
     (command, names) ∈ Spec.catalog ->
     r ∈ names ->
     assoc r params = Some v ->
     truthy v = false ->
     Wrapper.runCommand JSON_parse trim api w command arg =
       ([ConsoleError [Spec.required_message names]; Prompt], Return tt) /\
     Wrapper.runCommand JSON_parse trim api w command arg =
       Wrapper.runCommand JSON_parse trim api w command arg' /\
     remote_calls (Wrapper.runCommand JSON_parse trim api w command arg).1 = []) /\
  (forall (fs : filesystem) (root content header name field : string) (doc v : value)
          (before after fields : list (string * value)),
     fs !! configPath path_join root = Some (File content) ->
     match_frontmatter content = Some header ->
     yaml_parse header = Return doc ->
     get_prop doc "profiles" = Return (VObj (before ++ (name, VObj fields) :: after)) ->
     validate_profiles before = Return tt ->
     field = "authToken" \/
     (field = "organization" /\
      truthy (default VUndefined (assoc "authToken" fields)) = true) ->
     assoc field fields = Some v ->
     truthy v = false ->
     loadConfig path_join yaml_parse fs root =
       Throw (Error ("Profile " +:+ quoted name +:+ " missing required field: " +:+ field)) /\
     forall fields',
       assoc field fields' = None ->
       (field = "organization" ->
        truthy (default VUndefined (assoc "authToken" fields')) = true) ->
       validate_profile (name, VObj fields') = validate_profile (name, VObj fields)) /\
  Forall (fun v => truthy v = false) [VStr EmptyString; VNum 0; VBool false; VNull].
Proof.
  split; [| split; [| repeat constructor]].
  - intros w command arg arg' r names params v Hloaded Hparse Hparse' Hcommand Hr Hv Hfalsy.
    assert (truthy (default VUndefined (assoc r params)) = false) as H
      by now rewrite Hv.
    assert (truthy (default VUndefined (assoc r (Spec.omit r params))) = false) as H'
      by now rewrite assoc_omit.
    rewrite (runCommand_missing_parameter JSON_parse trim api w command arg r names params
               Hloaded Hparse Hcommand Hr H).
    rewrite (runCommand_missing_parameter JSON_parse trim api w command arg' r names _
               Hloaded Hparse' Hcommand Hr H').
    repeat split.
  - intros fs root content header name field doc v before after fields
           Hf Hh Hp Hps Hbefore Hfield Hv Hfalsy.
    assert (truthy (default VUndefined (assoc field fields)) = false) as H
      by now rewrite Hv.
    split.
    + now apply (ConfigLoaderFacts.loadConfig_falsy_field path_join yaml_parse fs root
                   content header name field doc before after fields).
    + intros fields' Habsent Htoken.
      rewrite (ConfigLoaderFacts.validate_profile_missing name field fields Hfield H).
      apply ConfigLoaderFacts.validate_profile_missing.
      * destruct Hfield as [-> | [-> _]]; [now left | right; auto].
      * now rewrite Habsent.
Qed.

End WrapperFacts.

(** ** The header block *)

Module FrontmatterFacts.
Import Js ConfigLoader Shapes JsFacts.

Lemma prefix_true (p s : string) :
  String.prefix p s = true <-> exists rest, s = p +:+ rest.
Proof.
  revert s. induction p as [|a p IH]; intros s.
  - split; [intros _; now exists s | intros _; now destruct s].
  - destruct s as [|b s]; simpl.
    + split; [discriminate | intros (rest & H); discriminate].
    + destruct (ascii_dec a b) as [<- | Hne].
      * rewrite IH. split; intros (rest & H); exists rest.
        -- now rewrite append_cons, H.
        -- rewrite append_cons in H. now injection H.
      * split; [discriminate |]. intros (rest & H). rewrite append_cons in H.
        injection H as H1 H2. congruence.
Qed.

Lemma prefix_length (p s : string) :
  String.prefix p s = true -> String.length p <= String.length s.
Proof.
  revert s. induction p as [|a p IH]; intros s; [simpl; lia |].
  destruct s as [|b s]; simpl; [discriminate |].
  destruct (ascii_dec a b); [| discriminate].
  intros H. apply IH in H. simpl. lia.
Qed.

(** Whether p is a prefix of a text is decided by the first characters of
    the text, as many as p has. *)
Lemma prefix_same_start (p a x y : string) :
  String.length p <= String.length a ->
  String.prefix p (a +:+ x) = String.prefix p (a +:+ y).
Proof.
  revert a. induction p as [|c p IH]; intros a Hlen.
  { now destruct (a +:+ x), (a +:+ y). }
  destruct a as [|b a]; simpl in Hlen; [lia |].
  rewrite !append_cons. simpl. destruct (ascii_dec c b); [| reflexivity].
  apply IH. lia.
Qed.

Lemma length_append (a b : string) :
  String.length (a +:+ b) = String.length a + String.length b.
Proof.
  induction a as [|c a IH]; [reflexivity |].
  rewrite append_cons. simpl. now rewrite IH.
Qed.

Lemma until_marker_eq (m s : string) :
  until_marker m s =
    if String.prefix m s then Some EmptyString
    else match s with
         | EmptyString => None
         | String c s' => String c <$> until_marker m s'
         end.
Proof. now destruct s. Qed.

Lemma until_marker_sound (m s h : string) :
  until_marker m s = Some h -> exists rest, s = h +:+ m +:+ rest.
Proof.
  revert h. induction s as [|c s IH]; intros h; rewrite until_marker_eq.
  - destruct (String.prefix m EmptyString) eqn:Hp; [| discriminate].
    intros [= <-]. now apply prefix_true in Hp.
  - destruct (String.prefix m (String c s)) eqn:Hp.
    + intros [= <-]. now apply prefix_true in Hp.
    + destruct (until_marker m s) as [h' |]; [| discriminate].
      intros [= <-]. destruct (IH h' eq_refl) as (rest & ->).
      exists rest. now rewrite append_cons.
Qed.

Lemma until_marker_found (m h rest : string) :
  exists h0, until_marker m (h +:+ m +:+ rest) = Some h0 /\
             String.length h0 <= String.length h.
Proof.
  induction h as [|c h IH].
  - exists EmptyString. split; [| simpl; lia].
    change (EmptyString +:+ m +:+ rest) with (m +:+ rest).
    assert (String.prefix m (m +:+ rest) = true) as Hp
      by (apply prefix_true; now exists rest).
    rewrite until_marker_eq. now rewrite Hp.
  - rewrite append_cons, until_marker_eq.
    destruct (String.prefix m (String c (h +:+ m +:+ rest))).
    + exists EmptyString. split; [reflexivity | simpl; lia].
    + destruct IH as (h0 & -> & Hlen). exists (String c h0).
      split; [reflexivity | simpl; lia].
Qed.

Lemma until_marker_shortest (m s h h' rest' : string) :
  until_marker m s = Some h ->
  s = h' +:+ m +:+ rest' ->
  String.length h <= String.length h'.
Proof.
  revert h h'. induction s as [|c s IH]; intros h h'; rewrite until_marker_eq.
  - destruct (String.prefix m EmptyString); [| discriminate].
    intros [= <-] _. simpl. lia.
  - destruct (String.prefix m (String c s)) eqn:Hp.
    + intros [= <-] _. simpl. lia.
    + destruct (until_marker m s) as [h1 |] eqn:Hu; [| discriminate].
      intros [= <-] Hs. destruct h' as [|c' h'].
      * exfalso. change (EmptyString +:+ m +:+ rest') with (m +:+ rest') in Hs.
        assert (String.prefix m (String c s) = true) as Hp'
          by (apply prefix_true; now exists rest').
        congruence.
      * rewrite append_cons in Hs. injection Hs as _ Hs.
        simpl. specialize (IH h1 h' eq_refl Hs). lia.
Qed.

(** Two prefixes of one text that have the same length are equal. *)
Lemma append_same_length (a b x y : string) :
  a +:+ x = b +:+ y -> String.length a = String.length b -> a = b.
Proof.
  revert b. induction a as [|c a IH]; intros [|d b]; simpl; try discriminate.
  - reflexivity.
  - rewrite !append_cons. intros [= -> H] [= Hlen]. f_equal. now apply IH.
Qed.

Lemma match_frontmatter_body (body : string) :
  match_frontmatter (opening +:+ body) = until_marker closing body.
Proof. now destruct body. Qed.

Lemma match_frontmatter_opening (content h : string) :
  match_frontmatter content = Some h ->
  exists body, content = opening +:+ body /\ until_marker closing body = Some h.
Proof.
  unfold match_frontmatter.
  destruct (String.prefix ("---" +:+ LF) content) eqn:Hp; [| discriminate].
  apply prefix_true in Hp as (body & ->). intros H. now exists body.
Qed.

Lemma match_frontmatter_Some_inv (content h : string) :
  match_frontmatter content = Some h ->
  exists rest, content = "---" +:+ LF +:+ h +:+ LF +:+ "---" +:+ rest.
Proof.
  intros H. apply match_frontmatter_opening in H as (body & -> & Hu).
  apply until_marker_sound in Hu as (rest & ->). exists rest.
  unfold opening, closing. now rewrite !append_assoc.
Qed.

(** X1. The header the loader extracts is the lazy match of the regular
    expression: a text h is extracted exactly when the document is the
    opening line, h, a line feed and three dashes, and anything, and no
    shorter text can take the place of h. *)
Theorem match_frontmatter_shortest_header (content h : string) :
  match_frontmatter content = Some h <->
  (exists rest, content = "---" +:+ LF +:+ h +:+ LF +:+ "---" +:+ rest) /\
  (forall h' rest',
     content = "---" +:+ LF +:+ h' +:+ LF +:+ "---" +:+ rest' ->
     String.length h <= String.length h').
Proof.
  split.
  - intros H. split; [now apply match_frontmatter_Some_inv |].
    apply match_frontmatter_opening in H as (body & -> & Hu).
    intros h' rest' Hc.
    apply (until_marker_shortest closing body h h' rest' Hu).
    unfold opening in Hc. rewrite !append_assoc in Hc.
    apply (inj (String.app _)) in Hc. apply (inj (String.app _)) in Hc.
    rewrite Hc. unfold closing. now rewrite !append_assoc.
  - intros [(rest & ->) Hshort].
    replace ("---" +:+ LF +:+ h +:+ LF +:+ "---" +:+ rest)
      with (opening +:+ (h +:+ closing +:+ rest))
      by (unfold opening, closing; now rewrite !append_assoc).
    rewrite match_frontmatter_body.
    destruct (until_marker_found closing h rest) as (h0 & Hu & Hlen).
    rewrite Hu. f_equal.
    destruct (until_marker_sound _ _ _ Hu) as (rest0 & Heq).
    symmetry. apply (append_same_length h h0 _ _ Heq).
    assert (String.length h <= String.length h0); [| lia].
    apply (Hshort h0 rest0).
    unfold closing in Heq. rewrite !append_assoc in Heq. now rewrite Heq.
Qed.

(** A document has no header exactly when it is not an opening line, some
    text and a closing marker. *)
Lemma match_frontmatter_none (content : string) :
  match_frontmatter content = None <->
  ~ exists h rest, content = "---" +:+ LF +:+ h +:+ LF +:+ "---" +:+ rest.
Proof.
  split.
  - intros Hnone (h & rest & ->).
    replace ("---" +:+ LF +:+ h +:+ LF +:+ "---" +:+ rest)
      with (opening +:+ (h +:+ closing +:+ rest)) in Hnone
      by (unfold opening, closing; now rewrite !append_assoc).
    rewrite match_frontmatter_body in Hnone.
    destruct (until_marker_found closing h rest) as (h0 & Hu & _). congruence.
  - intros Hno. destruct (match_frontmatter content) as [h |] eqn:Hm; [| reflexivity].
    exfalso. apply Hno. apply match_frontmatter_Some_inv in Hm as (rest & ->).
    now exists h, rest.
Qed.

End FrontmatterFacts.

(** ** The loader, further *)

Module LoaderFacts.
Import Js ConfigLoader Shapes JsFacts ConfigLoaderFacts FrontmatterFacts.

(** What follows the closing marker plays no part in the extraction. *)
Lemma until_marker_rest (m a x y : string) :
  until_marker m (a +:+ m +:+ x) = until_marker m (a +:+ m +:+ y).
Proof.
  induction a as [|c a IH].
  - change (EmptyString +:+ m +:+ x) with (m +:+ x).
    change (EmptyString +:+ m +:+ y) with (m +:+ y).
    rewrite (until_marker_eq m (m +:+ x)), (until_marker_eq m (m +:+ y)).
    assert (forall z, String.prefix m (m +:+ z) = true) as Hp
      by (intros z; apply prefix_true; now exists z).
    now rewrite !Hp.
  - rewrite !append_cons.
    rewrite (until_marker_eq m (String c (a +:+ m +:+ x))),
            (until_marker_eq m (String c (a +:+ m +:+ y))), IH.
    assert (String.prefix m (String c (a +:+ m +:+ x)) =
            String.prefix m (String c (a +:+ m +:+ y))) as ->; [| reflexivity].
    rewrite <- !append_cons, <- !append_assoc.
    apply prefix_same_start.
    rewrite length_append. simpl. lia.
Qed.

Lemma match_frontmatter_rest (h rest rest' : string) :
  match_frontmatter ("---" +:+ LF +:+ h +:+ LF +:+ "---" +:+ rest) =
  match_frontmatter ("---" +:+ LF +:+ h +:+ LF +:+ "---" +:+ rest').
Proof.
  replace ("---" +:+ LF +:+ h +:+ LF +:+ "---" +:+ rest)
    with (opening +:+ (h +:+ closing +:+ rest))
    by (unfold opening, closing; now rewrite !append_assoc).
  replace ("---" +:+ LF +:+ h +:+ LF +:+ "---" +:+ rest')
    with (opening +:+ (h +:+ closing +:+ rest'))
    by (unfold opening, closing; now rewrite !append_assoc).
  rewrite !match_frontmatter_body. apply until_marker_rest.
Qed.

(** The entries of a validated list each pass the validation. *)
Lemma validate_profiles_each (l : list (string * value)) :
  validate_profiles l = Return tt ->
  forall entry, entry ∈ l -> validate_profile entry = Return tt.
Proof.
  induction l as [|x l IH]; intros Hl entry Hin; [inversion Hin |].
  simpl in Hl. apply andThen_Return_inv in Hl as ([] & Hx & Hl).
  apply elem_of_cons in Hin as [-> | Hin]; [exact Hx | now apply IH].
Qed.

Lemma validate_profile_checked (name : string) (profile : value) :
  validate_profile (name, profile) = Return tt -> checked profile.
Proof.
  unfold validate_profile, check_baseUrl. simpl. intros H.
  apply andThen_Return_inv in H as ([] & Hreq & Hurl).
  apply andThen_Return_inv in Hreq as (a & Ha & Hreq).
  destruct (truthy a) eqn:Hta; [| discriminate].
  apply andThen_Return_inv in Hreq as (o & Ho & Hreq).
  destruct (truthy o) eqn:Hto; [| discriminate].
  apply andThen_Return_inv in Hurl as (b & Hb & Hurl).
  exists a, o, b. repeat split; try assumption.
  destruct (truthy b) eqn:Htb; [| now left]. right.
  apply andThen_Return_inv in Hurl as (http & Hhttp & Hurl).
  destruct b; try discriminate. simpl in Hhttp. injection Hhttp as <-.
  eexists. split; [reflexivity |].
  destruct (String.prefix "http://" s) eqn:H1; [now left |]. right.
  apply andThen_Return_inv in Hurl as (https & Hhttps & Hurl).
  simpl in Hhttps. injection Hhttps as <-.
  now destruct (String.prefix "https://" s).
Qed.

Lemma checked_truthy (profile : value) : checked profile -> truthy profile = true.
Proof.
  intros (a & o & b & Ha & Hta & _).
  destruct profile as [| | flag | n | [|c s] | elems | props | name];
    try discriminate; try reflexivity;
    vm_compute in Ha; injection Ha as <-; discriminate.
Qed.

Lemma elem_of_keys_assoc (k : string) (props : list (string * value)) :
  k ∈ props.*1 -> exists v, assoc k props = Some v.
Proof.
  induction props as [|[k' v'] props IH]; simpl; intros Hin; [inversion Hin |].
  destruct (String.eqb_spec k k') as [-> | Hne]; [eauto |].
  apply elem_of_cons in Hin as [-> | Hin]; [contradiction | now apply IH].
Qed.

(** A profile that the loop has checked resolves. *)
Lemma checked_resolves (config : Config) (name : string)
    (props : list (string * value)) (profile : value) :
  profiles config = VObj props ->
  assoc name props = Some profile ->
  checked profile ->
  exists options s,
    getSentryClientOptions config name = Return options /\
    truthy (authToken options) = true /\
    truthy (organization options) = true /\
    baseUrl options = VStr s /\
    (String.prefix "http://" s = true \/ String.prefix "https://" s = true).
Proof.
  intros Hprops Hname Hchecked.
  pose proof (checked_truthy _ Hchecked) as Htruthy.
  destruct Hchecked as (a & o & b & Ha & Hta & Ho & Hto & Hb & Hurl).
  unfold getSentryClientOptions. rewrite Hprops. simpl. rewrite Hname. simpl.
  rewrite Htruthy. simpl. rewrite Ha. simpl. rewrite Ho. simpl. rewrite Hb. simpl.
  unfold js_or. destruct Hurl as [Hfalsy | (s & -> & Hs)].
  - rewrite Hfalsy. eexists _, _. repeat split; try eassumption. now right.
  - assert (truthy (VStr s) = true) as ->.
    { destruct Hs as [Hs | Hs]; eapply prefix_nonempty; try exact Hs; discriminate. }
    eexists _, _. repeat split; eassumption.
Qed.

(** A value with one readable property has all its properties readable. *)
Lemma get_prop_readable (v x : value) (k k' : string) :
  get_prop v k = Return x -> exists y, get_prop v k' = Return y.
Proof.
  destruct v; simpl; try discriminate; intros _; eauto;
    destruct (String.eqb k' "length"); eauto.
Qed.

Section Loader.

Variable path_join : list string -> string.
Variable yaml_parse : string -> completion value.

Local Abbreviation configPath := (ConfigLoader.configPath path_join).
Local Abbreviation loadConfig := (ConfigLoader.loadConfig path_join yaml_parse).

(** X2. A document that is there but is not an opening line of three
    dashes, some text, a line feed and three more dashes is refused with
    the format error, before the YAML parser is called. *)
Theorem loadConfig_without_header (fs : filesystem) (root content : string) :
  fs !! configPath root = Some (File content) ->
  ~ (exists h rest, content = "---" +:+ LF +:+ h +:+ LF +:+ "---" +:+ rest) ->
  loadConfig fs root =
    Throw (Error "Invalid configuration file format. Expected YAML frontmatter (---...---) at the beginning.").
Proof.
  intros Hfile Hno. apply match_frontmatter_none in Hno.
  unfold ConfigLoader.loadConfig, existsSync, readFileSync.
  rewrite Hfile. simpl. now rewrite Hno.
Qed.

(** X3. What follows the closing marker of the header, the body of the
    Markdown document, has no influence on what the loader returns or
    throws. *)
Theorem loadConfig_ignores_body (fs fs' : filesystem) (root h rest rest' : string) :
  fs !! configPath root = Some (File ("---" +:+ LF +:+ h +:+ LF +:+ "---" +:+ rest)) ->
  fs' !! configPath root = Some (File ("---" +:+ LF +:+ h +:+ LF +:+ "---" +:+ rest')) ->
  loadConfig fs root = loadConfig fs' root.
Proof.
  intros Hfs Hfs'. unfold ConfigLoader.loadConfig, existsSync, readFileSync.
  rewrite Hfs, Hfs'. simpl. now rewrite (match_frontmatter_rest h rest rest').
Qed.

(** X4. A header whose profiles entry is missing, null, a boolean, a
    number or a string is refused with the profiles error. *)
Theorem loadConfig_profiles_not_a_mapping
    (fs : filesystem) (root content header : string) (doc ps : value) :
  fs !! configPath root = Some (File content) ->
  match_frontmatter content = Some header ->
  yaml_parse header = Return doc ->
  get_prop doc "profiles" = Return ps ->
  match ps with VArr _ | VObj _ => False | _ => True end ->
  loadConfig fs root =
    Throw (Error ("Configuration must include " +:+ quoted "profiles" +:+ " object")).
Proof.
  intros Hf Hh Hp Hps Hshape.
  rewrite (loadConfig_reads _ _ fs root content header doc Hf Hh Hp).
  unfold ConfigLoader.validate. rewrite Hps. simpl.
  destruct ps as [| | [] | n | [] | | |]; simpl; try reflexivity; try contradiction.
  now destruct (n =? 0)%Z.
Qed.

(** X5. A profile with both required fields whose baseUrl is a text
    that is not empty and begins with neither http:// nor https:// makes
    the loader throw the baseUrl error for that profile, when the
    profiles before it pass. *)
Theorem loadConfig_bad_baseUrl
    (fs : filesystem) (root content header name s : string) (doc : value)
    (before after fields : list (string * value)) :
  fs !! configPath root = Some (File content) ->
  match_frontmatter content = Some header ->
  yaml_parse header = Return doc ->
  get_prop doc "profiles" = Return (VObj (before ++ (name, VObj fields) :: after)) ->
  validate_profiles before = Return tt ->
  truthy (default VUndefined (assoc "authToken" fields)) = true ->
  truthy (default VUndefined (assoc "organization" fields)) = true ->
  assoc "baseUrl" fields = Some (VStr s) ->
  s <> EmptyString ->
  String.prefix "http://" s = false ->
  String.prefix "https://" s = false ->
  loadConfig fs root =
    Throw (Error ("Profile " +:+ quoted name +:+
                  " baseUrl must start with http:// or https://")).
Proof.
  intros Hf Hh Hp Hps Hbefore Ha Ho Hb Hs H1 H2.
  rewrite (loadConfig_reads _ _ fs root content header doc Hf Hh Hp).
  unfold ConfigLoader.validate. rewrite Hps. simpl.
  erewrite validate_profiles_first_failure; [reflexivity | exact Hbefore |].
  unfold validate_profile, check_baseUrl, required. cbn [check_required].
  rewrite !get_prop_plain by not_listed. cbn [andThen].
  rewrite Ha. cbn [andThen]. rewrite Ho. cbn [andThen]. rewrite Hb. simpl.
  destruct s; [contradiction |]. cbn [truthy andThen]. now rewrite H1, H2.
Qed.

(** What a successful load has established of the profiles. *)
Lemma loadConfig_checked (fs : filesystem) (root : string) (cfg : Config) :
  loadConfig fs root = Return cfg ->
  truthy (profiles cfg) = true /\ typeof_object (profiles cfg) = true /\
  forall entry, entry ∈ entries (profiles cfg) -> checked entry.2.
Proof.
  intros H.
  apply loadConfig_Return_inv in H as (content & header & doc & _ & _ & _ & Hv).
  apply validate_Return_inv in Hv as (ps & dp & df & _ & Ht & Ho & Hval & _ & _ & ->).
  simpl. repeat split; try assumption.
  intros [name profile] Hin. apply (validate_profile_checked name).
  now apply (validate_profiles_each _ Hval).
Qed.

(** X6. What a successful load guarantees: profiles is an object or an
    array, and every profile in it has a truthy authToken and
    organization, and a baseUrl that is falsy or a text beginning with
    http:// or https://. *)
Theorem loadConfig_postcondition (fs : filesystem) (root : string) (cfg : Config) :
  loadConfig fs root = Return cfg ->
  ((exists props, profiles cfg = VObj props) \/
   (exists elems, profiles cfg = VArr elems)) /\
  forall name profile,
    (name, profile) ∈ entries (profiles cfg) ->
    exists a o b,
      get_prop profile "authToken" = Return a /\ truthy a = true /\
      get_prop profile "organization" = Return o /\ truthy o = true /\
      get_prop profile "baseUrl" = Return b /\
      (truthy b = false \/
       exists s, b = VStr s /\
         (String.prefix "http://" s = true \/ String.prefix "https://" s = true)).
Proof.
  intros Hload.
  destruct (loadConfig_checked fs root cfg Hload) as (Ht & Ho & Hchecked). split.
  - destruct (profiles cfg); try discriminate; eauto.
  - intros name profile Hin. exact (Hchecked (name, profile) Hin).
Qed.

(** X7. The loader and the resolver agree: every name that is a key of
    the profiles of a loaded configuration resolves, without throwing, to
    options with a truthy authToken and organization and a baseUrl that
    begins with http:// or https://. *)
Theorem loaded_profiles_resolve
    (fs : filesystem) (root name : string) (cfg : Config)
    (props : list (string * value)) :
  loadConfig fs root = Return cfg ->
  profiles cfg = VObj props ->
  name ∈ keys (profiles cfg) ->
  exists options s,
    getSentryClientOptions cfg name = Return options /\
    truthy (authToken options) = true /\
    truthy (organization options) = true /\
    baseUrl options = VStr s /\
    (String.prefix "http://" s = true \/ String.prefix "https://" s = true).
Proof.
  intros Hload Hprops Hname.
  destruct (loadConfig_checked fs root cfg Hload) as (_ & _ & Hchecked).
  rewrite Hprops in Hname, Hchecked. unfold keys in Hname. simpl in Hname, Hchecked.
  destruct (elem_of_keys_assoc name props Hname) as (profile & Hassoc).
  apply (checked_resolves cfg name props profile Hprops Hassoc).
  apply (Hchecked (name, profile)). now apply assoc_elem_of.
Qed.

(** X8. When the header sets no defaultProfile, the default of the
    loaded configuration is the first key of the parsed profiles object
    in the order Object.keys enumerates its keys, and the profile of that
    name resolves. *)
Theorem default_profile_resolves
    (fs : filesystem) (root content header first : string) (cfg : Config)
    (fields rest : list (string * value)) (profile : value) :
  fs !! configPath root = Some (File content) ->
  match_frontmatter content = Some header ->
  yaml_parse header = Return (VObj fields) ->
  assoc "defaultProfile" fields = None ->
  loadConfig fs root = Return cfg ->
  profiles cfg = VObj ((first, profile) :: rest) ->
  defaultProfile cfg = VStr first /\
  exists options,
    getSentryClientOptions cfg first = Return options /\
    truthy (authToken options) = true /\
    truthy (organization options) = true.
Proof.
  intros Hf Hh Hp Hnone Hload Hprops. split.
  - pose proof Hload as Hv.
    rewrite (loadConfig_reads _ _ fs root content header _ Hf Hh Hp) in Hv.
    apply validate_Return_inv in Hv as (ps & dp & df & _ & _ & _ & _ & Hdp & _ & ->).
    simpl in *. rewrite Hnone in Hdp. injection Hdp as <-. subst ps. reflexivity.
  - destruct (loadConfig_checked fs root cfg Hload) as (_ & _ & Hchecked).
    rewrite Hprops in Hchecked. simpl in Hchecked.
    destruct (checked_resolves cfg first _ profile Hprops) as (options & s & H & Ha & Ho & _).
    + simpl. now rewrite String.eqb_refl.
    + apply (Hchecked (first, profile)). left.
    + eauto.
Qed.

(** X9. The loader does not check that an explicit defaultProfile names
    a profile: a document whose default is a name that is not a key of
    profiles loads and keeps the name as its default.  The failure only
    shows when the name is resolved, with the not-found error; and it
    does not show at all when the name is one that Object.prototype
    defines (constructor, toString, ...): the default then resolves to
    options without authToken and organization. *)
Theorem explicit_default_not_checked
    (fs : filesystem) (root content header d : string) (doc : value)
    (props : list (string * value)) :
  fs !! configPath root = Some (File content) ->
  match_frontmatter content = Some header ->
  yaml_parse header = Return doc ->
  get_prop doc "profiles" = Return (VObj props) ->
  validate_profiles props = Return tt ->
  get_prop doc "defaultProfile" = Return (VStr d) ->
  d <> EmptyString ->
  assoc d props = None ->
  exists cfg,
    loadConfig fs root = Return cfg /\
    defaultProfile cfg = VStr d /\
    (d ∉ Object_prototype ->
     exists message,
       getSentryClientOptions cfg d = Throw (Error message) /\
       includes message "not found") /\
    (d ∈ Object_prototype ->
     getSentryClientOptions cfg d =
       Return {| authToken := VUndefined;
                 organization := VUndefined;
                 baseUrl := VStr "https://sentry.io/api/0" |}).
Proof.
  intros Hf Hh Hp Hps Hval Hdp Hd Habsent.
  rewrite (loadConfig_reads _ _ fs root content header doc Hf Hh Hp).
  destruct (get_prop_readable doc _ "profiles" "defaultFormat" Hps) as (df & Hdf).
  unfold ConfigLoader.validate. rewrite Hps. simpl. rewrite Hval. simpl.
  rewrite Hdp. simpl. rewrite Hdf. simpl.
  eexists. split; [reflexivity |]. simpl. split; [| split].
  - unfold js_or. destruct d; [contradiction | reflexivity].
  - intros Hname. unfold getSentryClientOptions. cbn [profiles].
    rewrite (get_prop_plain props d Hname), Habsent. simpl.
    eexists. split; [reflexivity |].
    exists ("Profile " +:+ quoted d +:+ " "), (". Available profiles: " +:+ join ", " props.*1).
    unfold quoted, keys. simpl. rewrite !append_assoc. reflexivity.
  - intros Hname. unfold getSentryClientOptions. cbn [profiles].
    destruct (get_prop_inherited props d Habsent Hname) as (v & -> & Hv & Hfields).
    cbn [andThen]. rewrite Hv. cbn [negb].
    rewrite !Hfields by (apply list_elem_of_In; simpl; tauto).
    reflexivity.
Qed.

(** X10. A header that parses to null (an empty header does), or a null
    profile reached by the loop, makes the loader throw a TypeError
    in place of one of its own errors. *)
Theorem loadConfig_null_type_error
    (fs : filesystem) (root content header : string) (doc : value) :
  fs !! configPath root = Some (File content) ->
  match_frontmatter content = Some header ->
  yaml_parse header = Return doc ->
  doc = VNull \/
  (exists before name after,
     get_prop doc "profiles" = Return (VObj (before ++ (name, VNull) :: after)) /\
     validate_profiles before = Return tt) ->
  exists message, loadConfig fs root = Throw (TypeError message).
Proof.
  intros Hf Hh Hp Hnull.
  rewrite (loadConfig_reads _ _ fs root content header doc Hf Hh Hp).
  unfold ConfigLoader.validate.
  destruct Hnull as [-> | (before & name & after & Hps & Hbefore)].
  - simpl. eauto.
  - rewrite Hps. simpl.
    erewrite validate_profiles_first_failure; [simpl; eauto | exact Hbefore |].
    reflexivity.
Qed.

(** X11. A truthy baseUrl that is not a text (a number, true, a list, a
    mapping) makes the loader throw a TypeError, from the call of
    startsWith, in place of the baseUrl error. *)
Theorem loadConfig_baseUrl_type_error
    (fs : filesystem) (root content header name : string) (doc b : value)
    (before after fields : list (string * value)) :
  fs !! configPath root = Some (File content) ->
  match_frontmatter content = Some header ->
  yaml_parse header = Return doc ->
  get_prop doc "profiles" = Return (VObj (before ++ (name, VObj fields) :: after)) ->
  validate_profiles before = Return tt ->
  truthy (default VUndefined (assoc "authToken" fields)) = true ->
  truthy (default VUndefined (assoc "organization" fields)) = true ->
  assoc "baseUrl" fields = Some b ->
  truthy b = true ->
  (forall s, b <> VStr s) ->
  exists message, loadConfig fs root = Throw (TypeError message).
Proof.
  intros Hf Hh Hp Hps Hbefore Ha Ho Hb Htruthy Hnot.
  rewrite (loadConfig_reads _ _ fs root content header doc Hf Hh Hp).
  unfold ConfigLoader.validate. rewrite Hps. simpl.
  erewrite validate_profiles_first_failure; [simpl; eauto | exact Hbefore |].
  unfold validate_profile, check_baseUrl, required. cbn [check_required].
  rewrite !get_prop_plain by not_listed. cbn [andThen].
  rewrite Ha. cbn [andThen]. rewrite Ho. cbn [andThen]. rewrite Hb. simpl. rewrite Htruthy.
  destruct b; try reflexivity. now destruct (Hnot s).
Qed.

End Loader.
End LoaderFacts.

(** ** The dispatcher, further *)

Module DispatchFacts.
Import Js ConfigLoader SentryUtil Wrapper Calls Shapes JsFacts WrapperFacts.

(** No element of a literal list is the one looked for. *)
Ltac absent H :=
  repeat (apply elem_of_cons in H as [H | H]; [discriminate |]);
  now apply elem_of_nil in H.

Section RunCommand.

Variable JSON_parse : string -> completion value.
Variable trim : string -> string.
Variable api : api_call -> completion ApiResult.

Local Abbreviation parse_args := (Wrapper.parse_args JSON_parse trim).
Local Abbreviation dispatch := (Wrapper.dispatch api).
Local Abbreviation with_one := (Wrapper.with_one api).
Local Abbreviation with_two := (Wrapper.with_two api).
Local Abbreviation runCommand := (Wrapper.runCommand JSON_parse trim api).

Local Abbreviation calling := (Shapes.calling api).

Lemma with_one_calls (params : list (string * value)) (a message : string) k :
  a ∉ Object_prototype ->
  truthy (default VUndefined (assoc a params)) = true ->
  with_one (VObj params) a message k = calling (k (default VUndefined (assoc a params))).
Proof.
  intros Hname H. unfold Wrapper.with_one. rewrite (get_prop_plain params a Hname).
  rewrite seq_lift_Return. now rewrite H.
Qed.

Lemma with_two_calls (params : list (string * value)) (a b message : string) k :
  a ∉ Object_prototype ->
  b ∉ Object_prototype ->
  truthy (default VUndefined (assoc a params)) = true ->
  truthy (default VUndefined (assoc b params)) = true ->
  with_two (VObj params) a b message k =
    calling (k (default VUndefined (assoc a params)) (default VUndefined (assoc b params))).
Proof.
  intros Hna Hnb Ha Hb. unfold Wrapper.with_two.
  rewrite (get_prop_plain params a Hna), (get_prop_plain params b Hnb).
  rewrite seq_lift_Return, Ha. cbn [negb]. rewrite seq_lift_Return. now rewrite Hb.
Qed.

Lemma runCommand_calling (w : wrapper) (command arg : string)
    (params : list (string * value)) (c : api_call) :
  loaded w = true ->
  parse_args arg = Return (VObj params) ->
  dispatch command (VObj params)
    (js_or (default VUndefined (assoc "profile" params)) (currentProfile w))
    (js_or (default VUndefined (assoc "format" params)) (currentFormat w)) = calling c ->
  runCommand w command arg = ([Remote c; report (api c); Prompt], Return tt).
Proof.
  intros Hloaded Hparse Hdispatch. unfold Wrapper.runCommand.
  rewrite Hloaded. simpl. unfold lift. rewrite Hparse. simpl.
  rewrite !from_Object_absent by not_listed.
  rewrite Hdispatch. unfold Shapes.calling, call, seq.
  destruct (api c) as [[text | error] | e]; reflexivity.
Qed.

(** X12. In a loaded session, a command of the catalog whose required
    parameters are all truthy makes exactly one call: the function of
    that command, with the required parameters in the catalog's order,
    the profile and format of the argument when truthy and of the
    session otherwise, and the whole parameter object where the function
    takes one; its outcome is reported and the prompt shown. *)
Theorem runCommand_routes
    (w : wrapper) (command arg : string) (names : list string)
    (params : list (string * value)) :
  loaded w = true ->
  parse_args arg = Return (VObj params) ->
  (command, names) ∈ Spec.catalog ->
  Forall (fun r => truthy (default VUndefined (assoc r params)) = true) names ->
  exists c,
    runCommand w command arg = ([Remote c; report (api c); Prompt], Return tt) /\
    call_command c = command /\
    call_required c = map (fun r => default VUndefined (assoc r params)) names /\
    call_profile c =
      js_or (default VUndefined (assoc "profile" params)) (currentProfile w) /\
    (forall f, call_format c = Some f ->
       f = js_or (default VUndefined (assoc "format" params)) (currentFormat w)) /\
    (forall a, call_args c = Some a -> a = VObj params).
Proof.
  intros Hloaded Hparse Hcommand Hall.
  apply list_elem_of_In in Hcommand. simpl in Hcommand.
  repeat (destruct Hcommand as [Hcommand | Hcommand];
          [injection Hcommand as <- <- |]);
    try contradiction;
    repeat match goal with
           | H : Forall _ (_ :: _) |- _ => apply Forall_cons in H as [? H]
           end;
    eexists;
    (split;
     [ apply (runCommand_calling w _ arg params _ Hloaded Hparse);
       first [ apply with_one_calls; [not_listed | assumption]
             | apply with_two_calls;
               [not_listed | not_listed | assumption..]
             | reflexivity ]
     | repeat split; intros ? [= <-]; reflexivity ]).
Qed.

(** The traces runCommand can leave. *)
Lemma runCommand_cases (w : wrapper) (command arg : string) :
  exists t,
    runCommand w command arg = (t, Return tt) /\
    (t = [ConsoleLog ["Configuration not loaded!"]; Prompt] \/
     (exists line, t = [ConsoleError line; Prompt]) \/
     (exists c, t = [Remote c; report (api c); Prompt])).
Proof.
  unfold Wrapper.runCommand.
  destruct (loaded w); simpl; [| eauto].
  unfold lift. destruct (parse_args arg) as [args | e]; simpl; [| eauto 6].
  destruct (get_prop args "profile") as [p | e]; simpl; [| eauto 6].
  destruct (get_prop args "format") as [f | e]; simpl; [| eauto 6].
  destruct (dispatch_dispatched api command args (js_or p (currentProfile w))
              (js_or f (currentFormat w)))
    as [message | c result Hcall | c e Hcall | e]; simpl; [eauto 6 | | | eauto 6].
  - destruct result; simpl; eexists; (split; [reflexivity |]);
      right; right; exists c; now rewrite Hcall.
  - eexists. split; [reflexivity |]. right. right. exists c. now rewrite Hcall.
Qed.

Lemma report_not_prompt (o : completion ApiResult) : report o <> Prompt.
Proof. now destruct o as [[] |]. Qed.

(** X13. Whatever the session, the command and the argument, runCommand
    returns and shows the prompt exactly once, as the last thing it
    does. *)
Theorem runCommand_prompts_once (w : wrapper) (command arg : string) :
  exists t,
    runCommand w command arg = (t ++ [Prompt], Return tt) /\ Prompt ∉ t.
Proof.
  destruct (runCommand_cases w command arg) as (t & -> & [-> | [(line & ->) | (c & ->)]]).
  - exists [ConsoleLog ["Configuration not loaded!"]]. split; [reflexivity |].
    intros H. apply list_elem_of_singleton in H. discriminate.
  - exists [ConsoleError line]. split; [reflexivity |].
    intros H. apply list_elem_of_singleton in H. discriminate.
  - exists [Remote c; report (api c)]. split; [reflexivity |].
    intros H. apply elem_of_cons in H as [H | H]; [discriminate |].
    apply list_elem_of_singleton in H. symmetry in H. now apply report_not_prompt in H.
Qed.

Lemma report_not_remote (o : completion ApiResult) :
  remote_calls [report o] = [].
Proof. now destruct o as [[] |]. Qed.

(** X14. runCommand makes at most one call of the client layer. *)
Theorem runCommand_calls_at_most_once (w : wrapper) (command arg : string) :
  length (remote_calls (runCommand w command arg).1) <= 1.
Proof.
  destruct (runCommand_cases w command arg) as (t & -> & [-> | [(line & ->) | (c & ->)]]);
    simpl; try lia.
  unfold remote_calls. simpl. destruct (report (api c)) eqn:H; simpl; try lia.
  exfalso. destruct (api c) as [[] |]; discriminate.
Qed.

(** X15. In a loaded session an argument that does not parse, or that
    parses to null, is reported as an error of running the command, for
    every command name, in or out of the catalog, without any call. *)
Theorem runCommand_argument_error (w : wrapper) (command arg : string) :
  loaded w = true ->
  (forall e,
     parse_args arg = Throw e ->
     runCommand w command arg =
       ([ConsoleError ["Error running command:"; errorMessage e]; Prompt], Return tt)) /\
  (parse_args arg = Return VNull ->
   exists message,
     runCommand w command arg =
       ([ConsoleError ["Error running command:"; message]; Prompt], Return tt)).
Proof.
  intros Hloaded. unfold Wrapper.runCommand. rewrite Hloaded. simpl. unfold lift.
  split.
  - intros e ->. reflexivity.
  - intros ->. simpl. eauto.
Qed.

Lemma with_one_scalar (args : value) (a message : string) k :
  get_prop args a = Return VUndefined ->
  with_one args a message k = (rejected message, Return None).
Proof. intros H. unfold Wrapper.with_one. now rewrite H, seq_lift_Return. Qed.

Lemma with_two_scalar (args : value) (a b message : string) k :
  get_prop args a = Return VUndefined ->
  with_two args a b message k = (rejected message, Return None).
Proof. intros H. unfold Wrapper.with_two. now rewrite H, seq_lift_Return. Qed.

(** X16. A JSON argument that is a number, a text or a boolean, not an
    object, has none of the required parameters: a command that needs
    one is rejected with its required-parameter message. *)
Theorem runCommand_scalar_argument
    (w : wrapper) (command arg r : string) (names : list string) (args : value) :
  loaded w = true ->
  parse_args arg = Return args ->
  match args with VBool _ | VNum _ | VStr _ => True | _ => False end ->
  (command, names) ∈ Spec.catalog ->
  r ∈ names ->
  runCommand w command arg =
    ([ConsoleError [Spec.required_message names]; Prompt], Return tt).
Proof.
  intros Hloaded Hparse Hscalar Hcommand Hr.
  assert (forall k,
            k ∈ ["profile"; "format"; "projectSlug"; "issueId"; "eventId"; "tagKey"] ->
            get_prop args k = Return VUndefined) as Hget
    by (intros k; now apply get_prop_scalar).
  unfold Wrapper.runCommand. rewrite Hloaded. simpl. unfold lift.
  rewrite Hparse. simpl.
  rewrite (Hget "profile"), (Hget "format") by (apply list_elem_of_In; simpl; tauto).
  simpl.
  assert (forall profile format,
            dispatch command args profile format =
              (rejected (Spec.required_message names), Return None)) as ->;
    [| reflexivity].
  intros profile format.
  apply list_elem_of_In in Hcommand. apply list_elem_of_In in Hr. simpl in Hcommand.
  repeat (destruct Hcommand as [Hcommand | Hcommand];
          [injection Hcommand as <- <-; simpl in Hr |]);
    try contradiction;
    first [ apply with_one_scalar | apply with_two_scalar ];
    apply Hget; apply list_elem_of_In; simpl; tauto.
Qed.

(** *** Which calls the switch can make *)

Lemma calling_sound (c0 c : api_call) : Remote c ∈ (calling c0).1 -> c = c0.
Proof.
  unfold Shapes.calling, call, seq. destruct (api c0); simpl; intros H;
    apply list_elem_of_singleton in H; congruence.
Qed.

Lemma rejected_no_call (message : string) (c : api_call) :
  Remote c ∈ rejected message -> False.
Proof.
  intros H. apply elem_of_cons in H as [H | H]; [discriminate |].
  apply list_elem_of_singleton in H. discriminate.
Qed.

Lemma with_one_sound (args : value) (a message : string) k (c : api_call) :
  Remote c ∈ (with_one args a message k).1 ->
  exists x, truthy x = true /\ c = k x.
Proof.
  unfold Wrapper.with_one. destruct (get_prop args a) as [x | e].
  - rewrite seq_lift_Return. destruct (truthy x) eqn:Hx; cbn [negb].
    + intros H. apply calling_sound in H. eauto.
    + intros H. now apply rejected_no_call in H.
  - simpl. intros H. inversion H.
Qed.

Lemma with_two_sound (args : value) (a b message : string) k (c : api_call) :
  Remote c ∈ (with_two args a b message k).1 ->
  exists x y, truthy x = true /\ truthy y = true /\ c = k x y.
Proof.
  unfold Wrapper.with_two. destruct (get_prop args a) as [x | e].
  - rewrite seq_lift_Return. destruct (truthy x) eqn:Hx; cbn [negb].
    + destruct (get_prop args b) as [y | e].
      * rewrite seq_lift_Return. destruct (truthy y) eqn:Hy; cbn [negb].
        -- intros H. apply calling_sound in H. eauto.
        -- intros H. now apply rejected_no_call in H.
      * simpl. intros H. inversion H.
    + intros H. now apply rejected_no_call in H.
  - simpl. intros H. inversion H.
Qed.

(** A call made by the switch is the call of the command it was given,
    for the profile and format it was given, and its identifying
    arguments are truthy. *)
Lemma dispatch_sound (command : string) (args profile format : value) (c : api_call) :
  Remote c ∈ (dispatch command args profile format).1 ->
  call_command c = command /\
  Forall (fun v => truthy v = true) (call_required c) /\
  call_profile c = profile /\
  (forall f, call_format c = Some f -> f = format).
Proof.
  unfold Wrapper.dispatch.
  repeat match goal with
         | |- context [String.eqb command ?s] =>
             destruct (String.eqb_spec command s) as [-> | _]
         end;
    intros H;
    first [ apply with_one_sound in H as (x & Hx & ->)
          | apply with_two_sound in H as (x & y & Hx & Hy & ->)
          | apply calling_sound in H as ->
          | now apply rejected_no_call in H ];
    (split; [reflexivity |]); (split; [repeat constructor; assumption |]);
    (split; [reflexivity |]); intros f [= <-]; reflexivity.
Qed.

Lemma runCommand_remote (w : wrapper) (command arg : string) (c : api_call) :
  Remote c ∈ (runCommand w command arg).1 ->
  exists args p f,
    parse_args arg = Return args /\
    get_prop args "profile" = Return p /\
    get_prop args "format" = Return f /\
    Remote c ∈ (dispatch command args (js_or p (currentProfile w))
                  (js_or f (currentFormat w))).1.
Proof.
  unfold Wrapper.runCommand.
  destruct (loaded w); simpl; [| intros H; absent H].
  unfold lift. destruct (parse_args arg) as [args | e] eqn:Hparse; simpl;
    [| intros H; absent H].
  destruct (get_prop args "profile") as [p | e] eqn:Hp; simpl;
    [| intros H; absent H].
  destruct (get_prop args "format") as [f | e] eqn:Hf; simpl;
    [| intros H; absent H].
  intros H. exists args, p, f. split; [reflexivity |]. split; [exact Hp |].
  split; [exact Hf |]. revert H.
  destruct (dispatch_dispatched api command args (js_or p (currentProfile w))
              (js_or f (currentFormat w)))
    as [message | c0 result Hcall | c0 e Hcall | e]; simpl; intros H.
  - absent H.
  - destruct result; simpl in H;
      (apply elem_of_cons in H as [[= ->] | H]; [left | absent H]).
  - apply elem_of_cons in H as [[= ->] | H]; [left | absent H].
  - absent H.
Qed.

Lemma runCommand_call_loaded (w : wrapper) (command arg : string) (c : api_call) :
  Remote c ∈ (runCommand w command arg).1 -> loaded w = true.
Proof.
  intros H. destruct (loaded w) eqn:Hl; [reflexivity |]. exfalso.
  unfold Wrapper.runCommand in H. rewrite Hl in H. simpl in H. absent H.
Qed.

Lemma call_command_known (c : api_call) : call_command c ∈ Constants.COMMANDS.
Proof. apply list_elem_of_In. destruct c; simpl; tauto. Qed.

(** X17. Every call runCommand makes is the function of the command it
    was given, one of the thirteen, made in a loaded session, with truthy
    identifying arguments, for the profile of the argument when truthy
    and of the session otherwise. *)
Theorem runCommand_call_sound (w : wrapper) (command arg : string) (c : api_call) :
  Remote c ∈ (runCommand w command arg).1 ->
  loaded w = true /\
  call_command c = command /\
  command ∈ Constants.COMMANDS /\
  Forall (fun v => truthy v = true) (call_required c) /\
  exists args p,
    parse_args arg = Return args /\
    get_prop args "profile" = Return p /\
    call_profile c = js_or p (currentProfile w).
Proof.
  intros H. pose proof (runCommand_call_loaded w command arg c H) as Hloaded.
  apply runCommand_remote in H as (args & p & f & Hparse & Hp & Hf & H).
  apply dispatch_sound in H as (Hcommand & Hreq & Hprofile & _).
  repeat split; try assumption.
  - rewrite <- Hcommand. apply call_command_known.
  - eauto.
Qed.


End RunCommand.
End DispatchFacts.

(** ** The command listing *)

Module HelpersFacts.
Import Js Wrapper Helpers.

Lemma indexOf_Some (name : string) (l : list string) (i : nat) :
  indexOf name l = Some i -> l !! i = Some name.
Proof.
  revert i. induction l as [|x l IH]; intros i; simpl; [discriminate |].
  destruct (String.eqb_spec x name) as [-> | _].
  - now intros [= <-].
  - destruct (indexOf name l) as [j |]; [| discriminate].
    intros [= <-]. now apply IH.
Qed.

(** indexOf finds the first occurrence. *)
Lemma indexOf_first (name : string) (l : list string) (i : nat) :
  indexOf name l = Some i -> forall j, (j < i)%nat -> l !! j <> Some name.
Proof.
  revert i. induction l as [|x l IH]; intros i; simpl; [discriminate |].
  destruct (String.eqb_spec x name) as [-> | Hne].
  - intros [= <-] j Hj. lia.
  - destruct (indexOf name l) as [k |]; [| discriminate].
    intros [= <-] [|j] Hj; simpl.
    + congruence.
    + apply (IH k eq_refl). lia.
Qed.

Lemma indexOf_None (name : string) (l : list string) :
  indexOf name l = None <-> name ∉ l.
Proof.
  induction l as [|x l IH]; simpl.
  - split; [intros _ H; inversion H | reflexivity].
  - destruct (String.eqb_spec x name) as [-> | Hne].
    + split; [discriminate | intros H; destruct H; left].
    + destruct (indexOf name l) as [j |]; simpl.
      * split; [discriminate |]. intros H. exfalso.
        apply H. right. apply dec_stable. intros Hn. now apply IH in Hn.
      * split; [| reflexivity]. intros _ H.
        apply elem_of_cons in H as [-> | H]; [contradiction |].
        now apply IH in H.
Qed.

Section Tables.

Variable COMMANDS : list string.
Variable COMMANDS_INFO : list string.
Variable COMMANDS_DETAIL : list string.
Variable trim : string -> string.

Local Abbreviation printAvailableCommands :=
  (Helpers.printAvailableCommands COMMANDS COMMANDS_INFO).
Local Abbreviation printCommandDetail :=
  (Helpers.printCommandDetail COMMANDS COMMANDS_INFO COMMANDS_DETAIL trim).

(** The helpers only write to the console's standard stream. *)
Lemma printAvailableCommands_logs (e : event) :
  e ∈ printAvailableCommands -> exists line, e = ConsoleLog line.
Proof.
  unfold Helpers.printAvailableCommands. intros H.
  apply elem_of_cons in H as [-> | H]; [eauto |].
  apply list_elem_of_lookup in H as (i & H).
  apply list_lookup_imap_Some in H as (name & _ & ->). eauto.
Qed.

Lemma printCommandDetail_logs (command : string) (e : event) :
  e ∈ printCommandDetail command -> exists line, e = ConsoleLog line.
Proof.
  unfold Helpers.printCommandDetail.
  destruct (trim command) as [|ch name].
  - intros H. apply elem_of_cons in H as [-> | H]; [eauto |].
    now apply printAvailableCommands_logs.
  - destruct (indexOf _ COMMANDS).
    + intros H. apply list_elem_of_singleton in H as ->. eauto.
    + intros H. apply elem_of_cons in H as [-> | H]; [eauto |].
      now apply printAvailableCommands_logs.
Qed.

(** X18. printCommandDetail trims the name it is given.  For a command of
    the table it prints one entry, made of the name, a line feed and the
    description found in COMMANDS_INFO at the index of the first occurrence
    of the name in COMMANDS, or No additional information available. when
    that description is missing or empty, so a description that is never
    empty; then, when the trimmed text found in COMMANDS_DETAIL at the same
    index is not empty, a line feed and that text.  For any other name it
    says so, or asks for a name when the trimmed text is empty, and then
    prints the whole listing, which has one line per command after its
    heading. *)
Theorem printCommandDetail_known_or_listing (command : string) :
  (trim command <> EmptyString -> trim command ∈ COMMANDS ->
   exists idx info detail,
     COMMANDS !! idx = Some (trim command) /\
     (forall j, (j < idx)%nat -> COMMANDS !! j <> Some (trim command)) /\
     (forall d, COMMANDS_INFO !! idx = Some d -> d <> EmptyString -> info = d) /\
     (COMMANDS_INFO !! idx = None \/ COMMANDS_INFO !! idx = Some EmptyString ->
      info = "No additional information available.") /\
     info <> EmptyString /\
     (forall d, COMMANDS_DETAIL !! idx = Some d -> detail = trim d) /\
     (COMMANDS_DETAIL !! idx = None -> detail = trim EmptyString) /\
     printCommandDetail command =
       [ConsoleLog [trim command +:+ LF +:+ info +:+
                    (if decide (detail = EmptyString) then EmptyString
                     else LF +:+ detail)]]) /\
  (trim command <> EmptyString -> trim command ∉ COMMANDS ->
   printCommandDetail command =
     ConsoleLog ["Unknown command: " +:+ trim command] :: printAvailableCommands) /\
  (trim command = EmptyString ->
   printCommandDetail command =
     ConsoleLog ["Please provide a command name."] :: printAvailableCommands) /\
  length printAvailableCommands = S (length COMMANDS).
Proof.
  unfold Helpers.printCommandDetail. repeat split.
  - intros Hname Hin. destruct (trim command) as [|ch name] eqn:Ht; [contradiction |].
    destruct (indexOf (String ch name) COMMANDS) as [idx |] eqn:Hidx.
    + exists idx, (or_else (COMMANDS_INFO !! idx) "No additional information available."),
             (trim (or_else (COMMANDS_DETAIL !! idx) EmptyString)).
      split; [now apply indexOf_Some |].
      split; [now apply indexOf_first |].
      split; [intros d -> Hd; now destruct d |].
      split; [now intros [-> | ->] |].
      split; [unfold or_else; destruct (COMMANDS_INFO !! idx) as [[|] |]; discriminate |].
      split; [intros d ->; now destruct d |].
      split; [now intros -> |].
      destruct (trim (or_else (COMMANDS_DETAIL !! idx) EmptyString)); reflexivity.
    + now apply indexOf_None in Hidx.
  - intros Hname Hnotin. destruct (trim command) as [|ch name] eqn:Ht; [contradiction |].
    apply indexOf_None in Hnotin. now rewrite Hnotin.
  - now intros ->.
  - unfold Helpers.printAvailableCommands. simpl. now rewrite length_imap.
Qed.

End Tables.
End HelpersFacts.

(** ** The REPL *)

Module ReplFacts.
Import Js ConfigLoader SentryUtil Wrapper Helpers Repl Calls Shapes JsFacts
       ConfigLoaderFacts WrapperFacts DispatchFacts HelpersFacts.

Section Session.

Variable JSON_parse : string -> completion value.
Variable trim : string -> string.
Variable api : api_call -> completion ApiResult.
Variable ToString : value -> completion string.
Variable COMMANDS : list string.
Variable COMMANDS_INFO : list string.
Variable COMMANDS_DETAIL : list string.

Local Abbreviation runCommand := (Wrapper.runCommand JSON_parse trim api).
Local Abbreviation parse_args := (Wrapper.parse_args JSON_parse trim).
Local Abbreviation handleCommand :=
  (Repl.handleCommand JSON_parse trim api ToString COMMANDS COMMANDS_INFO COMMANDS_DETAIL).
Local Abbreviation printHelp := (Repl.printHelp ToString COMMANDS).
Local Abbreviation switch_profile := (Repl.switch_profile trim).
Local Abbreviation switch_format := (Repl.switch_format trim).
Local Abbreviation printAvailableCommands :=
  (Helpers.printAvailableCommands COMMANDS COMMANDS_INFO).
Local Abbreviation printCommandDetail :=
  (Helpers.printCommandDetail COMMANDS COMMANDS_INFO COMMANDS_DETAIL trim).

Lemma kept_refl (w : wrapper) : kept w w.
Proof. repeat split; auto. Qed.

Lemma switch_profile_kept (w w' : wrapper) (trimmed : string) (t : list action) :
  switch_profile w trimmed = (t, Return w') -> kept w w'.
Proof.
  unfold Repl.switch_profile.
  set (newProfile := trim (substring_from 8 trimmed)).
  destruct (config w) as [cfg |] eqn:Hcfg.
  - destruct (get_prop (profiles cfg) newProfile) as [profile | e] eqn:Hget;
      [| discriminate].
    destruct (truthy profile) eqn:Ht; intros [= <- <-]; [| apply kept_refl].
    repeat split; cbn [config currentFormat currentProfile]; auto.
    right. eauto 10.
  - intros [= <- <-]. apply kept_refl.
Qed.

Lemma switch_format_kept (w w' : wrapper) (trimmed : string) (t : list action) :
  switch_format w trimmed = (t, Return w') -> kept w w'.
Proof.
  unfold Repl.switch_format.
  set (newFormat := trim (substring_from 7 trimmed)).
  destruct (String.eqb_spec newFormat "json") as [-> | _]; simpl.
  - intros [= <- <-]. repeat split; cbn [config currentFormat currentProfile]; auto.
  - destruct (String.eqb_spec newFormat "toon") as [-> | _]; intros [= <- <-].
    + repeat split; cbn [config currentFormat currentProfile]; auto.
    + apply kept_refl.
Qed.

(** X19. A line never changes the configuration of the session; it
    changes the format only to json or toon, and the profile only to a
    name under which the configuration holds a truthy entry. *)
Theorem handleCommand_keeps_session (w w' : wrapper) (input : string) (t : list action) :
  handleCommand w input = (t, Return w') ->
  config w' = config w /\
  (currentFormat w' = currentFormat w \/
   currentFormat w' = VStr "json" \/ currentFormat w' = VStr "toon") /\
  (currentProfile w' = currentProfile w \/
   exists cfg name profile,
     config w = Some cfg /\
     get_prop (profiles cfg) name = Return profile /\
     truthy profile = true /\
     currentProfile w' = VStr name).
Proof.
  change (handleCommand w input = (t, Return w') -> kept w w').
  unfold Repl.handleCommand.
  repeat case_match;
    first [ apply switch_profile_kept | apply switch_format_kept
          | intros [= <- Hw]; subst ];
    try apply kept_refl; try discriminate.
  all: match goal with
       | c : completion unit |- _ =>
           destruct c; simpl in Hw; [injection Hw as <- | discriminate]
       end.
  all: apply kept_refl.
Qed.


(** *** Prompting and shutting down *)

Lemma printed_quiet (l : list action) : Forall printed l -> Forall quiet l.
Proof. intros H. eapply Forall_impl; [exact H |]. now intros [[] | | |]. Qed.

Lemma quiet_free (l : list action) :
  Forall quiet l -> (Out Prompt ∉ l) /\ (ClearClients ∉ l) /\ (Close ∉ l).
Proof.
  intros H. repeat split; intros Hin;
    apply (proj1 (Forall_forall _ _) H) in Hin; exact Hin.
Qed.

Lemma map_Out_printed (l : list event) :
  (forall e, e ∈ l -> exists line, e = ConsoleLog line) -> Forall printed (map Out l).
Proof.
  intros H. apply Forall_forall. intros a Ha.
  apply list_elem_of_fmap in Ha as (e & -> & He).
  now destruct (H e He) as (line & ->).
Qed.

Lemma printHelp_printed (w : wrapper) (t : list action) :
  printHelp w = Return t -> Forall printed t.
Proof.
  unfold Repl.printHelp.
  destruct (ToString (js_or _ _)); [| discriminate].
  destruct (ToString (currentFormat w)); [| discriminate].
  intros [= <-]. repeat constructor.
Qed.

Lemma list_profiles_printed (w : wrapper) : Forall printed (list_profiles w).
Proof.
  unfold list_profiles. destruct (config w) as [cfg |]; [| constructor].
  constructor; [exact I |]. apply Forall_forall. intros a Ha.
  apply list_elem_of_lookup in Ha as (i & Ha).
  apply list_lookup_imap_Some in Ha as (name & _ & ->). exact I.
Qed.

Lemma runCommand_quiet (w : wrapper) (command arg : string) :
  exists t,
    runCommand w command arg = (t ++ [Prompt], Return tt) /\ Forall quiet (map Out t).
Proof.
  destruct (runCommand_cases JSON_parse trim api w command arg)
    as (t & -> & [-> | [(line & ->) | (c & ->)]]).
  - exists [ConsoleLog ["Configuration not loaded!"]]. split; [reflexivity |].
    repeat constructor.
  - exists [ConsoleError line]. split; [reflexivity |]. repeat constructor.
  - exists [Remote c; report (api c)]. split; [reflexivity |].
    repeat constructor. now destruct (api c) as [[] |].
Qed.

Lemma switch_profile_quiet (w w' : wrapper) (trimmed : string) (t : list action) :
  switch_profile w trimmed = (t, Return w') ->
  exists t', t = t' ++ [Out Prompt] /\ Forall quiet t'.
Proof.
  unfold Repl.switch_profile.
  destruct (config w) as [cfg |].
  - destruct (get_prop _ _) as [profile | e]; [| discriminate].
    destruct (truthy profile); intros [= <- _];
      eexists [_]; (split; [reflexivity | repeat constructor]).
  - intros [= <- _]. eexists [_]. split; [reflexivity | repeat constructor].
Qed.

Lemma switch_format_quiet (w w' : wrapper) (trimmed : string) (t : list action) :
  switch_format w trimmed = (t, Return w') ->
  exists t', t = t' ++ [Out Prompt] /\ Forall quiet t'.
Proof.
  unfold Repl.switch_format.
  destruct (_ || _); intros [= <- _];
    eexists [_]; (split; [reflexivity | repeat constructor]).
Qed.

Lemma trace_eq {A B : Type} (a a' : A) (b b' : B) : (a, b) = (a', b') -> a' = a.
Proof. now intros [= -> _]. Qed.

Lemma quits_spec (trimmed : string) :
  (String.eqb trimmed "exit" || String.eqb trimmed "quit" || String.eqb trimmed "q") = true
  <-> trimmed ∈ ["exit"; "quit"; "q"].
Proof.
  rewrite !orb_true_iff, !String.eqb_eq, !elem_of_cons, elem_of_nil. tauto.
Qed.

(** X20. A line that returns either shuts the session down, when it is exit,
    quit or q, or ends with the one prompt it shows; between the two
    there is nothing: no line both prompts and closes. *)
Theorem handleCommand_prompts_or_closes
    (w w' : wrapper) (input : string) (t : list action) :
  handleCommand w input = (t, Return w') ->
  (trim input ∈ ["exit"; "quit"; "q"] ->
   t = [Out (ConsoleLog [LF +:+ "Closing Sentry connections..."]); ClearClients; Close]) /\
  (trim input ∉ ["exit"; "quit"; "q"] ->
   exists t', t = t' ++ [Out Prompt] /\
              (Out Prompt ∉ t') /\ (ClearClients ∉ t') /\ (Close ∉ t')).
Proof.
  unfold Repl.handleCommand.
  destruct (trim input) as [|ch rest] eqn:Htrim.
  - intros [= <- _]. split.
    + intros H. apply quits_spec in H. discriminate.
    + intros _. exists []. split; [reflexivity |]. apply quiet_free. constructor.
  - destruct (_ || _) eqn:Hquit.
    + intros [= <- _]. split; [reflexivity |].
      intros H. exfalso. apply H. now apply quits_spec.
    + intros H. split.
      * intros Hq. apply quits_spec in Hq. congruence.
      * intros _.
        assert (exists t', t = t' ++ [Out Prompt] /\ Forall quiet t') as (t' & -> & Hquiet);
          [| exists t'; split; [reflexivity | now apply quiet_free]].
        revert H. repeat case_match; intros Heq;
          first [ now apply switch_profile_quiet in Heq
                | now apply switch_format_quiet in Heq
                | discriminate Heq
                | apply trace_eq in Heq as -> ].
        all: first
          [ exists [ConsoleClear]; split; [reflexivity | repeat constructor]
          | eexists; split;
            [ reflexivity
            | apply printed_quiet;
              first [ eapply printHelp_printed; eassumption
                    | apply list_profiles_printed
                    | apply map_Out_printed, printAvailableCommands_logs
                    | apply map_Out_printed, printCommandDetail_logs ] ]
          | match goal with
            | H : Wrapper.runCommand _ _ _ _ ?c ?a = _ |- _ =>
                destruct (runCommand_quiet w c a) as (t0 & Hrun & Hq);
                rewrite Hrun in H; injection H as <- <-;
                exists (map Out t0); split; [now rewrite map_app | exact Hq]
            end ].
Qed.


(** *** Which lines reach the client layer *)

Lemma printed_no_call (l : list action) (c : api_call) :
  Forall printed l -> Out (Remote c) ∉ l ++ [Out Prompt].
Proof.
  intros H Hin. apply elem_of_app in Hin as [Hin | Hin]; [| absent Hin].
  apply (proj1 (Forall_forall _ _) H) in Hin. exact Hin.
Qed.

Lemma switch_profile_printed (w : wrapper) (trimmed : string) (c : api_call) :
  Out (Remote c) ∉ (switch_profile w trimmed).1.
Proof.
  unfold Repl.switch_profile. intros H.
  destruct (config w) as [cfg |];
    [destruct (get_prop _ _) as [profile | e]; [destruct (truthy profile) |] |];
    simpl in H; absent H.
Qed.

Lemma switch_format_printed (w : wrapper) (trimmed : string) (c : api_call) :
  Out (Remote c) ∉ (switch_format w trimmed).1.
Proof.
  unfold Repl.switch_format. intros H.
  destruct (_ || _); simpl in H; absent H.
Qed.

(** X21. A call of the client layer is made only by a line whose first word
    is one of the thirteen commands, in a loaded session, with truthy
    identifying arguments; the words the REPL keeps for itself never
    reach the client layer. *)
Theorem handleCommand_call_sound (w : wrapper) (input : string) (c : api_call) :
  Out (Remote c) ∈ (handleCommand w input).1 ->
  loaded w = true /\
  call_command c = (split_space (trim input)).1 /\
  call_command c ∈ Constants.COMMANDS /\
  Forall (fun v => truthy v = true) (call_required c) /\
  (exists args p,
     parse_args match (split_space (trim input)).2 with
                | Some text => trim text
                | None => EmptyString
                end = Return args /\
     get_prop args "profile" = Return p /\
     call_profile c = js_or p (currentProfile w)).
Proof.
  unfold Repl.handleCommand.
  destruct (trim input) as [|ch rest] eqn:Htrim; [intros Hin; simpl in Hin; absent Hin |].
  repeat case_match; intros Hin; cbn [fst] in Hin;
    try absent Hin;
    try (now apply switch_profile_printed in Hin);
    try (now apply switch_format_printed in Hin);
    try (exfalso; revert Hin; apply printed_no_call;
         first [ eapply printHelp_printed; eassumption
               | apply list_profiles_printed
               | apply map_Out_printed, printAvailableCommands_logs
               | apply map_Out_printed, printCommandDetail_logs ]).
  all: apply list_elem_of_fmap in Hin as (e & [= <-] & Hin);
    match goal with
    | Hrun : Wrapper.runCommand _ _ _ _ ?cmd ?a = _ |- _ =>
        replace l with (Wrapper.runCommand JSON_parse trim api w cmd a).1 in Hin
          by now rewrite Hrun
    end;
    pose proof (runCommand_call_loaded _ _ _ _ _ _ _ Hin) as Hloaded;
    apply runCommand_remote in Hin as (args & p & f & Hparse & Hp & _ & Hin);
    apply dispatch_sound in Hin as (Hcommand & Hreq & Hprofile & _);
    cbn [fst snd] in *; repeat split; eauto using call_command_known;
    simplify_eq; eauto 10.
Qed.


(** *** Switching the profile, then running a command *)

(** X25. After [profile <name>] for a name the configuration knows, the
    session's profile is that name, and it is the profile of every call
    made by a later command whose argument names none. *)
Theorem profile_switch_applies
    (w : wrapper) (input name : string) (cfg : Config) (profile : value) :
  trim input = "profile " +:+ name ->
  config w = Some cfg ->
  get_prop (profiles cfg) (trim name) = Return profile ->
  truthy profile = true ->
  exists w',
    handleCommand w input =
      ([ Out (ConsoleLog ["✓ Switched to profile: " +:+ trim name]); Out Prompt ],
       Return w') /\
    config w' = config w /\
    currentFormat w' = currentFormat w /\
    currentProfile w' = VStr (trim name) /\
    forall command arg c,
      Remote c ∈ (runCommand w' command arg).1 ->
      exists args p,
        parse_args arg = Return args /\
        get_prop args "profile" = Return p /\
        call_profile c = (if truthy p then p else VStr (trim name)).
Proof.
  intros Htrim Hcfg Hget Ht.
  eexists. split; [| split; [| split; [| split]]].
  - replace (handleCommand w input) with (switch_profile w (trim input))
      by (unfold Repl.handleCommand; rewrite Htrim; clear; now destruct name).
    unfold Repl.switch_profile. rewrite Htrim, Hcfg.
    change (substring_from 8 ("profile " +:+ name)) with name.
    rewrite Hget, Ht. reflexivity.
  - simpl. congruence.
  - reflexivity.
  - reflexivity.
  - intros command arg c Hin.
    apply runCommand_remote in Hin as (args & p & f & Hparse & Hp & _ & Hin).
    apply dispatch_sound in Hin as (_ & _ & Hprofile & _).
    exists args, p. now rewrite Hprofile.
Qed.

End Session.

(** *** connect *)

Section Connect.

Variable path_join : list string -> string.
Variable yaml_parse : string -> completion value.
Variable JSON_parse : string -> completion value.
Variable trim : string -> string.
Variable api : api_call -> completion ApiResult.
Variable ToString : value -> completion string.
Variable COMMANDS : list string.

Local Abbreviation loadConfig := (ConfigLoader.loadConfig path_join yaml_parse).
Local Abbreviation runCommand := (Wrapper.runCommand JSON_parse trim api).
Local Abbreviation printHelp := (Repl.printHelp ToString COMMANDS).
Local Abbreviation connect := (Repl.connect path_join yaml_parse ToString COMMANDS).

Lemma js_or_truthy (a b : value) : truthy b = true -> truthy (js_or a b) = true.
Proof. intros H. unfold js_or. now destruct (truthy a) eqn:Ha. Qed.

Lemma connect_Continues (env : option string) (cwd : string) (fs : filesystem)
    (t : list action) (w : wrapper) :
  connect env cwd fs = (t, Continues w) ->
  exists cfg,
    loadConfig fs (projectRoot env cwd) = Return cfg /\
    w = opened cfg /\
    printHelp w = Return t.
Proof.
  unfold Repl.connect.
  destruct (loadConfig fs (projectRoot env cwd)) as [cfg | e]; [| discriminate].
  destruct (printHelp (opened cfg)) as [t' | e] eqn:Hhelp; [| discriminate].
  intros [= <- <-]. now exists cfg.
Qed.

Lemma connect_loaded (env : option string) (cwd : string) (fs : filesystem)
    (t : list action) (w : wrapper) (k : string) (rest : list string) (cfg : Config) :
  connect env cwd fs = (t, Continues w) ->
  config w = Some cfg ->
  keys (profiles cfg) = k :: rest -> k <> EmptyString -> loaded w = true.
Proof.
  intros H Hcfg Hkeys Hk. apply connect_Continues in H as (cfg' & Hload & -> & _).
  injection Hcfg as ->. unfold loaded, opened. simpl.
  apply loadConfig_Return_inv in Hload as (content & header & doc & _ & _ & _ & Hv).
  apply validate_Return_inv in Hv as (ps & dp & df & _ & _ & _ & _ & _ & _ & ->).
  simpl in *. apply js_or_truthy. unfold first_key. rewrite Hkeys.
  now destruct k.
Qed.

(** X22. After a connect that did not exit, the session holds the loaded
    configuration with its default profile and format, the help text for
    these settings is all that was shown, and commands are accepted as
    soon as the first key of profiles is a name that is not empty. *)
Theorem connect_session (env : option string) (cwd : string) (fs : filesystem)
    (t : list action) (w : wrapper) :
  connect env cwd fs = (t, Continues w) ->
  exists cfg,
    loadConfig fs (projectRoot env cwd) = Return cfg /\
    config w = Some cfg /\
    currentProfile w = defaultProfile cfg /\
    currentFormat w = defaultFormat cfg /\
    printHelp w = Return t /\
    (forall k rest,
       keys (profiles cfg) = k :: rest -> k <> EmptyString -> loaded w = true).
Proof.
  intros H. pose proof H as Hc.
  apply connect_Continues in Hc as (cfg & Hload & Hw & Ht).
  exists cfg. split; [exact Hload |]. split; [now rewrite Hw |].
  split; [now rewrite Hw |]. split; [now rewrite Hw |]. split; [exact Ht |].
  intros k rest. apply (connect_loaded env cwd fs t w k rest cfg H). now rewrite Hw.
Qed.

(** X23. A connect that did not exit can still leave a session in which no
    command runs: when the document has no profile, or its first profile
    has the empty name, and it sets no usable defaultProfile, every
    command is answered with the not-loaded message. *)
Theorem connect_without_profile (env : option string) (cwd : string) (fs : filesystem)
    (t : list action) (w : wrapper) :
  connect env cwd fs = (t, Continues w) ->
  truthy (currentProfile w) = false ->
  (exists cfg,
     config w = Some cfg /\
     (keys (profiles cfg) = [] \/ exists rest, keys (profiles cfg) = EmptyString :: rest)) /\
  (forall command arg,
     runCommand w command arg =
       ([ConsoleLog ["Configuration not loaded!"]; Prompt], Return tt)).
Proof.
  intros H Hfalsy. pose proof H as Hc.
  apply connect_Continues in Hc as (cfg & Hload & Hw & _).
  assert (loaded w = false) as Hloaded
    by (unfold loaded; rewrite Hfalsy; now destruct (config w)).
  split.
  - exists cfg. split; [now rewrite Hw |].
    destruct (keys (profiles cfg)) as [|k rest] eqn:Hkeys; [now left |].
    destruct (String.eqb_spec k EmptyString) as [-> | Hk]; [right; eauto |].
    assert (loaded w = true)
      by (apply (connect_loaded env cwd fs t w k rest cfg H); [now rewrite Hw | assumption..]).
    congruence.
  - intros command arg. unfold Wrapper.runCommand. now rewrite Hloaded.
Qed.

(** X24. connect exits in two cases and in no other: when the loader
    throws, and when the loader returns but the help text cannot be
    built, because the conversion of the default profile or format to
    text throws.  In both the status is 1 and what is shown is the catch
    block's four lines on the error stream, beginning with the message
    of the exception.  With CLAUDE_PROJECT_ROOT set and not empty the
    working directory plays no part: a document missing under that root
    is the failure reported. *)
Theorem connect_failure (env : option string) (cwd : string) (fs : filesystem) :
  (forall e,
     loadConfig fs (projectRoot env cwd) = Throw e ->
     connect env cwd fs =
       ([ Out (ConsoleError ["Failed to load configuration:"; errorMessage e]);
          Out (ConsoleError [LF +:+ "Make sure:"]);
          Out (ConsoleError ["1. .claude/sentry-config.local.md exists"]);
          Out (ConsoleError
                 ["2. The file contains valid Sentry profiles in YAML frontmatter"]) ],
        Exits 1)) /\
  (forall cfg e,
     loadConfig fs (projectRoot env cwd) = Return cfg ->
     printHelp (opened cfg) = Throw e ->
     connect env cwd fs = connect_catch e) /\
  (forall t code,
     connect env cwd fs = (t, Exits code) ->
     code = 1 /\
     exists e,
       (t, Exits code) = connect_catch e /\
       (loadConfig fs (projectRoot env cwd) = Throw e \/
        exists cfg,
          loadConfig fs (projectRoot env cwd) = Return cfg /\
          printHelp (opened cfg) = Throw e /\
          (ToString (js_or (defaultProfile cfg) (VStr "none")) = Throw e \/
           ToString (defaultFormat cfg) = Throw e))) /\
  (forall root,
     env = Some root -> root <> EmptyString ->
     fs !! ConfigLoader.configPath path_join root = None ->
     exists message t,
       connect env cwd fs =
         (Out (ConsoleError ["Failed to load configuration:"; message]) :: t, Exits 1) /\
       includes message (ConfigLoader.configPath path_join root)).
Proof.
  split; [| split; [| split]].
  - intros e He. unfold Repl.connect. now rewrite He.
  - intros cfg e Hload Hhelp. unfold Repl.connect. now rewrite Hload, Hhelp.
  - intros t code. unfold Repl.connect.
    destruct (loadConfig fs (projectRoot env cwd)) as [cfg | e].
    + destruct (printHelp (opened cfg)) as [t' | e] eqn:Hhelp; [discriminate |].
      intros H. split; [now injection H |]. exists e. split; [now rewrite H |].
      right. exists cfg. split; [reflexivity |]. split; [exact Hhelp |].
      revert Hhelp. unfold Repl.printHelp, opened. cbn [currentProfile currentFormat].
      destruct (ToString (js_or _ _)) as [p | e1]; [| intros [= ->]; now left].
      destruct (ToString (defaultFormat cfg)) as [f | e2]; [discriminate |].
      intros [= ->]. now right.
    + intros H. split; [now injection H |]. exists e. split; [now rewrite H |]. now left.
  - intros root -> Hroot Hnone. unfold Repl.connect.
    replace (projectRoot (Some root) cwd) with root by now destruct root.
    unfold ConfigLoader.loadConfig, existsSync. rewrite Hnone. simpl.
    eexists _, _. split; [reflexivity |].
    exists "Configuration file not found at ". eexists. reflexivity.
Qed.

End Connect.
End ReplFacts.

(** ** The command line *)

Module ArgParserFacts.
Import Js Wrapper Helpers ArgParser HelpersFacts.

Section Parse.

Variable COMMANDS : list string.
Variable COMMANDS_INFO : list string.
Variable COMMANDS_DETAIL : list string.
Variable trim : string -> string.
Variable runner : string -> option string -> option string -> completion (option nat).

Local Abbreviation loop := (ArgParser.loop COMMANDS COMMANDS_INFO COMMANDS_DETAIL trim runner).
Local Abbreviation parseArguments :=
  (ArgParser.parseArguments COMMANDS COMMANDS_INFO COMMANDS_DETAIL trim runner).
Local Abbreviation printCommandDetail :=
  (Helpers.printCommandDetail COMMANDS COMMANDS_INFO COMMANDS_DETAIL trim).
Local Abbreviation includes_command := (ArgParser.includes_command COMMANDS).

Lemma includes_command_spec (name : string) :
  includes_command name = true <-> name ∈ COMMANDS.
Proof.
  unfold ArgParser.includes_command. rewrite existsb_exists. split.
  - intros (x & Hx & Heq). apply String.eqb_eq in Heq as ->. now apply list_elem_of_In.
  - intros H. exists name. split; [now apply list_elem_of_In | apply String.eqb_refl].
Qed.

(** The five arguments parseArguments answers itself. *)
Lemma flag_tests (a : string) :
  a ∉ ["--version"; "-v"; "--commands"; "--help"; "-h"] <->
  (String.eqb a "--version" || String.eqb a "-v") = false /\
  String.eqb a "--commands" = false /\
  (String.eqb a "--help" || String.eqb a "-h") = false.
Proof.
  rewrite !orb_false_iff, !String.eqb_neq, !not_elem_of_cons. 
  pose proof (not_elem_of_nil a). tauto.
Qed.

(** A branch that exits is not the interactive one. *)
Ltac exits :=
  split; [split; [discriminate | intros H; decompose [and] H; discriminate]
         | discriminate].

(** From the second argument on, only the flags are looked at. *)
Lemma loop_later (args : list string) (i : nat) (rest : list string) :
  (loop args (S i) rest = ([], Resolved false) <->
   Forall (fun a => a ∉ ["--version"; "-v"; "--commands"; "--help"; "-h"]) rest) /\
  (forall t b, loop args (S i) rest = (t, Resolved b) -> t = [] /\ b = false).
Proof.
  revert i. induction rest as [|a rest IH]; intros i.
  - simpl. split; [split; [constructor | reflexivity] |].
    now intros t b [= <- <-].
  - cbn [ArgParser.loop]. rewrite Forall_cons, flag_tests.
    destruct (String.eqb a "--version" || String.eqb a "-v"); [exits |].
    destruct (String.eqb a "--commands"); [exits |].
    cbn [Nat.eqb andb].
    destruct (String.eqb a "--help" || String.eqb a "-h"); [exits |].
    destruct (IH (S i)) as [IH1 IH2]. split; [| exact IH2].
    rewrite IH1. tauto.
Qed.

(** X26. parseArguments hands over to the interactive mode, by resolving to
    false without any output, exactly when no argument is one of its
    flags and the first argument is not a command; and it never resolves
    to anything else: in every other case the process exits or the
    promise is rejected. *)
Theorem parseArguments_interactive (args : list string) :
  (parseArguments args = ([], Resolved false) <->
   Forall (fun a => a ∉ ["--version"; "-v"; "--commands"; "--help"; "-h"]) args /\
   (forall c, head args = Some c -> c ∉ COMMANDS)) /\
  (forall t b, parseArguments args = (t, Resolved b) -> t = [] /\ b = false).
Proof.
  unfold ArgParser.parseArguments. destruct args as [|a rest].
  - simpl. split; [| now intros t b [= <- <-]].
    split; [| reflexivity]. intros _. split; [constructor |]. intros c H. inversion H.
  - cbn [ArgParser.loop]. rewrite Forall_cons, flag_tests.
    destruct (String.eqb a "--version" || String.eqb a "-v"); [exits |].
    destruct (String.eqb a "--commands"); [exits |].
    destruct (loop_later (a :: rest) 0 rest) as [Hlater1 Hlater2].
    assert (bool_decide ((a :: rest) !! 1 = Some "-h") = true ->
            ~ Forall (fun a0 => a0 ∉ ["--version"; "-v"; "--commands"; "--help"; "-h"]) rest)
      as Hhelp.
    { intros Hd Hall. apply bool_decide_eq_true in Hd.
      destruct rest as [|b rest]; [discriminate |]. injection Hd as ->.
      apply Forall_cons in Hall as [Hh _]. apply Hh.
      apply list_elem_of_In. simpl. tauto. }
    destruct (bool_decide ((a :: rest) !! 1 = Some "-h")) eqn:Hd.
    + specialize (Hhelp eq_refl).
      replace (Nat.leb 2 (length (a :: rest))) with true
        by (apply bool_decide_eq_true in Hd; now destruct rest).
      cbn [Nat.eqb andb]. split; [split; [discriminate | tauto] | discriminate].
    + rewrite andb_false_r.
      destruct (String.eqb a "--help" || String.eqb a "-h"); [exits |].
      change (default EmptyString ((a :: rest) !! 0)) with a.
      cbn [Nat.eqb andb length Nat.leb negb].
      destruct (includes_command a) eqn:Hinc.
      * apply includes_command_spec in Hinc.
        split; [split |].
        -- destruct (runner _ _ _) as [[] |]; discriminate.
        -- intros [_ Hc]. now destruct (Hc a eq_refl).
        -- intros t b. destruct (runner _ _ _) as [[] |]; discriminate.
      * split; [| exact Hlater2]. rewrite Hlater1. split.
        -- intros Hall. repeat split; try assumption.
           intros c [= <-] Hin. apply includes_command_spec in Hin. congruence.
        -- tauto.
Qed.

(** [l.find(P)]: the first element that satisfies P. *)
Lemma head_filter_Some (P : string -> Prop) `{!forall a, Decision (P a)}
    (l : list string) (x : string) :
  head (filter P l) = Some x <->
  exists before after, l = before ++ x :: after /\ P x /\ Forall (fun a => ~ P a) before.
Proof.
  induction l as [|a l IH].
  - split; [discriminate |]. intros (before & after & Heq & _). now destruct before.
  - rewrite filter_cons. destruct (decide (P a)) as [Ha | Ha].
    + split.
      * intros [= <-]. exists [], l. repeat split; [assumption | constructor].
      * intros ([|b before] & after & Heq & Hx & Hall); injection Heq as <- _;
          [reflexivity |].
        apply Forall_cons in Hall as [Hb _]. contradiction.
    + rewrite IH. split.
      * intros (before & after & -> & Hx & Hall). exists (a :: before), after.
        repeat split; [assumption | now constructor].
      * intros ([|b before] & after & Heq & Hx & Hall); injection Heq as <- ->;
          [contradiction |].
        apply Forall_cons in Hall as [_ Hall]. eauto.
Qed.

(** X27. A first argument that is a command is run headless with the first
    of the other arguments that does not begin with a dash as its
    parameters and the first that does as its flag, unless the second
    argument is -h; flags such as --version further along are not
    looked at.  The process then exits, with the runner's status or
    with 0, or the runner's rejection is passed on. *)
Theorem parseArguments_headless (command : string) (rest : list string) :
  command ∈ COMMANDS ->
  command ∉ ["--version"; "-v"; "--commands"; "--help"; "-h"] ->
  head rest <> Some "-h" ->
  exists params flag,
    parseArguments (command :: rest) =
      ([Headless command params flag],
       match runner command params flag with
       | Throw e => Rejected e
       | Return (Some code) => Exited code
       | Return None => Exited 0
       end) /\
    (forall p, params = Some p <->
       exists before after, rest = before ++ p :: after /\
         String.prefix "-" p = false /\
         Forall (fun a => String.prefix "-" a = true) before) /\
    (forall f, flag = Some f <->
       exists before after, rest = before ++ f :: after /\
         String.prefix "-" f = true /\
         Forall (fun a => String.prefix "-" a = false) before).
Proof.
  intros Hcommand Hflag Hhelp.
  apply flag_tests in Hflag as (Hversion & Hcommands & Hgeneral).
  apply includes_command_spec in Hcommand.
  exists (find_params rest), (find_flag rest). split; [| split].
  - unfold ArgParser.parseArguments. cbn [ArgParser.loop].
    rewrite Hversion, Hcommands, Hgeneral.
    change (default EmptyString ((command :: rest) !! 0)) with command.
    rewrite Hcommand.
    assert (bool_decide ((command :: rest) !! 1 = Some "-h") = false) as ->
      by (apply bool_decide_eq_false; now destruct rest).
    rewrite andb_false_r. cbn [Nat.eqb andb length Nat.leb negb drop].
    now destruct (runner _ _ _) as [[] |].
  - intros p. unfold find_params. rewrite head_filter_Some.
    split; intros (before & after & -> & Hp & Hall); exists before, after;
      (repeat split; [assumption |]);
      (eapply Forall_impl; [exact Hall |]); intros a; simpl;
      destruct (String.prefix "-" a); congruence.
  - intros f. unfold find_flag. rewrite head_filter_Some.
    split; intros (before & after & -> & Hf & Hall); exists before, after;
      (repeat split; [assumption |]);
      (eapply Forall_impl; [exact Hall |]); intros a; simpl;
      destruct (String.prefix "-" a); congruence.
Qed.

(** X28. [<name> -h] prints the detail of the name and exits with 0 whatever
    the name is and whatever follows, unless the name is --version, -v
    or --commands: the general help of --help and -h is not reached
    when -h comes second. *)
Theorem parseArguments_command_help (name : string) (rest : list string) :
  name ∉ ["--version"; "-v"; "--commands"] ->
  parseArguments (name :: "-h" :: rest) =
    (map Printed (printCommandDetail name), Exited 0) /\
  (forall e, e ∈ printCommandDetail name -> exists line, e = ConsoleLog line) /\
  (trim name <> EmptyString -> trim name ∉ COMMANDS ->
   head (printCommandDetail name) = Some (ConsoleLog ["Unknown command: " +:+ trim name])).
Proof.
  intros Hname. split; [| split].
  - unfold ArgParser.parseArguments. cbn [ArgParser.loop].
    apply not_elem_of_cons in Hname as [Hv1 Hname].
    apply not_elem_of_cons in Hname as [Hv2 Hname].
    apply not_elem_of_cons in Hname as [Hc _].
    apply String.eqb_neq in Hv1, Hv2, Hc. now rewrite Hv1, Hv2, Hc.
  - apply printCommandDetail_logs.
  - intros Hne Hnotin. unfold Helpers.printCommandDetail.
    destruct (trim name) as [|ch s]; [contradiction |].
    apply indexOf_None in Hnotin. now rewrite Hnotin.
Qed.

End Parse.
End ArgParserFacts.

(** ** The properties at the sample inputs *)

Module Instances.
Import Js ConfigLoader SentryUtil Wrapper Samples MoreSamples JsFacts.

(** loadConfig_missing_file where the root has no configuration. *)
Lemma loadConfig_missing_file_at_root :
  (∅ : filesystem) !! configPath posix_join root = None /\
  exists message,
    loadConfig posix_join (parse_only header_two doc_two) ∅ root = Throw (Error message) /\
    includes message (configPath posix_join root) /\
    includes message "Configuration file not found".
Proof.
  split; [reflexivity |].
  apply (proj1 (proj2 (ConfigLoaderFacts.loadConfig_missing_file
                         posix_join (parse_only header_two doc_two) root))).
  reflexivity.
Defined.



Lemma staging_is_valid : Spec.valid_config config_staging.
Proof.
  exists (entries profiles_staging). split; [reflexivity |].
  intros name profile. simpl.
  destruct (String.eqb name "production").
  - intros [= <-]. exists (entries (profile_of "PROD_TOKEN" "prod-org")), "PROD_TOKEN", "prod-org".
    repeat split; try discriminate.
  - destruct (String.eqb name "staging"); [| discriminate].
    intros [= <-]. eexists _, "STAGING_TOKEN", "staging-org".
    split; [reflexivity |]. repeat split; try discriminate.
    intros u [= <-]. eexists. split; [reflexivity |]. now right.
Defined.

(** getSentryClientOptions_present on both profiles of the staging
    configuration: the default and the explicit baseUrl. *)
Lemma getSentryClientOptions_present_staging :
  (exists fields a o,
     profile_of "PROD_TOKEN" "prod-org" = VObj fields /\
     assoc "authToken" fields = Some a /\
     assoc "organization" fields = Some o /\
     getSentryClientOptions config_staging "production" =
       Return {| authToken := a;
                 organization := o;
                 baseUrl := match assoc "baseUrl" fields with
                            | Some explicit => explicit
                            | None => VStr "https://sentry.io/api/0"
                            end |}) /\
  getSentryClientOptions config_staging "staging" =
    Return {| authToken := VStr "STAGING_TOKEN";
              organization := VStr "staging-org";
              baseUrl := VStr "https://staging.sentry.io/api/0" |}.
Proof.
  split; [| reflexivity].
  apply (ConfigLoaderFacts.getSentryClientOptions_present
           config_staging "production" (entries profiles_staging));
    [exact staging_is_valid | reflexivity | reflexivity].
Defined.

(** C8 as stated fails: a defaultProfile explicitly set to the empty
    string is not preserved, the first key of profiles takes its place; and
    with an empty profiles mapping the loaded configuration has no
    defaultProfile at all. *)
Lemma loadConfig_blank_defaultProfile :
  exists cfg cfg',
    loadConfig posix_join (parse_only header_blank_default doc_blank_default)
      (disk header_blank_default) root = Return cfg /\
    get_prop doc_blank_default "defaultProfile" = Return (VStr EmptyString) /\
    defaultProfile cfg = VStr "first" /\
    defaultProfile cfg <> VStr EmptyString /\
    loadConfig posix_join (parse_only header_empty doc_empty)
      (disk header_empty) root = Return cfg' /\
    defaultProfile cfg' = VUndefined.
Proof.
  eexists _, _. split; [vm_compute; reflexivity |].
  split; [reflexivity |]. split; [reflexivity |]. split; [discriminate |].
  split; [vm_compute; reflexivity | reflexivity].
Qed.

(** loadConfig_defaults on the document with two profiles and no
    defaults. *)
Lemma loadConfig_defaults_two_profiles :
  let cfg := {| profiles := VObj [("first", profile_of "FIRST_TOKEN" "first-org");
                                  ("second", profile_of "SECOND_TOKEN" "second-org")];
                defaultProfile := VStr "first";
                defaultFormat := VStr "json" |} in
  loadConfig posix_join (parse_only header_two doc_two) (disk header_two) root = Return cfg /\
  exists content header doc dp df,
    disk header_two !! configPath posix_join root = Some (File content) /\
    match_frontmatter content = Some header /\
    parse_only header_two doc_two header = Return doc /\
    get_prop doc "profiles" = Return (profiles cfg) /\
    get_prop doc "defaultProfile" = Return dp /\
    get_prop doc "defaultFormat" = Return df /\
    defaultProfile cfg =
      (if truthy dp then dp
       else match keys (profiles cfg) with
            | first :: _ => VStr first
            | [] => VUndefined
            end) /\
    defaultFormat cfg = (if truthy df then df else VStr "json").
Proof.
  assert (loadConfig posix_join (parse_only header_two doc_two) (disk header_two) root =
          Return {| profiles := VObj [("first", profile_of "FIRST_TOKEN" "first-org");
                                      ("second", profile_of "SECOND_TOKEN" "second-org")];
                    defaultProfile := VStr "first";
                    defaultFormat := VStr "json" |}) as Hload
    by (vm_compute; reflexivity).
  split; [exact Hload |].
  exact (ConfigLoaderFacts.loadConfig_defaults posix_join (parse_only header_two doc_two)
           (disk header_two) root _ Hload).
Defined.

(** loadConfig_empty_profiles on the document of the empty-profiles
    test. *)
Lemma loadConfig_empty_profiles_test :
  exists cfg,
    loadConfig posix_join (parse_only header_empty doc_empty) (disk header_empty) root
      = Return cfg /\
    profiles cfg = VObj [] /\
    keys (profiles cfg) = [] /\
    (forall name, name ∉ Object_prototype ->
                  get_prop (profiles cfg) name = Return VUndefined) /\
    (truthy (default VUndefined (assoc "defaultProfile" (entries doc_empty))) = false ->
     defaultProfile cfg = VUndefined) /\
    (assoc "defaultProfile" (entries doc_empty) = None -> defaultProfile cfg = VUndefined).
Proof.
  apply (ConfigLoaderFacts.loadConfig_empty_profiles posix_join
           (parse_only header_empty doc_empty) (disk header_empty) root
           ("---" +:+ LF +:+ header_empty +:+ LF +:+ "---" +:+ LF) header_empty
           (entries doc_empty));
    vm_compute; reflexivity.
Defined.

(** getClient_pooling in a fresh process: the second call returns the
    first client even after the configuration document has been deleted. *)
Lemma getClient_pooling_fresh_process :
  let r1 := {| clients := {[ "production" := first_client ]}; constructed := 1 |} in
  getClient posix_join (parse_only header_staging doc_staging)
    (disk header_staging) root "production" initial = (Return first_client, r1) /\
  getClient posix_join (parse_only header_staging doc_staging)
    ∅ root "production" r1 = (Return first_client, r1) /\
  forall c' r3,
    getClient posix_join (parse_only header_staging doc_staging)
      (disk header_staging) root "production" (clearClients r1) = (Return c', r3) ->
    c' <> first_client /\ client_id c' <> client_id first_client.
Proof.
  assert (getClient posix_join (parse_only header_staging doc_staging)
            (disk header_staging) root "production" initial =
          (Return first_client,
           {| clients := {[ "production" := first_client ]}; constructed := 1 |})) as Hfirst
    by (vm_compute; reflexivity).
  split; [exact Hfirst |].
  pose proof (SentryUtilFacts.getClient_pooling posix_join
                (parse_only header_staging doc_staging)
                (disk header_staging) ∅ (disk header_staging) root root root
                "production" initial _ first_client
                (reachable_initial _ _) Hfirst) as H.
  split; [exact (proj1 H) | exact (proj1 (proj2 (proj2 (proj2 H))))].
Defined.

(** runCommand_required_parameter for get-event on the empty parameter
    object, in the session of the staging configuration: both names are
    in the message. *)
Lemma runCommand_required_parameter_get_event :
  loaded session = true /\
  Wrapper.runCommand (json_lookup json_texts) id offline session "get-event" "{}" =
    ([ConsoleError ["ERROR: " +:+ quoted "projectSlug" +:+ " and " +:+ quoted "eventId"
                    +:+ " parameters are required"]; Prompt], Return tt) /\
  remote_calls
    (Wrapper.runCommand (json_lookup json_texts) id offline session "get-event" "{}").1 = [].
Proof.
  assert (("get-event", ["projectSlug"; "eventId"]) ∈ Spec.catalog) as Hcommand
    by (apply list_elem_of_In; simpl; tauto).
  assert ("eventId" ∈ ["projectSlug"; "eventId"]) as Hr
    by (apply list_elem_of_In; simpl; tauto).
  pose proof (WrapperFacts.runCommand_required_parameter (json_lookup json_texts) id offline
                session "get-event" "{}" "eventId" ["projectSlug"; "eventId"] []
                eq_refl Hcommand Hr eq_refl) as (Hloaded & _ & Hcalls).
  split; [reflexivity |]. split; [exact (Hloaded eq_refl) | exact Hcalls].
Defined.

(** C2 as stated fails: connect() accepts the document whose profiles
    mapping is empty and leaves a session without a current profile; there
    get-event on the empty parameter object, which omits both required
    parameters, is not answered with the message that names them, and on
    no stream is a failure returned: runCommand prints and returns
    nothing. *)
Lemma required_parameter_not_loaded :
  Repl.connect posix_join (parse_only header_empty doc_empty) to_text Constants.COMMANDS
    None root (disk header_empty) =
    ((Repl.connect posix_join (parse_only header_empty doc_empty) to_text Constants.COMMANDS
        None root (disk header_empty)).1,
     Repl.Continues session_empty) /\
  Wrapper.parse_args (json_lookup json_texts) id "{}" = Return (VObj []) /\
  Wrapper.runCommand (json_lookup json_texts) id offline session_empty "get-event" "{}" =
    ([ConsoleLog ["Configuration not loaded!"]; Prompt], Return tt) /\
  Wrapper.runCommand (json_lookup json_texts) id offline session_empty "get-event" "{}" <>
    ([ConsoleError ["ERROR: " +:+ quoted "projectSlug" +:+ " and " +:+ quoted "eventId"
                    +:+ " parameters are required"]; Prompt], Return tt).
Proof.
  split; [vm_compute; reflexivity |]. split; [reflexivity |].
  split; [reflexivity | discriminate].
Qed.

(** C4 as stated fails: the message of the interactive dispatcher is not
    exactly Unknown command: followed by the name, it goes on. *)
Lemma unknown_command_message_has_hint :
  exists message,
    Wrapper.runCommand (json_lookup json_texts) id offline session "unknown-cmd" "{}" =
      ([ConsoleError [message]; Prompt], Return tt) /\
    message = "Unknown command: unknown-cmd. Type " +:+ quoted "commands" +:+
              " to see available commands." /\
    message <> "Unknown command: " +:+ "unknown-cmd".
Proof.
  eexists. split; [vm_compute; reflexivity |]. split; [reflexivity | discriminate].
Qed.

(** runCommand_unknown_command for unknown-cmd: with the empty parameter
    object in the session of the staging configuration, with an argument
    that is not JSON there, and in the session without a profile. *)
Lemma runCommand_unknown_command_unknown_cmd :
  ("unknown-cmd" ∉ Constants.COMMANDS) /\
  Wrapper.runCommand (json_lookup json_texts) id offline session "unknown-cmd" "{}" =
    ([ConsoleError ["Unknown command: " +:+ "unknown-cmd" +:+ ". Type " +:+
                    quoted "commands" +:+ " to see available commands."];
      Prompt], Return tt) /\
  Wrapper.runCommand (json_lookup json_texts) id offline session "unknown-cmd" "{oops" =
    ([ConsoleError ["Error running command:"; "Unexpected token"]; Prompt], Return tt) /\
  Wrapper.runCommand (json_lookup json_texts) id offline session_empty "unknown-cmd" "{}" =
    ([ConsoleLog ["Configuration not loaded!"]; Prompt], Return tt) /\
  remote_calls
    (Wrapper.runCommand (json_lookup json_texts) id offline session "unknown-cmd" "{}").1 = [].
Proof.
  assert ("unknown-cmd" ∉ Constants.COMMANDS) as Hunknown by not_listed.
  split; [exact Hunknown |].
  pose proof (WrapperFacts.runCommand_unknown_command (json_lookup json_texts) id offline
                session "unknown-cmd" "{}" Hunknown) as (Hcalls & Hrun & _).
  split; [apply (Hrun eq_refl (VObj [])); [reflexivity | discriminate | discriminate] |].
  split;
    [exact (proj1 (proj2 (proj2 (WrapperFacts.runCommand_unknown_command
                                   (json_lookup json_texts) id offline
                                   session "unknown-cmd" "{oops" Hunknown)))
              eq_refl (ErrorObject "SyntaxError" "Unexpected token") eq_refl) |].
  split;
    [exact (proj1 (proj2 (proj2 (proj2 (proj2 (WrapperFacts.runCommand_unknown_command
                                                 (json_lookup json_texts) id offline
                                                 session_empty "unknown-cmd" "{}"
                                                 Hunknown)))))
              eq_refl) |].
  exact Hcalls.
Defined.



(** falsy_value_is_missing for get-issue with an empty issueId, and for a
    profile with an empty organization. *)
Lemma falsy_value_is_missing_samples :
  (Wrapper.runCommand (json_lookup json_texts) id offline session "get-issue" arg_blank_issue =
     ([ConsoleError [Spec.required_message ["issueId"]]; Prompt], Return tt) /\
   Wrapper.runCommand (json_lookup json_texts) id offline session "get-issue" arg_blank_issue =
     Wrapper.runCommand (json_lookup json_texts) id offline session "get-issue" "{}" /\
   remote_calls
     (Wrapper.runCommand (json_lookup json_texts) id offline session "get-issue"
        arg_blank_issue).1 = []) /\
  loadConfig posix_join (parse_only header_blank_org doc_blank_org)
    (disk header_blank_org) root =
    Throw (Error ("Profile " +:+ quoted "broken" +:+ " missing required field: " +:+
                  "organization")).
Proof.
  pose proof (WrapperFacts.falsy_value_is_missing (json_lookup json_texts) id offline
                posix_join (parse_only header_blank_org doc_blank_org)) as [Hdispatch [Hload _]].
  split.
  - apply (Hdispatch session "get-issue" arg_blank_issue "{}" "issueId" ["issueId"]
             [("issueId", VStr EmptyString)] (VStr EmptyString));
      try reflexivity; apply list_elem_of_In; simpl; tauto.
  - apply (Hload (disk header_blank_org) root
             ("---" +:+ LF +:+ header_blank_org +:+ LF +:+ "---" +:+ LF)
             header_blank_org "broken" "organization" doc_blank_org (VStr EmptyString)
             [] []
             [("authToken", VStr "TOKEN_HERE"); ("organization", VStr EmptyString)]);
      try (vm_compute; reflexivity).
    right. split; reflexivity.
Defined.

End Instances.

(** ** The further properties at the sample inputs *)

Module MoreInstances.
Import Js ConfigLoader SentryUtil Wrapper Helpers Repl ArgParser Calls Shapes
       Samples MoreSamples DispatchFacts.

(** loadConfig_without_header for a document with no header block. *)
Lemma loadConfig_without_header_plain :
  loadConfig posix_join (parse_only header_empty doc_empty) (disk_of text_plain) root =
    Throw (Error "Invalid configuration file format. Expected YAML frontmatter (---...---) at the beginning.").
Proof.
  apply (LoaderFacts.loadConfig_without_header posix_join
           (parse_only header_empty doc_empty) (disk_of text_plain) root text_plain).
  - vm_compute. reflexivity.
  - apply FrontmatterFacts.match_frontmatter_none. vm_compute. reflexivity.
Defined.

(** loadConfig_ignores_body for the staging document with and without
    notes under its header. *)
Lemma loadConfig_ignores_body_notes :
  loadConfig posix_join (parse_only header_staging doc_staging) (disk header_staging) root =
  loadConfig posix_join (parse_only header_staging doc_staging)
    (disk_of text_staging_notes) root.
Proof.
  apply (LoaderFacts.loadConfig_ignores_body posix_join
           (parse_only header_staging doc_staging)
           (disk header_staging) (disk_of text_staging_notes) root
           header_staging LF notes);
    vm_compute; reflexivity.
Defined.

(** loadConfig_profiles_not_a_mapping for profiles set to a text. *)
Lemma loadConfig_profiles_not_a_mapping_text :
  loadConfig posix_join (parse_only header_text_profiles doc_text_profiles)
    (disk header_text_profiles) root =
    Throw (Error ("Configuration must include " +:+ quoted "profiles" +:+ " object")).
Proof.
  apply (LoaderFacts.loadConfig_profiles_not_a_mapping posix_join
           (parse_only header_text_profiles doc_text_profiles)
           (disk header_text_profiles) root
           ("---" +:+ LF +:+ header_text_profiles +:+ LF +:+ "---" +:+ LF)
           header_text_profiles doc_text_profiles (VStr "none"));
    first [exact I | vm_compute; reflexivity].
Defined.

(** loadConfig_bad_baseUrl for a baseUrl with the ftp scheme. *)
Lemma loadConfig_bad_baseUrl_ftp :
  loadConfig posix_join (parse_only header_ftp doc_ftp) (disk header_ftp) root =
    Throw (Error ("Profile " +:+ quoted "mirror" +:+
                  " baseUrl must start with http:// or https://")).
Proof.
  apply (LoaderFacts.loadConfig_bad_baseUrl posix_join (parse_only header_ftp doc_ftp)
           (disk header_ftp) root
           ("---" +:+ LF +:+ header_ftp +:+ LF +:+ "---" +:+ LF)
           header_ftp "mirror" "ftp://sentry.example" doc_ftp [] [] fields_ftp);
    try (vm_compute; reflexivity).
  discriminate.
Defined.

(** loadConfig_postcondition for the staging document. *)
Lemma loadConfig_postcondition_staging :
  ((exists props, profiles config_staging = VObj props) \/
   (exists elems, profiles config_staging = VArr elems)) /\
  forall name profile,
    (name, profile) ∈ entries (profiles config_staging) ->
    exists a o b,
      get_prop profile "authToken" = Return a /\ truthy a = true /\
      get_prop profile "organization" = Return o /\ truthy o = true /\
      get_prop profile "baseUrl" = Return b /\
      (truthy b = false \/
       exists s, b = VStr s /\
         (String.prefix "http://" s = true \/ String.prefix "https://" s = true)).
Proof.
  apply (LoaderFacts.loadConfig_postcondition posix_join
           (parse_only header_staging doc_staging) (disk header_staging) root
           config_staging).
  vm_compute. reflexivity.
Defined.

(** loaded_profiles_resolve for staging, the second profile. *)
Lemma loaded_profiles_resolve_staging :
  exists options s,
    getSentryClientOptions config_staging "staging" = Return options /\
    truthy (authToken options) = true /\
    truthy (organization options) = true /\
    baseUrl options = VStr s /\
    (String.prefix "http://" s = true \/ String.prefix "https://" s = true).
Proof.
  apply (LoaderFacts.loaded_profiles_resolve posix_join
           (parse_only header_staging doc_staging) (disk header_staging) root
           "staging" config_staging
           [("production", profile_of "PROD_TOKEN" "prod-org");
            ("staging",
             VObj [("authToken", VStr "STAGING_TOKEN");
                   ("organization", VStr "staging-org");
                   ("baseUrl", VStr "https://staging.sentry.io/api/0")])]).
  - vm_compute. reflexivity.
  - reflexivity.
  - apply list_elem_of_In. simpl. tauto.
Defined.

(** default_profile_resolves for the document with two profiles and no
    defaults. *)
Lemma default_profile_resolves_two :
  defaultProfile config_two = VStr "first" /\
  exists options,
    getSentryClientOptions config_two "first" = Return options /\
    truthy (authToken options) = true /\
    truthy (organization options) = true.
Proof.
  apply (LoaderFacts.default_profile_resolves posix_join (parse_only header_two doc_two)
           (disk header_two) root
           ("---" +:+ LF +:+ header_two +:+ LF +:+ "---" +:+ LF) header_two "first"
           config_two
           [("profiles",
             VObj [("first", profile_of "FIRST_TOKEN" "first-org");
                   ("second", profile_of "SECOND_TOKEN" "second-org")])]
           [("second", profile_of "SECOND_TOKEN" "second-org")]
           (profile_of "FIRST_TOKEN" "first-org"));
    vm_compute; reflexivity.
Defined.

(** explicit_default_not_checked for a defaultProfile that names no
    profile. *)
Lemma explicit_default_not_checked_ghost :
  ("ghost" ∉ Object_prototype) /\
  exists cfg message,
    loadConfig posix_join (parse_only header_ghost doc_ghost) (disk header_ghost) root =
      Return cfg /\
    defaultProfile cfg = VStr "ghost" /\
    getSentryClientOptions cfg "ghost" = Throw (Error message) /\
    includes message "not found".
Proof.
  assert ("ghost" ∉ Object_prototype) as Hname by JsFacts.not_listed.
  split; [exact Hname |].
  assert ("ghost" <> EmptyString) as Hne by discriminate.
  destruct (LoaderFacts.explicit_default_not_checked posix_join
              (parse_only header_ghost doc_ghost) (disk header_ghost) root
              ("---" +:+ LF +:+ header_ghost +:+ LF +:+ "---" +:+ LF) header_ghost "ghost"
              doc_ghost [("first", profile_of "FIRST_TOKEN" "first-org")])
    as (cfg & Hload & Hdefault & Hthrows & _);
    try (vm_compute; reflexivity); try exact Hne.
  destruct (Hthrows Hname) as (message & Hmessage & Hfound).
  exists cfg, message. repeat split; assumption.
Defined.

(** loadConfig_null_type_error for an empty header, which parses to
    null. *)
Lemma loadConfig_null_type_error_empty_header :
  exists message,
    loadConfig posix_join (parse_only EmptyString VNull) (disk EmptyString) root =
      Throw (TypeError message).
Proof.
  apply (LoaderFacts.loadConfig_null_type_error posix_join (parse_only EmptyString VNull)
           (disk EmptyString) root
           ("---" +:+ LF +:+ EmptyString +:+ LF +:+ "---" +:+ LF) EmptyString VNull);
    try (vm_compute; reflexivity).
  now left.
Defined.

(** loadConfig_baseUrl_type_error for a baseUrl that is a number. *)
Lemma loadConfig_baseUrl_type_error_port :
  exists message,
    loadConfig posix_join (parse_only header_port doc_port) (disk header_port) root =
      Throw (TypeError message).
Proof.
  apply (LoaderFacts.loadConfig_baseUrl_type_error posix_join
           (parse_only header_port doc_port) (disk header_port) root
           ("---" +:+ LF +:+ header_port +:+ LF +:+ "---" +:+ LF) header_port "local"
           doc_port (VNum 8080) [] [] fields_port);
    try (vm_compute; reflexivity).
  discriminate.
Defined.

(** runCommand_routes for get-event with both of its parameters. *)
Lemma runCommand_routes_get_event :
  exists c,
    Wrapper.runCommand (json_lookup json_more) ascii_trim echo session "get-event" arg_event =
      ([Remote c; report (echo c); Prompt], Return tt) /\
    call_command c = "get-event" /\
    call_required c = [VStr "web"; VStr "e1"] /\
    call_profile c = VStr "production" /\
    (forall f, call_format c = Some f -> f = VStr "json") /\
    (forall a, call_args c = Some a -> a = VObj params_event).
Proof.
  apply (DispatchFacts.runCommand_routes (json_lookup json_more) ascii_trim echo session
           "get-event" arg_event ["projectSlug"; "eventId"] params_event).
  - reflexivity.
  - vm_compute. reflexivity.
  - apply list_elem_of_In. simpl. tauto.
  - repeat constructor.
Defined.

(** runCommand_argument_error for an argument that is not JSON. *)
Lemma runCommand_argument_error_not_json :
  Wrapper.runCommand (json_lookup json_more) ascii_trim echo session "get-issue" "{oops" =
    ([ConsoleError ["Error running command:"; "Unexpected token"]; Prompt], Return tt).
Proof.
  apply (proj1 (DispatchFacts.runCommand_argument_error (json_lookup json_more) ascii_trim
                  echo session "get-issue" "{oops" eq_refl)
           (ErrorObject "SyntaxError" "Unexpected token")).
  vm_compute. reflexivity.
Defined.

(** runCommand_scalar_argument for get-issue 42. *)
Lemma runCommand_scalar_argument_number :
  Wrapper.runCommand (json_lookup json_more) ascii_trim echo session "get-issue" "42" =
    ([ConsoleError [Spec.required_message ["issueId"]]; Prompt], Return tt).
Proof.
  apply (DispatchFacts.runCommand_scalar_argument (json_lookup json_more) ascii_trim echo
           session "get-issue" "42" "issueId" ["issueId"] (VNum 42)).
  - reflexivity.
  - vm_compute. reflexivity.
  - exact I.
  - apply list_elem_of_In. simpl. tauto.
  - apply list_elem_of_In. simpl. tauto.
Defined.

(** runCommand_call_sound for the call test-connection makes. *)
Lemma runCommand_call_sound_test_connection :
  loaded session = true /\
  call_command (testConnection (VStr "production")) = "test-connection" /\
  "test-connection" ∈ Constants.COMMANDS /\
  Forall (fun v => truthy v = true) (call_required (testConnection (VStr "production"))) /\
  exists args p,
    Wrapper.parse_args (json_lookup json_more) ascii_trim "{}" = Return args /\
    get_prop args "profile" = Return p /\
    call_profile (testConnection (VStr "production")) = js_or p (currentProfile session).
Proof.
  apply (DispatchFacts.runCommand_call_sound (json_lookup json_more) ascii_trim echo
           session "test-connection" "{}" (testConnection (VStr "production"))).
  vm_compute. left.
Defined.

(** handleCommand_keeps_session for [format toon] typed with blanks
    around it. *)
Lemma handleCommand_keeps_session_format :
  config session_toon = config session /\
  (currentFormat session_toon = currentFormat session \/
   currentFormat session_toon = VStr "json" \/ currentFormat session_toon = VStr "toon") /\
  (currentProfile session_toon = currentProfile session \/
   exists cfg name profile,
     config session = Some cfg /\
     get_prop (profiles cfg) name = Return profile /\
     truthy profile = true /\
     currentProfile session_toon = VStr name).
Proof.
  apply (ReplFacts.handleCommand_keeps_session (json_lookup json_more) ascii_trim echo
           to_text Constants.COMMANDS infos details session session_toon
           "  format toon "
           [Out (ConsoleLog ["✓ Output format set to: toon"]); Out Prompt]).
  vm_compute. reflexivity.
Defined.

(** handleCommand_prompts_or_closes for quit. *)
Lemma handleCommand_prompts_or_closes_quit :
  (Repl.handleCommand (json_lookup json_more) ascii_trim echo to_text Constants.COMMANDS
     infos details session "quit").1 =
    [Out (ConsoleLog [LF +:+ "Closing Sentry connections..."]); ClearClients; Close].
Proof.
  apply (proj1 (ReplFacts.handleCommand_prompts_or_closes (json_lookup json_more)
                  ascii_trim echo to_text Constants.COMMANDS infos details session session
                  "quit" _ eq_refl)).
  vm_compute. right. left.
Defined.

(** handleCommand_call_sound for the line test-connection. *)
Lemma handleCommand_call_sound_test_connection :
  loaded session = true /\
  call_command (testConnection (VStr "production")) =
    (split_space (ascii_trim "test-connection")).1 /\
  call_command (testConnection (VStr "production")) ∈ Constants.COMMANDS /\
  Forall (fun v => truthy v = true) (call_required (testConnection (VStr "production"))) /\
  (exists args p,
     Wrapper.parse_args (json_lookup json_more) ascii_trim
       match (split_space (ascii_trim "test-connection")).2 with
       | Some text => ascii_trim text
       | None => EmptyString
       end = Return args /\
     get_prop args "profile" = Return p /\
     call_profile (testConnection (VStr "production")) = js_or p (currentProfile session)).
Proof.
  apply (ReplFacts.handleCommand_call_sound (json_lookup json_more) ascii_trim echo
           to_text Constants.COMMANDS infos details session "test-connection"
           (testConnection (VStr "production"))).
  vm_compute. left.
Defined.

(** profile_switch_applies for [profile staging]. *)
Lemma profile_switch_applies_staging :
  exists w',
    Repl.handleCommand (json_lookup json_more) ascii_trim echo to_text Constants.COMMANDS
      infos details session "profile staging" =
      ([ Out (ConsoleLog ["✓ Switched to profile: " +:+ ascii_trim "staging"]); Out Prompt ],
       Return w') /\
    config w' = config session /\
    currentFormat w' = currentFormat session /\
    currentProfile w' = VStr (ascii_trim "staging") /\
    forall command arg c,
      Remote c ∈ (Wrapper.runCommand (json_lookup json_more) ascii_trim echo w' command arg).1 ->
      exists args p,
        Wrapper.parse_args (json_lookup json_more) ascii_trim arg = Return args /\
        get_prop args "profile" = Return p /\
        call_profile c = (if truthy p then p else VStr (ascii_trim "staging")).
Proof.
  apply (ReplFacts.profile_switch_applies (json_lookup json_more) ascii_trim echo to_text
           Constants.COMMANDS infos details session "profile staging" "staging"
           config_staging
           (VObj [("authToken", VStr "STAGING_TOKEN");
                  ("organization", VStr "staging-org");
                  ("baseUrl", VStr "https://staging.sentry.io/api/0")]));
    vm_compute; reflexivity.
Defined.

(** connect_session for the document with two profiles, found through
    CLAUDE_PROJECT_ROOT. *)
Lemma connect_session_two :
  exists cfg,
    loadConfig posix_join (parse_only header_two doc_two) (disk header_two)
      (projectRoot (Some root) "/tmp") = Return cfg /\
    config session_two = Some cfg /\
    currentProfile session_two = defaultProfile cfg /\
    currentFormat session_two = defaultFormat cfg /\
    Repl.printHelp to_text Constants.COMMANDS session_two =
      Return (Repl.connect posix_join (parse_only header_two doc_two) to_text
                Constants.COMMANDS (Some root) "/tmp" (disk header_two)).1 /\
    (forall k rest,
       keys (profiles cfg) = k :: rest -> k <> EmptyString -> loaded session_two = true).
Proof.
  apply (ReplFacts.connect_session posix_join (parse_only header_two doc_two) to_text
           Constants.COMMANDS (Some root) "/tmp" (disk header_two)
           (Repl.connect posix_join (parse_only header_two doc_two) to_text
              Constants.COMMANDS (Some root) "/tmp" (disk header_two)).1
           session_two).
  vm_compute. reflexivity.
Defined.

(** connect_without_profile for the document with no profile. *)
Lemma connect_without_profile_empty :
  (exists cfg,
     config session_empty = Some cfg /\
     (keys (profiles cfg) = [] \/ exists rest, keys (profiles cfg) = EmptyString :: rest)) /\
  (forall command arg,
     Wrapper.runCommand (json_lookup json_more) ascii_trim echo session_empty command arg =
       ([ConsoleLog ["Configuration not loaded!"]; Prompt], Return tt)).
Proof.
  apply (ReplFacts.connect_without_profile posix_join (parse_only header_empty doc_empty)
           (json_lookup json_more) ascii_trim echo to_text Constants.COMMANDS
           None root (disk header_empty)
           (Repl.connect posix_join (parse_only header_empty doc_empty) to_text
              Constants.COMMANDS None root (disk header_empty)).1
           session_empty).
  - vm_compute. reflexivity.
  - reflexivity.
Defined.

(** connect_failure for a document that loads and whose defaultProfile
    cannot be shown in the help text: connect exits with status 1 although
    loadConfig returned. *)
Lemma connect_failure_unprintable :
  loadConfig posix_join (parse_only header_unprintable doc_unprintable)
    (disk header_unprintable) (projectRoot None root) = Return config_unprintable /\
  Repl.connect posix_join (parse_only header_unprintable doc_unprintable) to_text
    Constants.COMMANDS None root (disk header_unprintable) =
    ([ Out (ConsoleError ["Failed to load configuration:";
                          "Cannot convert object to primitive value"]);
       Out (ConsoleError [LF +:+ "Make sure:"]);
       Out (ConsoleError ["1. .claude/sentry-config.local.md exists"]);
       Out (ConsoleError
              ["2. The file contains valid Sentry profiles in YAML frontmatter"]) ],
     Exits 1).
Proof.
  assert (loadConfig posix_join (parse_only header_unprintable doc_unprintable)
            (disk header_unprintable) (projectRoot None root) = Return config_unprintable)
    as Hload by (vm_compute; reflexivity).
  split; [exact Hload |].
  exact (proj1 (proj2 (ReplFacts.connect_failure posix_join
                         (parse_only header_unprintable doc_unprintable) to_text
                         Constants.COMMANDS None root (disk header_unprintable)))
           config_unprintable (TypeError "Cannot convert object to primitive value")
           Hload eq_refl).
Defined.

(** parseArguments_headless for get-issue followed by --version and its
    argument: the flag is handed to the runner, not answered. *)
Lemma parseArguments_headless_get_issue :
  exists params flag,
    ArgParser.parseArguments Constants.COMMANDS infos details ascii_trim runner_ok
      ("get-issue" :: ["--version"; "{}"]) =
      ([Headless "get-issue" params flag],
       match runner_ok "get-issue" params flag with
       | Throw e => Rejected e
       | Return (Some code) => Exited code
       | Return None => Exited 0
       end) /\
    (forall p, params = Some p <->
       exists before after, ["--version"; "{}"] = before ++ p :: after /\
         String.prefix "-" p = false /\
         Forall (fun a => String.prefix "-" a = true) before) /\
    (forall f, flag = Some f <->
       exists before after, ["--version"; "{}"] = before ++ f :: after /\
         String.prefix "-" f = true /\
         Forall (fun a => String.prefix "-" a = false) before).
Proof.
  apply (ArgParserFacts.parseArguments_headless Constants.COMMANDS infos details ascii_trim
           runner_ok "get-issue" ["--version"; "{}"]).
  - apply list_elem_of_In. simpl. tauto.
  - intros H. absent H.
  - discriminate.
Defined.

(** parseArguments_command_help for --help -h: the detail of a command
    named --help is asked for, and there is none. *)
Lemma parseArguments_command_help_help :
  ArgParser.parseArguments Constants.COMMANDS infos details ascii_trim runner_ok
    ["--help"; "-h"] =
    (map Printed (Helpers.printCommandDetail Constants.COMMANDS infos details ascii_trim
                    "--help"), Exited 0) /\
  head (Helpers.printCommandDetail Constants.COMMANDS infos details ascii_trim "--help") =
    Some (ConsoleLog ["Unknown command: --help"]).
Proof.
  assert ("--help" ∉ ["--version"; "-v"; "--commands"]) as Hname
    by (intros H; absent H).
  destruct (ArgParserFacts.parseArguments_command_help Constants.COMMANDS infos details
              ascii_trim runner_ok "--help" [] Hname) as (Hrun & _ & Hhead).
  split; [exact Hrun |]. apply Hhead.
  - discriminate.
  - intros H. vm_compute in H. absent H.
Defined.

End MoreInstances.
